(** * maskify: segmentation-driven compositing engine

    A shallow embedding of the pure cores of
      - [src/hooks/useTransformers.ts] (mask construction in
        [segmentWithPointsImpl]),
      - [src/components/Canvas.tsx] (relative/absolute conversions),
      - [src/App.tsx] (segmentation session effects and the layer store),
    followed by the properties proved about them.

    Part I holds the definitions, Part II the lemmas and theorems. *)

From Stdlib Require Import QArith Qabs Qround Lqa.
From stdpp Require Import base list strings.

Local Open Scope nat_scope.

(* ===================================================================== *)
(** * Part I: the embedding                                               *)
(* ===================================================================== *)

(** ** JavaScript numbers

    A JS number is NaN, an infinity, or a finite value.  Finite values are
    kept as rationals; the rounding performed by an arithmetic operation is
    the explicit parameter [rnd] of the operations that round ([mul],
    [div]).  Signed zeros are not distinguished. *)
Module JS.

Inductive number : Type :=
| NaN
| Inf (negative : bool)
| Fin (q : Q).

Definition Qltb (x y : Q) : bool := negb (Qle_bool y x).

(** [typeof num === "number" && !isNaN(num)], at a value that is a number. *)
Definition isValidNumber (n : number) : bool :=
  match n with
  | NaN => false
  | _ => true
  end.

(** [a > b] *)
Definition gt (a b : number) : bool :=
  match a, b with
  | NaN, _ | _, NaN => false
  | Inf true, _ => false
  | Inf false, Inf false => false
  | Inf false, _ => true
  | Fin _, Inf negative => negative
  | Fin x, Fin y => Qltb y x
  end.

(** [a < b] *)
Definition lt (a b : number) : bool := gt b a.

(** [a <= b] *)
Definition le (a b : number) : bool :=
  match a, b with
  | NaN, _ | _, NaN => false
  | Inf true, _ => true
  | _, Inf false => true
  | Inf false, _ => false
  | Fin _, Inf true => false
  | Fin x, Fin y => Qle_bool x y
  end.

(** [a === b] on numbers *)
Definition strictEq (a b : number) : bool :=
  match a, b with
  | Inf s, Inf t => bool_decide (s = t)
  | Fin x, Fin y => Qeq_bool x y
  | _, _ => false
  end.

(** Truthiness of a number: [0] and [NaN] are falsy. *)
Definition truthy (n : number) : bool :=
  match n with
  | NaN => false
  | Inf _ => true
  | Fin q => negb (Qeq_bool q 0)
  end.

(** [Math.max(a, b)] and [Math.min(a, b)] *)
Definition Math_max (a b : number) : number :=
  match a, b with
  | NaN, _ | _, NaN => NaN
  | _, _ => if gt b a then b else a
  end.

Definition Math_min (a b : number) : number :=
  match a, b with
  | NaN, _ | _, NaN => NaN
  | _, _ => if gt a b then b else a
  end.

Definition Qsign_neg (q : Q) : bool := Qltb q 0.

Section Rounded.
(** The rounding of the result of one arithmetic operation. *)
Variable rnd : Q -> Q.

(** [a * b] *)
Definition mul (a b : number) : number :=
  match a, b with
  | NaN, _ | _, NaN => NaN
  | Inf s, Inf t => Inf (xorb s t)
  | Inf s, Fin y | Fin y, Inf s =>
      if Qeq_bool y 0 then NaN else Inf (xorb s (Qsign_neg y))
  | Fin x, Fin y => Fin (rnd (x * y))
  end.

(** [a + b] *)
Definition add (a b : number) : number :=
  match a, b with
  | NaN, _ | _, NaN => NaN
  | Inf s, Inf t => if Bool.eqb s t then Inf s else NaN
  | Inf s, Fin _ | Fin _, Inf s => Inf s
  | Fin x, Fin y => Fin (rnd (x + y))
  end.

(** [a / b] *)
Definition div (a b : number) : number :=
  match a, b with
  | NaN, _ | _, NaN => NaN
  | Inf _, Inf _ => NaN
  | Inf s, Fin y => Inf (xorb s (Qsign_neg y))
  | Fin _, Inf _ => Fin 0
  | Fin x, Fin y =>
      if Qeq_bool y 0
      then (if Qeq_bool x 0 then NaN else Inf (Qsign_neg x))
      else Fin (rnd (x / y))
  end.
End Rounded.

(** Conversion performed when a number is stored into a [Uint8Array]:
    truncate towards zero, then reduce modulo 256; NaN and the infinities
    become 0. *)
Definition Qtruncate (q : Q) : Z :=
  if Qsign_neg q then Qceiling q else Qfloor q.

Definition toUint8 (n : number) : number :=
  match n with
  | Fin q => Fin (inject_Z (Qtruncate q mod 256))
  | _ => Fin 0
  end.

End JS.

(** ** [src/hooks/useTransformers.ts]: mask construction *)
Module Transformers.
Import JS.

(** A tensor of the inference runtime: element type name, shape, flat data. *)
Record Tensor : Type := mkTensor {
  type : string;
  dims : list nat;
  data : list number
}.

(** [tensor.squeeze(0)]: drops a leading dimension of extent 1, same data. *)
Definition squeeze0 (t : Tensor) : Tensor :=
  match dims t with
  | 1 :: ds => mkTensor (type t) ds (data t)
  | _ => t
  end.

(** A 2D canvas after [putImageData]: its size and its RGBA bytes. *)
Record Canvas : Type := mkCanvas {
  width : nat;
  height : nat;
  rgba : list Z
}.

Record MaskData : Type := mkMaskData {
  maskCanvas : option Canvas;
  clippingOverlayCanvas : option Canvas
}.

(** What [try { ... }] observes: a thrown error or a value. *)
Inductive Outcome (A : Type) : Type :=
| Threw (msg : string)
| Returned (a : A).
Arguments Threw {A} msg.
Arguments Returned {A} a.

#[global] Instance Outcome_bind : MBind Outcome := fun A B k o =>
  match o with
  | Threw msg => Threw msg
  | Returned a => k a
  end.

(** Lines 443-451: the scan over [iou_scores.data].  [bestIndexLoop rest i
    maxScore bestIndex] is the [for] loop positioned at index [i], [rest]
    being [scores[i..]]. *)
Fixpoint bestIndexLoop (rest : list number) (i : nat)
    (maxScore : number) (bestIndex : nat) : nat :=
  match rest with
  | [] => bestIndex
  | s :: rest' =>
      if gt s maxScore
      then bestIndexLoop rest' (S i) s i
      else bestIndexLoop rest' (S i) maxScore bestIndex
  end.

Definition selectBestIndex (scores : list number) : nat :=
  if 1 <? length scores
  then match scores with
       | s0 :: rest => bestIndexLoop rest 1 s0 0
       | [] => 0
       end
  else 0.

(** Lines 454-505: the plane of the winning candidate.  Returns
    [(rawMaskData, maskHeight, maskWidth)]. *)
Definition extractMask (masks : list Tensor) (bestIndex0 : nat)
    : Outcome (list number * nat * nat) :=
  match masks !! 0 with
  | None => Threw "Invalid result from post_process_masks."
  | Some masksTensorPre =>
      let masksTensor :=
        if bool_decide (length (dims masksTensorPre) = 4 /\
                        dims masksTensorPre !! 0 = Some 1)
        then squeeze0 masksTensorPre else masksTensorPre in
      match dims masksTensor with
      | [numMasksInTensor; maskHeight; maskWidth] =>
          let bestIndex :=
            if numMasksInTensor <=? bestIndex0 then 0 else bestIndex0 in
          let maskSize := maskHeight * maskWidth in
          let offset := bestIndex * maskSize in
          let slice := take maskSize (drop offset (data masksTensorPre)) in
          let stored :=
            if String.eqb (type masksTensorPre) "float32"
            then slice else toUint8 <$> slice in
          let rawMaskData :=
            stored ++ replicate (maskSize - length stored) (Fin 0) in
          Returned (rawMaskData, maskHeight, maskWidth)
      | _ => Threw "Unexpected tensor shape after potential squeeze"
      end
  end.

(** [ctx.createImageData(w, h)] / [ctx.getImageData(0, 0, w, h)] refuse an
    empty rectangle. *)
Definition checkRect (w h : nat) : Outcome unit :=
  if bool_decide (w = 0 \/ h = 0)
  then Threw "IndexSizeError" else Returned ().

(** Lines 521-531: the highlight loop, positioned at index [i]. *)
Fixpoint blueLoop (rawMaskData : list number) (i : nat)
    (blueRgbaData : list Z) : list Z :=
  match rawMaskData with
  | [] => blueRgbaData
  | m :: rest =>
      let rgbaOffset := 4 * i in
      blueLoop rest (S i)
        (if strictEq m (Fin 1)
         then <[rgbaOffset + 3 := 150%Z]>
                (<[rgbaOffset + 2 := 189%Z]>
                   (<[rgbaOffset + 1 := 114%Z]>
                      (<[rgbaOffset := 0%Z]> blueRgbaData)))
         else <[rgbaOffset + 3 := 0%Z]> blueRgbaData)
  end.

(** Lines 563-568: the clip loop, positioned at index [i]. *)
Fixpoint clipLoop (rawMaskData : list number) (i : nat)
    (clipRgbaData : list Z) : list Z :=
  match rawMaskData with
  | [] => clipRgbaData
  | m :: rest =>
      clipLoop rest (S i)
        (if strictEq m (Fin 1)
         then <[4 * i + 3 := 0%Z]> clipRgbaData
         else clipRgbaData)
  end.

(** One RGBA pixel. *)
Record Pixel : Type := mkPixel { red : Z; green : Z; blue : Z; alpha : Z }.

Definition pixelBytes (p : Pixel) : list Z :=
  [red p; green p; blue p; alpha p].

(** The base image element, seen through [drawImage(element, 0, 0, w, h)]
    followed by [getImageData(0, 0, w, h)]: pixel [i] of the image
    rasterised at [w] x [h]. *)
Definition ImageElement : Type := nat -> nat -> nat -> Pixel.

Definition getImageData (element : ImageElement) (w h : nat) : list Z :=
  flat_map (fun i => pixelBytes (element w h i)) (seq 0 (w * h)).

(** The responses of the segmentation service to one request: the
    [iou_scores.data] of the model call and the tensors returned by
    [post_process_masks]. *)
Record SamResponse : Type := mkSamResponse {
  iou_scores : list number;
  masks : list Tensor
}.

(** Lines 442-575: from the service's responses to the two canvases. *)
Definition buildMaskData (element : ImageElement) (resp : SamResponse)
    : Outcome MaskData :=
  let bestIndex := selectBestIndex (iou_scores resp) in
  '(rawMaskData, maskHeight, maskWidth) ← extractMask (masks resp) bestIndex;
  _ ← checkRect maskWidth maskHeight;
  let blueRgbaData :=
    blueLoop rawMaskData 0 (replicate (4 * (maskWidth * maskHeight)) 0%Z) in
  let clipRgbaData :=
    clipLoop rawMaskData 0 (getImageData element maskWidth maskHeight) in
  Returned (mkMaskData
              (Some (mkCanvas maskWidth maskHeight blueRgbaData))
              (Some (mkCanvas maskWidth maskHeight clipRgbaData))).

(** [segmentWithPointsImpl], lines 357-587.  [ready] is the conjunction of
    the prerequisite checks (processor, model, element, embeddings,
    reshaped sizes); [resp] is [None] when the model call or the
    post-processing call rejects or returns no masks/scores.  The result is
    the value the promise resolves to ([None] for [null]). *)
Definition segmentWithPointsImpl (ready : bool) (element : ImageElement)
    (numPoints : nat) (resp : option SamResponse) : option MaskData :=
  if negb ready then None
  else if numPoints =? 0 then Some (mkMaskData None None)
  else match resp with
       | None => None
       | Some r =>
           match buildMaskData element r with
           | Threw _ => None
           | Returned md => Some md
           end
       end.

End Transformers.


(** ** Shared record types of [src/types.ts] *)
Module Types.
Import JS.

Inductive AppMode : Type := points | images.

#[global] Instance AppMode_eq_dec : EqDecision AppMode.
Proof. solve_decision. Defined.

(** [label: 0 | 1] *)
Inductive PointLabel : Type := label0 | label1.

Record PointData : Type := mkPointData {
  point_id : string;
  x : number;
  y : number;
  label : PointLabel
}.

Record StageSize : Type := mkStageSize {
  stage_width : number;
  stage_height : number
}.

(** An [HTMLImageElement] held by a layer: what was loaded into it. *)
Record HTMLImageElement : Type := mkHTMLImageElement {
  img_src : string;
  naturalWidth : nat;
  naturalHeight : nat
}.

(** The optional flags [isRemovingBg], [isChangingColor], [isLoading] are
    only ever tested for truthiness; absent is kept as [false]. *)
Record ImageData : Type := mkImageData {
  id : string;
  originalSrc : string;
  processedSrc : string;
  konvaImage : option HTMLImageElement;
  relX : number;
  relY : number;
  relWidth : number;
  relHeight : number;
  rotation : number;
  scaleX : number;
  scaleY : number;
  isRemovingBg : bool;
  isChangingColor : bool;
  isLoading : bool;
  name : string
}.

(** [embeddings?: any]: only [embeddings.image_embeddings] is inspected. *)
Record Embeddings : Type := mkEmbeddings {
  image_embeddings : option nat
}.

(** [processedResult?: any]: the preprocessing sizes, as [[height, width]]. *)
Record ProcessedResult : Type := mkProcessedResult {
  reshaped_input_sizes : option (number * number)
}.

Record BaseImageData : Type := mkBaseImageData {
  src : string;
  element : Transformers.ImageElement;
  originalWidth : nat;
  originalHeight : nat;
  embeddings : option Embeddings;
  processedResult : option ProcessedResult
}.

End Types.

(** ** [src/components/Canvas.tsx]: relative and absolute coordinates *)
Module Canvas.
Import JS Types.

(** A rectangle as returned by [node.getClientRect()]. *)
Record Rect : Type := mkRect {
  rect_x : number;
  rect_y : number;
  rect_width : number;
  rect_height : number
}.

(** The parts of a stage click event the handler reads. *)
Record ClickEvent : Type := mkClickEvent {
  targetIsBaseImage : bool;                       (* e.target === baseImageRef.current *)
  pointerPosition : option (number * number);     (* stage.getPointerPosition() *)
  imgRect : Rect;                                 (* baseImgNode.getClientRect(...) *)
  button : nat                                    (* e.evt.button *)
}.

Section Rounded.
Variable rnd : Q -> Q.

(** [getBaseImageAttrs() !== null], lines 393-413. *)
Definition baseImageAttrsReady (baseImage : option BaseImageData)
    (stageSize : StageSize) : bool :=
  match baseImage with
  | None => false
  | Some _ => truthy (stage_width stageSize) && truthy (stage_height stageSize)
  end.

(** Lines 416-441. *)
Definition getPointCanvasCoords (baseImage : option BaseImageData)
    (stageSize : StageSize) (point : PointData) : option (number * number) :=
  if negb (baseImageAttrsReady baseImage stageSize)
     || negb (isValidNumber (x point))
     || negb (isValidNumber (y point))
  then None
  else
    let stageX := mul rnd (x point) (stage_width stageSize) in
    let stageY := mul rnd (y point) (stage_height stageSize) in
    if negb (isValidNumber stageX) || negb (isValidNumber stageY)
    then None
    else Some (stageX, stageY).

(** [Math.max(0, Math.min(1, v))] *)
Definition clamp01 (v : number) : number :=
  Math_max (Fin 0) (Math_min (Fin 1) v).

(** Lines 232-237: the click lies outside the displayed image. *)
Definition outsideImgRect (pos : number * number) (r : Rect) : bool :=
  lt (fst pos) (rect_x r)
  || gt (fst pos) (add rnd (rect_x r) (rect_width r))
  || lt (snd pos) (rect_y r)
  || gt (snd pos) (add rnd (rect_y r) (rect_height r)).

(** Lines 194-271, after the call of the parent's [onStageClick]: the
    arguments of the [onAddPoint] call, if it is made. *)
Definition handleInternalStageClick (appMode : AppMode)
    (baseImage : option BaseImageData) (stageSize : StageSize)
    (e : ClickEvent) : option (number * number * PointLabel) :=
  if bool_decide (appMode = points) && bool_decide (is_Some baseImage)
     && targetIsBaseImage e
  then
    match pointerPosition e with
    | None => None
    | Some pos =>
        if negb (truthy (stage_width stageSize))
           || negb (truthy (stage_height stageSize))
        then None
        else if outsideImgRect pos (imgRect e) then None
        else
          let relativeX := div rnd (fst pos) (stage_width stageSize) in
          let relativeY := div rnd (snd pos) (stage_height stageSize) in
          let clampedX := clamp01 relativeX in
          let clampedY := clamp01 relativeY in
          let label := if button e =? 2 then label0 else label1 in
          Some (clampedX, clampedY, label)
    end
  else None.

End Rounded.
End Canvas.


(** ** [src/App.tsx]: the segmentation session *)
Module App.
Import JS Types.
Export Transformers(MaskData, mkMaskData, maskCanvas, clippingOverlayCanvas).

(** The React state of [App] read or written by the session effects,
    together with [isSamReady] from the [useTransformers] hook. *)
Record AppState : Type := mkAppState {
  appMode : AppMode;
  baseImage : option BaseImageData;
  segmentationPoints : list PointData;
  maskData : option MaskData;
  showMask : bool;
  clipImagesGlobally : bool;
  selectedShapeIds : list string;
  isGeneratingEmbeddings : bool;
  isSamReady : bool
}.

Definition setBaseImage (v : option BaseImageData) (st : AppState) : AppState :=
  mkAppState (appMode st) v (segmentationPoints st) (maskData st)
    (showMask st) (clipImagesGlobally st) (selectedShapeIds st)
    (isGeneratingEmbeddings st) (isSamReady st).

Definition setSegmentationPoints (v : list PointData) (st : AppState)
    : AppState :=
  mkAppState (appMode st) (baseImage st) v (maskData st)
    (showMask st) (clipImagesGlobally st) (selectedShapeIds st)
    (isGeneratingEmbeddings st) (isSamReady st).

Definition setMaskData (v : option MaskData) (st : AppState) : AppState :=
  mkAppState (appMode st) (baseImage st) (segmentationPoints st) v
    (showMask st) (clipImagesGlobally st) (selectedShapeIds st)
    (isGeneratingEmbeddings st) (isSamReady st).

Definition setShowMask (v : bool) (st : AppState) : AppState :=
  mkAppState (appMode st) (baseImage st) (segmentationPoints st) (maskData st)
    v (clipImagesGlobally st) (selectedShapeIds st)
    (isGeneratingEmbeddings st) (isSamReady st).

Definition setClipImagesGlobally (v : bool) (st : AppState) : AppState :=
  mkAppState (appMode st) (baseImage st) (segmentationPoints st) (maskData st)
    (showMask st) v (selectedShapeIds st)
    (isGeneratingEmbeddings st) (isSamReady st).

Definition setSelectedShapeIds (v : list string) (st : AppState) : AppState :=
  mkAppState (appMode st) (baseImage st) (segmentationPoints st) (maskData st)
    (showMask st) (clipImagesGlobally st) v
    (isGeneratingEmbeddings st) (isSamReady st).

Definition setIsGeneratingEmbeddings (v : bool) (st : AppState) : AppState :=
  mkAppState (appMode st) (baseImage st) (segmentationPoints st) (maskData st)
    (showMask st) (clipImagesGlobally st) (selectedShapeIds st)
    v (isSamReady st).

Definition setAppMode (v : AppMode) (st : AppState) : AppState :=
  mkAppState v (baseImage st) (segmentationPoints st) (maskData st)
    (showMask st) (clipImagesGlobally st) (selectedShapeIds st)
    (isGeneratingEmbeddings st) (isSamReady st).

(** A string is truthy unless it is empty. *)
Definition truthyString (s : string) : bool := negb (String.eqb s "").

(** *** Embedding effect, lines 149-209 *)

(** What one embedding request remembers: [currentImageSrc]. *)
Record EmbeddingRequest : Type := mkEmbeddingRequest {
  currentImageSrc : string;
  embeddingImage : BaseImageData
}.

Record EmbeddingResult : Type := mkEmbeddingResult {
  result_embeddings : option Embeddings;
  result_processedResult : option ProcessedResult
}.

(** The synchronous part of the effect: the new state and the request
    started, if any. *)
Definition embeddingEffect (st : AppState)
    : AppState * option EmbeddingRequest :=
  match baseImage st with
  | Some b =>
      if isSamReady st && truthyString (src b)
         && negb (bool_decide (is_Some (embeddings b)))
      then (setIsGeneratingEmbeddings true st,
            Some (mkEmbeddingRequest (src b) b))
      else (st, None)
  | None => (st, None)
  end.

(** [.then(result => ...)] followed by [.finally(...)]. *)
Definition embeddingResolved (req : EmbeddingRequest)
    (result : option EmbeddingResult) (st : AppState) : AppState :=
  let st1 :=
    match baseImage st, result with
    | Some currentBaseImage, Some r =>
        if String.eqb (src currentBaseImage) (currentImageSrc req)
        then setBaseImage
               (Some (mkBaseImageData (src currentBaseImage)
                        (element currentBaseImage)
                        (originalWidth currentBaseImage)
                        (originalHeight currentBaseImage)
                        (result_embeddings r)
                        (result_processedResult r))) st
        else st
    | _, _ => st
    end in
  setIsGeneratingEmbeddings false st1.

(** [.catch(error => ...)] followed by [.finally(...)]. *)
Definition embeddingRejected (req : EmbeddingRequest) (st : AppState)
    : AppState :=
  let st1 :=
    match baseImage st with
    | Some currentBaseImage =>
        if String.eqb (src currentBaseImage) (currentImageSrc req)
        then setBaseImage
               (Some (mkBaseImageData (src currentBaseImage)
                        (element currentBaseImage)
                        (originalWidth currentBaseImage)
                        (originalHeight currentBaseImage)
                        None None)) st
        else st
    | None => st
    end in
  setIsGeneratingEmbeddings false st1.

(** *** Segmentation effect, lines 212-273 *)

(** What one segmentation request captured: the [baseImage] and the
    [segmentationPoints] of the render that started it. *)
Record SegmentationRequest : Type := mkSegmentationRequest {
  requestImage : BaseImageData;
  requestPoints : list PointData
}.

Definition hasEmbeddings (st : AppState) : bool :=
  match baseImage st with
  | Some b =>
      match embeddings b with
      | Some e => bool_decide (is_Some (image_embeddings e))
      | None => false
      end
  | None => false
  end.

Definition hasProcessedResult (st : AppState) : bool :=
  match baseImage st with
  | Some b => bool_decide (is_Some (processedResult b))
  | None => false
  end.

Definition hasPoints (st : AppState) : bool :=
  negb (length (segmentationPoints st) =? 0).

(** The synchronous part of the effect: the new state and the request
    started, if any. *)
Definition segmentationEffect (st : AppState)
    : AppState * option SegmentationRequest :=
  if negb (hasPoints st) && bool_decide (is_Some (maskData st))
  then (setClipImagesGlobally false (setMaskData None st), None)
  else
    match baseImage st with
    | Some b =>
        if hasEmbeddings st && hasProcessedResult st && hasPoints st
           && isSamReady st
        then (st, Some (mkSegmentationRequest b (segmentationPoints st)))
        else (st, None)
    | None => (st, None)
    end.

(** [.then(newMask => ...)], lines 236-255, run against the state current
    when the promise settles. *)
Definition segmentationResolved (req : SegmentationRequest)
    (newMask : option MaskData) (st : AppState) : AppState :=
  let sameSrc :=
    match baseImage st with
    | Some currentBaseImage =>
        String.eqb (src currentBaseImage) (src (requestImage req))
    | None => false
    end in
  if sameSrc
  then setMaskData newMask st
  else setClipImagesGlobally false (setMaskData None st).

(** [.catch(error => ...)], lines 256-263. *)
Definition segmentationRejected (st : AppState) : AppState :=
  setClipImagesGlobally false (setMaskData None st).

(** *** Base image and point handlers *)

(** [handleUploadBaseImage], lines 276-305: the reset before the load ... *)
Definition handleUploadBaseImage_reset (st : AppState) : AppState :=
  setClipImagesGlobally false
    (setSelectedShapeIds []
       (setMaskData None
          (setSegmentationPoints []
             (setBaseImage None st)))).

(** ... and the continuation once the file has loaded. *)
Definition handleUploadBaseImage_loaded (newSrc : string)
    (newElement : Transformers.ImageElement) (w h : nat) (st : AppState)
    : AppState :=
  setAppMode points
    (setBaseImage (Some (mkBaseImageData newSrc newElement w h None None)) st).

(** [handleAddPoint], lines 308-326; [newId] is [crypto.randomUUID()]. *)
Definition handleAddPoint (newId : string) (px py : number)
    (l : PointLabel) (st : AppState) : AppState :=
  let validX := Math_max (Fin 0) (Math_min (Fin 1) px) in
  let validY := Math_max (Fin 0) (Math_min (Fin 1) py) in
  let newPoint := mkPointData newId validX validY l in
  setShowMask true
    (setSegmentationPoints (segmentationPoints st ++ [newPoint]) st).

(** [handleRemovePoint], lines 327-330. *)
Definition handleRemovePoint (pid : string) (st : AppState) : AppState :=
  setSegmentationPoints
    (filter (fun p => point_id p <> pid) (segmentationPoints st)) st.

(** [handleToggleGlobalClip], lines 339-348. *)
Definition handleToggleGlobalClip (st : AppState) : AppState :=
  match maskData st with
  | Some m =>
      if bool_decide (is_Some (clippingOverlayCanvas m))
      then setClipImagesGlobally (negb (clipImagesGlobally st)) st
      else st
  | None => st
  end.

(** The mutations of the point set. *)
Inductive PointMutation : Type :=
| AddPoint (newId : string) (px py : number) (l : PointLabel)
| RemovePoint (pid : string)
| ResetForNewBaseImage.

Definition applyPointMutation (m : PointMutation) (st : AppState)
    : AppState :=
  match m with
  | AddPoint newId px py l => handleAddPoint newId px py l st
  | RemovePoint pid => handleRemovePoint pid st
  | ResetForNewBaseImage => handleUploadBaseImage_reset st
  end.

(** *** Events of the session

    Everything that can happen to the session state between the start of a
    request and its completion: handlers called by the user, effects run by
    React, promises settling. *)
Inductive Event : Type :=
| MutatePoints (m : PointMutation)
| BaseImageLoaded (newSrc : string) (newElement : Transformers.ImageElement)
    (w h : nat)
| ToggleGlobalClip
| SamReady (ready : bool)
| RunEmbeddingEffect
| RunSegmentationEffect
| EmbeddingSettled (req : EmbeddingRequest)
    (outcome : option (option EmbeddingResult))
| SegmentationSettled (req : SegmentationRequest)
    (outcome : option (option MaskData)).

Definition step (e : Event) (st : AppState) : AppState :=
  match e with
  | MutatePoints m => applyPointMutation m st
  | BaseImageLoaded newSrc newElement w h =>
      handleUploadBaseImage_loaded newSrc newElement w h st
  | ToggleGlobalClip => handleToggleGlobalClip st
  | SamReady ready =>
      mkAppState (appMode st) (baseImage st) (segmentationPoints st)
        (maskData st) (showMask st) (clipImagesGlobally st)
        (selectedShapeIds st) (isGeneratingEmbeddings st) ready
  | RunEmbeddingEffect => fst (embeddingEffect st)
  | RunSegmentationEffect => fst (segmentationEffect st)
  | EmbeddingSettled req (Some result) => embeddingResolved req result st
  | EmbeddingSettled req None => embeddingRejected req st
  | SegmentationSettled req (Some newMask) =>
      segmentationResolved req newMask st
  | SegmentationSettled req None => segmentationRejected st
  end.

(** The events of a list, oldest first. *)
Definition run (events : list Event) (st : AppState) : AppState :=
  foldl (fun s e => step e s) st events.

End App.

(** ** [src/App.tsx]: the layer store *)
Module Layers.
Import JS Types.

(** [Partial<Pick<ImageData, "relX" | "relY" | "relWidth" | "relHeight" |
    "rotation">>]: each field is absent or holds a number.  A key present
    with the value [undefined] is not represented. *)
Record TransformAttrs : Type := mkTransformAttrs {
  attr_relX : option number;
  attr_relY : option number;
  attr_relWidth : option number;
  attr_relHeight : option number;
  attr_rotation : option number
}.

(** Lines 549-553, 554-558, 571-575: [delete] the field unless it is a
    valid number. *)
Definition keepValid (field : option number) : option number :=
  match field with
  | Some v => if negb (isValidNumber v) then None else Some v
  | None => None
  end.

(** Lines 559-570: [delete] the field unless it is a valid number above 0. *)
Definition keepValidSize (field : option number) : option number :=
  match field with
  | Some v =>
      if negb (isValidNumber v) || le v (Fin 0) then None else Some v
  | None => None
  end.

Definition validate (attrs : TransformAttrs) : TransformAttrs :=
  mkTransformAttrs
    (keepValid (attr_relX attrs))
    (keepValid (attr_relY attrs))
    (keepValidSize (attr_relWidth attrs))
    (keepValidSize (attr_relHeight attrs))
    (keepValid (attr_rotation attrs)).

(** [{ ...t, ...validatedAttrs }] *)
Definition spreadAttrs (t : ImageData) (a : TransformAttrs) : ImageData :=
  mkImageData (id t) (originalSrc t) (processedSrc t) (konvaImage t)
    (default (relX t) (attr_relX a))
    (default (relY t) (attr_relY a))
    (default (relWidth t) (attr_relWidth a))
    (default (relHeight t) (attr_relHeight a))
    (default (rotation t) (attr_rotation a))
    (scaleX t) (scaleY t)
    (isRemovingBg t) (isChangingColor t) (isLoading t) (name t).

(** [handleUpdateImageTransform], lines 533-585, as the new value of the
    [images] state. *)
Definition handleUpdateImageTransform (target : string)
    (attrs : TransformAttrs) (prev : list ImageData) : list ImageData :=
  let validatedAttrs := validate attrs in
  (fun t => if String.eqb (id t) target
            then spreadAttrs t validatedAttrs else t) <$> prev.

(** [{ ...t, isRemovingBg: v }] *)
Definition withRemovingBg (v : bool) (t : ImageData) : ImageData :=
  mkImageData (id t) (originalSrc t) (processedSrc t) (konvaImage t)
    (relX t) (relY t) (relWidth t) (relHeight t) (rotation t)
    (scaleX t) (scaleY t)
    v (isChangingColor t) (isLoading t) (name t).

(** [{ ...t, isChangingColor: v }] *)
Definition withChangingColor (v : bool) (t : ImageData) : ImageData :=
  mkImageData (id t) (originalSrc t) (processedSrc t) (konvaImage t)
    (relX t) (relY t) (relWidth t) (relHeight t) (rotation t)
    (scaleX t) (scaleY t)
    (isRemovingBg t) v (isLoading t) (name t).

(** [{ ...t, processedSrc: resultSrc, konvaImage: img }] *)
Definition withProcessed (resultSrc : string) (img : HTMLImageElement)
    (t : ImageData) : ImageData :=
  mkImageData (id t) (originalSrc t) resultSrc (Some img)
    (relX t) (relY t) (relWidth t) (relHeight t) (rotation t)
    (scaleX t) (scaleY t)
    (isRemovingBg t) (isChangingColor t) (isLoading t) (name t).

(** [prev.map((t) => t.id === id ? f(t) : t)] *)
Definition mapAt (target : string) (f : ImageData -> ImageData)
    (prev : list ImageData) : list ImageData :=
  (fun t => if String.eqb (id t) target then f t else t) <$> prev.

(** [images.find((t) => t.id === id)] *)
Definition findImage (target : string) (imgs : list ImageData)
    : option ImageData :=
  List.find (fun t => String.eqb (id t) target) imgs.

(** [handleRemoveBackground], lines 587-607, up to the [await]: the new
    value of the [images] state and the argument of the [removeBackground]
    call, if the call is made.  [imgs] is the [images] array the callback
    closes over. *)
Definition handleRemoveBackground (isBgRemovalReady : bool)
    (target : string) (imgs : list ImageData)
    : list ImageData * option string :=
  match findImage target imgs with
  | None => (imgs, None)
  | Some image =>
      if isRemovingBg image
         || negb isBgRemovalReady
         || negb (String.eqb (processedSrc image) (originalSrc image))
      then (imgs, None)
      else (mapAt target (withRemovingBg true) imgs,
            Some (originalSrc image))
  end.

(** How the background removal started for [target] ends. *)
Inductive RemovalOutcome : Type :=
| RemovalLoaded (resultSrc : string) (img : HTMLImageElement)
    (* lines 620-638: [img.onload] *)
| RemovalLoadFailed
    (* lines 639-649: [img.onerror] *)
| RemovalNoResult
    (* lines 651-662: [removeBackground] returned null *)
| RemovalThrew.
    (* lines 663-673: [catch] *)

Definition removeBackgroundSettled (target : string)
    (outcome : RemovalOutcome) (prev : list ImageData) : list ImageData :=
  match outcome with
  | RemovalLoaded resultSrc img =>
      mapAt target
        (fun t => withRemovingBg false (withProcessed resultSrc img t)) prev
  | RemovalLoadFailed | RemovalNoResult | RemovalThrew =>
      mapAt target (withRemovingBg false) prev
  end.

(** [handleAddColor], lines 678-703, up to the [await]: the new value of
    the [images] state and whether the tint is started. *)
Definition handleAddColor (target : string) (imgs : list ImageData)
    : list ImageData * bool :=
  match findImage target imgs with
  | None => (imgs, false)
  | Some image =>
      if isRemovingBg image || isChangingColor image
         || negb (bool_decide (is_Some (konvaImage image)))
      then (imgs, false)
      else (mapAt target (withChangingColor true) imgs, true)
  end.

(** Lines 753-771: [img.onload] of the tinted image. *)
Definition addColorLoaded (target : string) (resultSrc : string)
    (img : HTMLImageElement) (prev : list ImageData) : list ImageData :=
  mapAt target
    (fun t => withChangingColor false (withProcessed resultSrc img t)) prev.

(** [prevImages.findIndex((t) => t.id === target)]; [None] stands for -1. *)
Fixpoint findIndex (target : string) (l : list ImageData) : option nat :=
  match l with
  | [] => None
  | t :: rest =>
      if String.eqb (id t) target then Some 0
      else S <$> findIndex target rest
  end.

(** [list.splice(i, 0, item)] *)
Definition spliceIn (i : nat) (item : ImageData) (l : list ImageData)
    : list ImageData :=
  take i l ++ item :: drop i l.

(** [handleReorderImages], lines 812-856, as the new value of the [images]
    state. *)
Definition handleReorderImages (draggedId droppedOnId : string)
    (prevImages : list ImageData) : list ImageData :=
  match findIndex draggedId prevImages, findIndex droppedOnId prevImages with
  | Some draggedIndex, Some droppedOnIndex =>
      if draggedIndex =? droppedOnIndex then prevImages
      else
        match prevImages !! draggedIndex with
        | Some itemToMove =>
            let newImages := delete draggedIndex prevImages in
            let finalDropIndex :=
              if draggedIndex <? droppedOnIndex
              then droppedOnIndex - 1 else droppedOnIndex in
            spliceIn finalDropIndex itemToMove newImages
        | None => prevImages
        end
  | _, _ => prevImages
  end.

End Layers.

(** ** Vocabulary of the statements

    The predicates and auxiliary functions in which the properties of
    Part II are phrased. *)
Module Specs.
Import JS Types Transformers Canvas App Layers.

(** [b] is the first index of [scores] holding a maximal score: no score
    compares greater than [scores[b]], and [scores[b]] compares greater
    than every score before it.  (A NaN compares with nothing; the second
    condition is about the scores that are numbers.) *)
Definition first_max (scores : list number) (b : nat) : Prop :=
  exists m, scores !! b = Some m /\
    (forall j s, scores !! j = Some s -> gt s m = false) /\
    (forall j s, j < b -> scores !! j = Some s ->
       isValidNumber s = true -> gt m s = true).

(** All scores are identical (compared with [===]). *)
Definition all_equal (scores : list number) : Prop :=
  forall i j a b,
    scores !! i = Some a -> scores !! j = Some b -> strictEq a b = true.

(** Alpha byte of pixel [i] of a canvas. *)
Definition alphaAt (c : Canvas) (i : nat) : option Z := rgba c !! (4 * i + 3).

(** [rawMaskData[i] === 1] *)
Definition maskIsOne (rawMaskData : list number) (i : nat) : bool :=
  match rawMaskData !! i with
  | Some m => strictEq m (Fin 1)
  | None => false
  end.

(** The value the extraction stores for pixel [i] of the plane starting at
    [offset] of the tensor's data: the tensor's value, converted to the
    element type of [rawMaskData], or the initial 0 past the end of the
    data. *)
Definition planeValue (t : Tensor) (offset i : nat) : number :=
  match data t !! (offset + i) with
  | Some v => if String.eqb (type t) "float32" then v else toUint8 v
  | None => Fin 0
  end.

(** The claimed invariant, for one successful segmentation: at every pixel
    the clip buffer's alpha is 0 exactly when the mask is 1 there. *)
Definition inverse_mask_invariant (ready : bool) (element : ImageElement)
    (numPoints : nat) (resp : SamResponse) : Prop :=
  forall md c rawMaskData h w i,
    segmentWithPointsImpl ready element numPoints (Some resp) = Some md ->
    clippingOverlayCanvas md = Some c ->
    extractMask (masks resp) (selectBestIndex (iou_scores resp))
      = Returned (rawMaskData, h, w) ->
    i < h * w ->
    (alphaAt c i = Some 0%Z <-> maskIsOne rawMaskData i = true).

(** The relative-error model of one rounded operation: [u] is the unit
    roundoff (2^-53 for JS numbers away from overflow and underflow). *)
Definition rounds_within (rnd : Q -> Q) (u : Q) : Prop :=
  forall q, (Qabs (rnd q - q) <= u * Qabs q)%Q.

(** A rounding that always errs by the full relative error. *)
Definition rnd_up (u : Q) (q : Q) : Q := (q + q * u)%Q.

(** The live base image is not the one a request was started for: there is
    none, or its [src] differs. *)
Definition replacedSince (requestSrc : string) (st : AppState) : Prop :=
  forall currentBaseImage,
    baseImage st = Some currentBaseImage -> src currentBaseImage <> requestSrc.

Definition isFinite (n : number) : bool :=
  match n with
  | Fin _ => true
  | _ => false
  end.

(** The claimed treatment of position and rotation fields: a field of the
    patch that is not a finite number leaves the stored field unchanged. *)
Definition nonfinite_fields_dropped (target : string) (attrs : TransformAttrs)
    (prev : list ImageData) : Prop :=
  forall k t t',
    prev !! k = Some t -> id t = target ->
    handleUpdateImageTransform target attrs prev !! k = Some t' ->
    (forall v, attr_relX attrs = Some v -> isFinite v = false ->
               relX t' = relX t) /\
    (forall v, attr_relY attrs = Some v -> isFinite v = false ->
               relY t' = relY t) /\
    (forall v, attr_rotation attrs = Some v -> isFinite v = false ->
               rotation t' = rotation t).

(** The value of a field after a patch: the patch's value unless the field
    is absent from the patch or [dropped] holds of its value. *)
Definition patched (dropped : number -> bool) (stored : number)
    (field : option number) : number :=
  match field with
  | Some v => if dropped v then stored else v
  | None => stored
  end.

Definition isNaN (n : number) : bool :=
  match n with
  | NaN => true
  | _ => false
  end.

(** NaN, or not above zero. *)
Definition badSize (n : number) : bool := isNaN n || le n (Fin 0).

(** A layer on which background removal may start. *)
Definition eligible (image : ImageData) : Prop :=
  isRemovingBg image = false /\ processedSrc image = originalSrc image.

(** The claimed consequence of the guard: once a background removal or a
    tint of the layer [target] has completed, no background removal of that
    layer is started any more. *)
Definition processed_layer_never_removed (target : string)
    (imgs : list ImageData) : Prop :=
  forall isBgRemovalReady resultSrc img,
    snd (handleRemoveBackground isBgRemovalReady target
           (removeBackgroundSettled target (RemovalLoaded resultSrc img) imgs))
      = None /\
    snd (handleRemoveBackground isBgRemovalReady target
           (addColorLoaded target resultSrc img imgs))
      = None.

End Specs.

(** ** Sample data

    Concrete images, service responses, sessions and layers on which the
    properties are exercised. *)
Module Samples.
Import JS Types Transformers Canvas App Layers.

(** A fully transparent base image, and a response with one 1x1 candidate
    whose only mask value is 0. *)
Definition transparentImage : ImageElement := fun _ _ _ => mkPixel 0 0 0 0.

Definition emptyMaskResponse : SamResponse :=
  mkSamResponse [Fin (9 # 10)] [mkTensor "bool" [1; 1; 1; 1] [Fin 0]].

(** An opaque grey base image, and a response with three 2x2 candidates;
    the second one has the best score. *)
Definition greyImage : ImageElement := fun _ _ _ => mkPixel 128 128 128 255.

Definition threeCandidates : SamResponse :=
  mkSamResponse
    [Fin (1 # 2); Fin (9 # 10); Fin (3 # 10)]
    [mkTensor "bool" [1; 3; 2; 2]
       [Fin 0; Fin 0; Fin 0; Fin 0;
        Fin 1; Fin 0; Fin 0; Fin 1;
        Fin 1; Fin 1; Fin 1; Fin 1]].

(** The unit roundoff of JS numbers. *)
Definition u53 : Q := (1 # 9007199254740992)%Q.

Definition sampleBaseImage : BaseImageData :=
  mkBaseImageData "data:image/png;base64,iVBORw0KGgo="
    (fun _ _ _ => Transformers.mkPixel 128 128 128 255) 1000 800 None None.

Definition sampleStage : StageSize := mkStageSize (Fin 800) (Fin 600).

Definition samplePoint : PointData :=
  mkPointData "p1" (Fin (1 # 2)) (Fin (1 # 4)) label1.

(** A base image whose embedding is ready, the mask computed for it, a
    session showing both with one point and the clip toggle on, and the
    segmentation request that session starts. *)
Definition imageA : BaseImageData :=
  mkBaseImageData "data:image/png;base64,AAAA"
    (fun _ _ _ => Transformers.mkPixel 128 128 128 255) 1000 800
    (Some (mkEmbeddings (Some 7)))
    (Some (mkProcessedResult (Some (Fin 819, Fin 1024)))).

Definition maskA : MaskData :=
  mkMaskData
    (Some (Transformers.mkCanvas 1 1 [0; 114; 189; 150]%Z))
    (Some (Transformers.mkCanvas 1 1 [128; 128; 128; 0]%Z)).

Definition sessionA : AppState :=
  mkAppState points (Some imageA)
    [mkPointData "p1" (Fin (1 # 2)) (Fin (1 # 2)) label1]
    (Some maskA) true true [] false true.

Definition requestA : SegmentationRequest :=
  mkSegmentationRequest imageA
    [mkPointData "p1" (Fin (1 # 2)) (Fin (1 # 2)) label1].

(** The base image is replaced while the request is in flight. *)
Definition replaceImage : list Event :=
  [MutatePoints ResetForNewBaseImage;
   BaseImageLoaded "data:image/png;base64,BBBB"
     (fun _ _ _ => Transformers.mkPixel 0 0 0 255) 640 480;
   RunEmbeddingEffect].

(** Four loaded layers. *)
Definition layer (name : string) : ImageData :=
  mkImageData name "data:image/png;base64,AAAA" "data:image/png;base64,AAAA"
    (Some (mkHTMLImageElement "data:image/png;base64,AAAA" 64 64))
    (Fin (1 # 2)) (Fin (1 # 2)) (Fin (1 # 5)) (Fin (1 # 5)) (Fin 0)
    (Fin 1) (Fin 1) false false false name.

Definition fourLayers : list ImageData :=
  [layer "a"; layer "b"; layer "c"; layer "d"].

Definition sampleLayer : ImageData :=
  mkImageData "a" "data:image/png;base64,AAAA" "data:image/png;base64,AAAA"
    (Some (mkHTMLImageElement "data:image/png;base64,AAAA" 64 64))
    (Fin (1 # 2)) (Fin (1 # 2)) (Fin (1 # 5)) (Fin (1 # 5)) (Fin 0)
    (Fin 1) (Fin 1) false false false "a.png".

Definition iconLayer : ImageData :=
  mkImageData "icon" "data:image/png;base64,UkVE" "data:image/png;base64,UkVE"
    (Some (mkHTMLImageElement "data:image/png;base64,UkVE" 32 32))
    (Fin (1 # 2)) (Fin (1 # 2)) (Fin (1 # 5)) (Fin (1 # 5)) (Fin 0)
    (Fin 1) (Fin 1) false false false "icon.png".

Definition photoLayer : ImageData :=
  mkImageData "photo" "data:image/jpeg;base64,SlBH" "data:image/jpeg;base64,SlBH"
    (Some (mkHTMLImageElement "data:image/jpeg;base64,SlBH" 640 480))
    (Fin (1 # 4)) (Fin (1 # 4)) (Fin (2 # 5)) (Fin (2 # 5)) (Fin 0)
    (Fin 1) (Fin 1) false false false "photo.jpg".

Definition cutoutImage : HTMLImageElement :=
  mkHTMLImageElement "data:image/png;base64,Q1VU" 640 480.

End Samples.

(** ** [src/hooks/useTransformers.ts]: loading the two models *)
Module Negotiation.

(** Line 106 (and 193): the devices tried, in order; [None] is [undefined]. *)
Definition backends : list (option string) :=
  [None; Some "webgpu"; Some "auto"; Some "gpu"; Some "cpu"; Some "wasm";
   Some "cuda"; Some "dml"; Some "webnn"; Some "webnn-npu"; Some "webnn-gpu";
   Some "webnn-cpu"].

(** Lines 107-135 (and 194-240): the [while (true)] loop, positioned at
    [backendIndex] with [rest] the devices from there on.  [attempt device]
    tells whether both [from_pretrained] calls resolve for that device.
    The result is the index of the device that worked; [None] stands for
    the thrown "No backend available!". *)
Fixpoint tryBackendsFrom (attempt : option string -> bool)
    (rest : list (option string)) (backendIndex : nat) : option nat :=
  match rest with
  | [] => None
  | device :: rest' =>
      if attempt device then Some backendIndex
      else tryBackendsFrom attempt rest' (S backendIndex)
  end.

Definition tryBackends (attempt : option string -> bool) : option nat :=
  tryBackendsFrom attempt backends 0.

(** The state and refs of the hook. *)
Record HookState : Type := mkHookState {
  status : string;
  isSamReady : bool;
  isBgRemovalReady : bool;
  samModelRef : bool;             (* samModelRef.current !== null *)
  samProcessorRef : bool;
  bgRemovalModelRef : bool;
  bgRemovalProcessorRef : bool;
  samLoadingRef : bool;
  bgLoadingRef : bool
}.

(** Lines 82-92. *)
Definition initialHookState : HookState :=
  mkHookState "Initializing AI models..." false false
    false false false false false false.

(** Lines 95-100: the SAM effect up to the call of [loadSam]; the boolean
    tells whether the load is started. *)
Definition samEffect (st : HookState) : HookState * bool :=
  if isSamReady st || samModelRef st || samLoadingRef st then (st, false)
  else (mkHookState "Loading SAM model & processor..."
          (isSamReady st) (isBgRemovalReady st)
          (samModelRef st) (samProcessorRef st)
          (bgRemovalModelRef st) (bgRemovalProcessorRef st)
          true (bgLoadingRef st), true).

(** Lines 136-163: what [loadSam] does once the loop has ended with
    [outcome], in an effect that is still [mounted]. *)
Definition samLoadSettled (mounted : bool) (outcome : option nat)
    (st : HookState) : HookState :=
  if negb mounted then st
  else
    match outcome with
    | Some _ =>
        mkHookState
          (if bgRemovalModelRef st && bgRemovalProcessorRef st
           then "All AI models ready."
           else "SAM ready. Loading BG Removal...")
          true (isBgRemovalReady st)
          true true
          (bgRemovalModelRef st) (bgRemovalProcessorRef st)
          false (bgLoadingRef st)
    | None =>
        mkHookState "Error loading SAM: No backend available!"
          false (isBgRemovalReady st)
          (samModelRef st) (samProcessorRef st)
          (bgRemovalModelRef st) (bgRemovalProcessorRef st)
          false (bgLoadingRef st)
    end.

(** Lines 171-187: the background-removal effect up to [loadBgRemoval]. *)
Definition bgEffect (st : HookState) : HookState * bool :=
  if isBgRemovalReady st
     || (bgRemovalModelRef st && bgRemovalProcessorRef st)
     || bgLoadingRef st
  then (st, false)
  else (mkHookState
          (if samModelRef st then "SAM ready. Loading BG Removal..."
           else "Loading BG Removal pipeline...")
          (isSamReady st) (isBgRemovalReady st)
          (samModelRef st) (samProcessorRef st)
          (bgRemovalModelRef st) (bgRemovalProcessorRef st)
          (samLoadingRef st) true, true).

(** Lines 242-273. *)
Definition bgLoadSettled (mounted : bool) (outcome : option nat)
    (st : HookState) : HookState :=
  if negb mounted then st
  else
    match outcome with
    | Some _ =>
        mkHookState
          (if samModelRef st then "All AI models ready."
           else "BG Removal ready. Waiting for SAM...")
          (isSamReady st) true
          (samModelRef st) (samProcessorRef st)
          true true
          (samLoadingRef st) false
    | None =>
        mkHookState "Error loading BG Removal: No backend available!"
          (isSamReady st) false
          (samModelRef st) (samProcessorRef st)
          (bgRemovalModelRef st) (bgRemovalProcessorRef st)
          (samLoadingRef st) false
    end.

End Negotiation.

(** ** [src/hooks/useTransformers.ts]: [removeBackgroundImpl] *)
Module BackgroundRemoval.
Import JS Transformers.

(** Storing an integer into a [Uint8ClampedArray]. *)
Definition clampByte (v : Z) : Z := Z.max 0 (Z.min 255 v).

(** Lines 632-633: the alpha loop, positioned at index [t];
    [rawImageData] is [rawImage.data] from [t] on. *)
Fixpoint alphaLoop (rawImageData : list Z) (t : nat) (tempData : list Z)
    : list Z :=
  match rawImageData with
  | [] => tempData
  | m :: rest =>
      alphaLoop rest (S t) (<[4 * t + 3 := clampByte m]> tempData)
  end.

(** What the collaborators hand back during one call: the image decoded
    from the URL ([RawImage.fromURL]; [None] when it rejects), and the
    model's matte scaled to bytes and resized to the image
    ([rawImage.data]; [None] when the processor or the model rejects). *)
Record RemovalEnv : Type := mkRemovalEnv {
  decoded : option (nat * nat * (nat -> Pixel));   (* width, height, pixels *)
  matte : option (list Z)
}.

(** Lines 589-828.  [modelRef] and [processorRef] tell whether the refs are
    set; [toDataURL] is the canvas encoder.  The result is [Returned None]
    for [null], [Returned (Some src)] for a data URL, [Threw] when the
    promise rejects. *)
Definition removeBackgroundImpl (toDataURL : Canvas -> string)
    (modelRef processorRef : bool) (env : RemovalEnv) (imageUrl : string)
    : Outcome (option string) :=
  if negb modelRef && negb processorRef then Returned None
  else if negb (String.prefix "data:image" imageUrl) then Returned None
  else
    match decoded env with
    | None => Threw "RawImage.fromURL"
    | Some (w, h, pixels) =>
        if negb processorRef then Threw "TypeError: processor is null"
        else if negb modelRef then Threw "TypeError: model is null"
        else
          match matte env with
          | None => Threw "model"
          | Some rawImageData =>
              _ ← checkRect w h;
              let tempData :=
                alphaLoop rawImageData 0
                  (getImageData (fun _ _ i => pixels i) w h) in
              let result := toDataURL (mkCanvas w h tempData) in
              if String.prefix "data:image" result
              then Returned (Some result)
              else Threw "Background removal output format not recognized."
          end
    end.

(** Lines 75-78 and 842-844: what the hook exposes as [removeBackground]. *)
Definition removeBackground (toDataURL : Canvas -> string)
    (isBgRemovalReady modelRef processorRef : bool) (env : RemovalEnv)
    (imageUrl : string) : Outcome (option string) :=
  if isBgRemovalReady
  then removeBackgroundImpl toDataURL modelRef processorRef env imageUrl
  else Returned None.

End BackgroundRemoval.

(** ** [src/App.tsx]: stage size and initial layer size *)
Module Stage.
Import JS Types.

(** An integer-valued DOM measure as a number. *)
Definition ofNat (n : nat) : number := Fin (inject_Z (Z.of_nat n)).

(** [n || 500] *)
Definition orDefault (n : nat) : number :=
  if n =? 0 then Fin 500 else ofNat n.

(** Lines 23-30.  Decimal literals are kept as the rationals they
    denote. *)
Definition INITIAL_IMAGE_TARGET_FRACTION : number := Fin (1 # 5).
Definition MIN_INITIAL_PIXEL_SIZE : number := Fin 20.

Section Rounded.
Variable rnd : Q -> Q.

(** [calculateStageSize], lines 88-127.  [container] is
    [(offsetWidth, offsetHeight)] of [containerRef.current], [None] when the
    ref is not attached; the result is the new [stageSize] state. *)
Definition calculateStageSize (container : option (nat * nat))
    (baseImage : option BaseImageData) (stageSize : StageSize) : StageSize :=
  match container with
  | None => stageSize
  | Some (containerWidth, containerHeight) =>
      let fallback :=
        mkStageSize (orDefault containerWidth) (orDefault containerHeight) in
      match baseImage with
      | None => fallback
      | Some b =>
          let imgW := originalWidth b in
          let imgH := originalHeight b in
          if (imgW =? 0) || (imgH =? 0) then fallback
          else
            let scaleW := div rnd (ofNat containerWidth) (ofNat imgW) in
            let scaleH := div rnd (ofNat containerHeight) (ofNat imgH) in
            let scale := Math_min scaleW scaleH in
            let newStageW := mul rnd (ofNat imgW) scale in
            let newStageH := mul rnd (ofNat imgH) scale in
            mkStageSize newStageW newStageH
      end
  end.

(** Lines 421-492 of [handleLoadImageImage]: the relative size given to a
    layer whose image has just loaded. *)
Definition initialRelSize (stageSize : StageSize) (img : HTMLImageElement)
    : number * number :=
  if (0 <? naturalWidth img) && (0 <? naturalHeight img)
     && gt (stage_width stageSize) (Fin 0)
     && gt (stage_height stageSize) (Fin 0)
  then
    let aspectRatio :=
      div rnd (ofNat (naturalWidth img)) (ofNat (naturalHeight img)) in
    let '(targetAbsWidth, targetAbsHeight) :=
      if naturalHeight img <=? naturalWidth img
      then
        let tw := mul rnd (stage_width stageSize)
                    INITIAL_IMAGE_TARGET_FRACTION in
        (tw, div rnd tw aspectRatio)
      else
        let th := mul rnd (stage_height stageSize)
                    INITIAL_IMAGE_TARGET_FRACTION in
        (mul rnd th aspectRatio, th) in
    let calculatedAbsWidth := Math_max MIN_INITIAL_PIXEL_SIZE targetAbsWidth in
    let calculatedAbsHeight :=
      Math_max MIN_INITIAL_PIXEL_SIZE targetAbsHeight in
    let initialRelWidth := div rnd calculatedAbsWidth (stage_width stageSize) in
    let initialRelHeight :=
      div rnd calculatedAbsHeight (stage_height stageSize) in
    (Math_max (Fin (1 # 100)) (Math_min (Fin 1) initialRelWidth),
     Math_max (Fin (1 # 100)) (Math_min (Fin 1) initialRelHeight))
  else (Fin (1 # 10), Fin (1 # 10)).

(** [handleLoadImageImage], lines 415-521, as the new value of the [images]
    state.  (The [width] and [height] arguments of the callback are not
    read.) *)
Definition handleLoadImageImage (stageSize : StageSize) (target : string)
    (img : HTMLImageElement) (prevImages : list ImageData)
    : list ImageData :=
  (fun image =>
     if String.eqb (id image) target
        && negb (bool_decide (is_Some (konvaImage image)))
     then
       let '(initialRelWidth, initialRelHeight) :=
         initialRelSize stageSize img in
       mkImageData (id image) (originalSrc image) (processedSrc image)
         (Some img)
         (relX image) (relY image) initialRelWidth initialRelHeight
         (rotation image) (scaleX image) (scaleY image)
         (isRemovingBg image) (isChangingColor image) (isLoading image)
         (name image)
     else image) <$> prevImages.

End Rounded.

(** [handleUploadImage], lines 351-379: the placeholder appended to the
    [images] state; [tempId] is [crypto.randomUUID()]. *)
Definition placeholderImage (tempId fileName : string) : ImageData :=
  mkImageData tempId "" "" None
    (Fin (1 # 2)) (Fin (1 # 2)) (Fin (1 # 10)) (Fin (1 # 10)) (Fin 0)
    (Fin 1) (Fin 1) false false true fileName.

Definition handleUploadImage (tempId fileName : string)
    (prev : list ImageData) : list ImageData :=
  prev ++ [placeholderImage tempId fileName].

(** Lines 382-399: [reader.onload] with a non-empty [src], as the new value
    of the [images] state. *)
Definition uploadImageLoaded (tempId src : string) (prev : list ImageData)
    : list ImageData :=
  (fun t =>
     if String.eqb (id t) tempId
     then mkImageData (id t) src src (konvaImage t)
            (relX t) (relY t) (relWidth t) (relHeight t) (rotation t)
            (scaleX t) (scaleY t)
            (isRemovingBg t) (isChangingColor t) false (name t)
     else t) <$> prev.

(** [handleRemoveImage], lines 523-530: the new [images] and the new
    [selectedShapeIds]. *)
Definition handleRemoveImage (target : string) (prevImages : list ImageData)
    (prevSelected : list string) : list ImageData * list string :=
  (filter (fun t => id t <> target) prevImages,
   filter (fun selectedId => selectedId <> target) prevSelected).

End Stage.

(** ** [src/App.tsx]: mode and selection *)
Module Selection.
Import Types.

(** What a click on the stage hit. *)
Inductive ClickTarget : Type :=
| OnStage                      (* e.target === e.target.getStage() *)
| OnImage (clickedId : string) (* e.target.hasName("image") *)
| OnTransformer                (* parent is the Transformer *)
| OnOther.

(** [handleStageClick], lines 1025-1090, as the new [selectedShapeIds].
    [selectionBoxVisible] is [selectionBox.current.visible]; [metaPressed]
    is [shiftKey || ctrlKey || metaKey]. *)
Definition handleStageClick (selectionBoxVisible : bool) (appMode : AppMode)
    (target : ClickTarget) (metaPressed : bool) (prev : list string)
    : list string :=
  if selectionBoxVisible then []
  else
    match appMode with
    | images =>
        match target with
        | OnStage => []
        | OnImage clickedId =>
            let isSelected := bool_decide (clickedId ∈ prev) in
            if negb metaPressed
            then (if isSelected then prev else [clickedId])
            else if isSelected
                 then filter (fun i => i <> clickedId) prev
                 else prev ++ [clickedId]
        | OnTransformer => prev
        | OnOther => []
        end
    | points => prev
    end.

(** [handleToggleMode], lines 859-863: the new mode and selection. *)
Definition handleToggleMode (appMode : AppMode) : AppMode * list string :=
  (match appMode with points => images | images => points end, []).

(** [handleSelectShapeFromSidebar], lines 864-873. *)
Definition handleSelectShapeFromSidebar (appMode : AppMode) (target : string)
    (prev : list string) : list string :=
  match appMode with
  | images => [target]
  | points => prev
  end.

End Selection.

(** ** [src/components/Canvas.tsx]: rendering layers and reading them back *)
Module CanvasRender.
Import JS Types Layers.

Definition MIN_RENDER_PIXEL_SIZE : number := Fin 5.

(** The attributes given to one [<KonvaImage>] of a layer. *)
Record ImageNode : Type := mkImageNode {
  node_id : string;
  node_image : HTMLImageElement;
  node_x : number;
  node_y : number;
  node_width : number;
  node_height : number;
  node_rotation : number;
  node_scaleX : number;
  node_scaleY : number
}.

(** A node of the event target as the handlers read it: whether it is a
    [Konva.Image], its id and its current attributes. *)
Record TargetNode : Type := mkTargetNode {
  isKonvaImage : bool;
  target_id : string;
  target_x : number;
  target_y : number;
  target_width : number;
  target_height : number;
  target_rotation : number;
  target_scaleX : number;
  target_scaleY : number
}.

Section Rounded.
Variable rnd : Q -> Q.
(** [img.complete] *)
Variable complete : HTMLImageElement -> bool.

Definition validStage (stageSize : StageSize) : bool :=
  truthy (stage_width stageSize) && truthy (stage_height stageSize).

(** Lines 572-645: the node rendered for one layer, if any. *)
Definition renderImage (stageSize : StageSize) (image : ImageData)
    : option ImageNode :=
  match konvaImage image with
  | Some img =>
      let isImageReady := complete img && (0 <? naturalWidth img) in
      let arePropsValid :=
        forallb isValidNumber
          [relX image; relY image; relWidth image; relHeight image;
           rotation image; scaleX image; scaleY image] in
      if isImageReady && arePropsValid
      then
        let absoluteX := mul rnd (relX image) (stage_width stageSize) in
        let absoluteY := mul rnd (relY image) (stage_height stageSize) in
        let absoluteWidth :=
          mul rnd (relWidth image) (stage_width stageSize) in
        let absoluteHeight :=
          mul rnd (relHeight image) (stage_height stageSize) in
        let finalWidth := Math_max MIN_RENDER_PIXEL_SIZE absoluteWidth in
        let finalHeight := Math_max MIN_RENDER_PIXEL_SIZE absoluteHeight in
        Some (mkImageNode (id image) img absoluteX absoluteY
                finalWidth finalHeight (rotation image)
                (scaleX image) (scaleY image))
      else None
  | None => None
  end.

(** [renderImages], lines 559-647: the nodes in the order they are drawn. *)
Definition renderImages (appMode : AppMode) (stageSize : StageSize)
    (imgs : list ImageData) : list ImageNode :=
  if bool_decide (appMode <> images) || negb (validStage stageSize)
  then []
  else omap (renderImage stageSize) imgs.

(** [handleDragEnd], lines 349-388: the arguments of the
    [onUpdateImageTransform] call, if it is made. *)
Definition handleDragEnd (appMode : AppMode) (stageSize : StageSize)
    (node : TargetNode) : option (string * TransformAttrs) :=
  if bool_decide (appMode = images) && isKonvaImage node
     && validStage stageSize
  then
    let newRelX := div rnd (target_x node) (stage_width stageSize) in
    let newRelY := div rnd (target_y node) (stage_height stageSize) in
    Some (target_id node,
          mkTransformAttrs (Some newRelX) (Some newRelY) None None None)
  else None.

(** [handleTransformEnd], lines 275-345. *)
Definition handleTransformEnd (stageSize : StageSize) (node : TargetNode)
    : option (string * TransformAttrs) :=
  if negb (isKonvaImage node) || negb (validStage stageSize) then None
  else
    let finalAbsWidth :=
      Math_max MIN_RENDER_PIXEL_SIZE
        (mul rnd (target_width node) (target_scaleX node)) in
    let finalAbsHeight :=
      Math_max MIN_RENDER_PIXEL_SIZE
        (mul rnd (target_height node) (target_scaleY node)) in
    let newRelX := div rnd (target_x node) (stage_width stageSize) in
    let newRelY := div rnd (target_y node) (stage_height stageSize) in
    let newRelWidth := div rnd finalAbsWidth (stage_width stageSize) in
    let newRelHeight := div rnd finalAbsHeight (stage_height stageSize) in
    Some (target_id node,
          mkTransformAttrs (Some newRelX) (Some newRelY)
            (Some newRelWidth) (Some newRelHeight)
            (Some (target_rotation node))).

(** The node the event target is after [renderImage] drew it and nothing
    moved it. *)
Definition asTarget (n : ImageNode) : TargetNode :=
  mkTargetNode true (node_id n) (node_x n) (node_y n)
    (node_width n) (node_height n) (node_rotation n)
    (node_scaleX n) (node_scaleY n).

End Rounded.
End CanvasRender.

(** ** [src/App.tsx]: a background removal from request to completion *)
Module RemovalFlow.
Import Types Transformers Layers BackgroundRemoval.

(** Lines 608-673 of [handleRemoveBackground]: how the awaited result of
    [removeBackground] is turned into the completion.  [loaded] is the image
    element once [img.onload] fires, [None] when [img.onerror] fires. *)
Definition removalOutcome (result : Outcome (option string))
    (loaded : option HTMLImageElement) : RemovalOutcome :=
  match result with
  | Threw _ => RemovalThrew
  | Returned None => RemovalNoResult
  | Returned (Some resultSrc) =>
      if String.eqb resultSrc "" then RemovalNoResult
      else match loaded with
           | Some img => RemovalLoaded resultSrc img
           | None => RemovalLoadFailed
           end
  end.

(** [handleRemoveBackground] as a whole: the request, the service call it
    makes and the completion.  The [images] state may have been changed by
    [between] while the service was running. *)
Definition removeBackgroundFlow (toDataURL : Canvas -> string)
    (isBgRemovalReady modelRef processorRef : bool) (env : RemovalEnv)
    (loaded : option HTMLImageElement)
    (between : list ImageData -> list ImageData)
    (target : string) (imgs : list ImageData) : list ImageData :=
  match handleRemoveBackground isBgRemovalReady target imgs with
  | (imgs1, None) => imgs1
  | (imgs1, Some imageUrl) =>
      let result :=
        removeBackground toDataURL isBgRemovalReady modelRef processorRef
          env imageUrl in
      removeBackgroundSettled target (removalOutcome result loaded)
        (between imgs1)
  end.

End RemovalFlow.

(** ** [src/App.tsx]: the layer store after the upload *)
Module LayerStore.
Import JS Types Layers Stage.

(** What can happen to the [images] state once a layer's file has been
    read: the handlers the canvas and the sidebar call, and the completions
    of the two processing requests. *)
Inductive LayerEvent : Type :=
| LayerLoaded (stageSize : StageSize) (target : string)
    (img : HTMLImageElement)
| UpdateTransform (target : string) (attrs : TransformAttrs)
| RemovalStarted (isBgRemovalReady : bool) (target : string)
| RemovalSettled (target : string) (outcome : RemovalOutcome)
| TintStarted (target : string)
| TintLoaded (target : string) (resultSrc : string)
    (img : HTMLImageElement)
| TintFailed (target : string)
    (* lines 773-807: [img.onerror], empty result, [catch] *)
| Reordered (draggedId droppedOnId : string)
| Removed (target : string).

Section Rounded.
Variable rnd : Q -> Q.

Definition layerStep (e : LayerEvent) (imgs : list ImageData)
    : list ImageData :=
  match e with
  | LayerLoaded stageSize target img =>
      handleLoadImageImage rnd stageSize target img imgs
  | UpdateTransform target attrs =>
      handleUpdateImageTransform target attrs imgs
  | RemovalStarted isBgRemovalReady target =>
      fst (handleRemoveBackground isBgRemovalReady target imgs)
  | RemovalSettled target outcome =>
      removeBackgroundSettled target outcome imgs
  | TintStarted target => fst (handleAddColor target imgs)
  | TintLoaded target resultSrc img =>
      addColorLoaded target resultSrc img imgs
  | TintFailed target => mapAt target (withChangingColor false) imgs
  | Reordered draggedId droppedOnId =>
      handleReorderImages draggedId droppedOnId imgs
  | Removed target => fst (handleRemoveImage target imgs [])
  end.

(** The events of a list, oldest first. *)
Definition runLayers (events : list LayerEvent) (imgs : list ImageData)
    : list ImageData :=
  foldl (fun l e => layerStep e l) imgs events.

End Rounded.

Definition isRemoved (e : LayerEvent) : bool :=
  match e with
  | Removed _ => true
  | _ => false
  end.

End LayerStore.

(** ** Further vocabulary of the statements *)
Module Notions.
Import JS Types Transformers Layers.

(** A completion of a background removal other than the successful one. *)
Definition isFailure (outcome : RemovalOutcome) : Prop :=
  match outcome with
  | RemovalLoaded _ _ => False
  | _ => True
  end.

(** The state of [App] before anything has happened (lines 38-52). *)
Definition initialAppState : App.AppState :=
  App.mkAppState points None [] None true false [] false false.

(** Without a live base image there is no mask data and the clip toggle is
    off. *)
Definition noImageNoMask (st : App.AppState) : Prop :=
  App.baseImage st = None ->
  App.maskData st = None /\ App.clipImagesGlobally st = false.

(** A coordinate that went through [Math.max(0, Math.min(1, v))]: a number
    between 0 and 1, or NaN. *)
Definition clampedCoordinate (n : number) : Prop :=
  n = NaN \/ exists q, n = Fin q /\ (0 <= q <= 1)%Q.

Definition pointsClamped (st : App.AppState) : Prop :=
  forall p, p ∈ App.segmentationPoints st ->
    clampedCoordinate (x p) /\ clampedCoordinate (y p).

(** Byte [k] of the highlight colour [0, 114, 189, 150] written by the
    highlight loop. *)
Definition highlightByte (k : nat) : Z := nth k [0; 114; 189; 150]%Z 0%Z.

(** The id and the original source of every layer, in store order. *)
Definition originals (imgs : list ImageData) : list (string * string) :=
  (fun t => (id t, originalSrc t)) <$> imgs.

End Notions.

(** ** Further sample data *)
Module Examples.
Import JS Types Transformers Layers BackgroundRemoval Stage.

(** A canvas encoder that tells canvases apart by their alpha bytes only
    as far as the first pixel goes. *)
Definition sampleEncoder (c : Canvas) : string :=
  match rgba c !! 3 with
  | Some 0%Z => "data:image/png;base64,AAAA"
  | _ => "data:image/png;base64,/w=="
  end.

(** A 2x1 opaque image and a matte that keeps its second pixel only. *)
Definition twoPixels : RemovalEnv :=
  mkRemovalEnv
    (Some (2, 1, fun i => mkPixel 10 20 (30 + Z.of_nat i) 255))
    (Some [0; 255]%Z).

(** A layer list holding one loaded layer and one placeholder whose file is
    still being read. *)
Definition loadedLayer : ImageData :=
  mkImageData "photo" "data:image/jpeg;base64,SlBH" "data:image/jpeg;base64,SlBH"
    (Some (mkHTMLImageElement "data:image/jpeg;base64,SlBH" 640 480))
    (Fin (1 # 4)) (Fin (1 # 4)) (Fin (2 # 5)) (Fin (2 # 5)) (Fin 0)
    (Fin 1) (Fin 1) false false false "photo.jpg".

Definition withPlaceholder : list ImageData :=
  [loadedLayer; placeholderImage "tmp" "icon.png"].

End Examples.

(* ===================================================================== *)
(** * Part II: properties                                                 *)
(* ===================================================================== *)

(** ** Order facts about JS comparisons *)
Module JSFacts.
Import JS.

Lemma Qltb_lt (x y : Q) : Qltb x y = true <-> (x < y)%Q.
Proof.
  unfold Qltb. rewrite negb_true_iff.
  split; intros H.
  - apply Qnot_le_lt. intros Hle. apply Qle_bool_iff in Hle. congruence.
  - destruct (Qle_bool y x) eqn:E; [|reflexivity].
    apply Qle_bool_iff in E. apply Qle_not_lt in E. contradiction.
Qed.

Lemma Qltb_ge (x y : Q) : Qltb x y = false <-> (y <= x)%Q.
Proof.
  unfold Qltb. rewrite negb_false_iff. apply Qle_bool_iff.
Qed.

Ltac number_order :=
  repeat match goal with
         | n : number |- _ => destruct n as [|[]|?]
         end;
  simpl in *; try congruence; try reflexivity;
  repeat match goal with
         | H : Qltb _ _ = true |- _ => apply Qltb_lt in H
         | H : Qltb _ _ = false |- _ => apply Qltb_ge in H
         | H : Qle_bool _ _ = true |- _ => apply Qle_bool_iff in H
         | H : Qeq_bool _ _ = true |- _ => apply Qeq_bool_iff in H
         | |- Qltb _ _ = true => apply Qltb_lt
         | |- Qltb _ _ = false => apply Qltb_ge
         | |- Qle_bool _ _ = true => apply Qle_bool_iff
         | |- Qeq_bool _ _ = true => apply Qeq_bool_iff
         end;
  try lra.

Lemma gt_irrefl (a : number) : gt a a = false.
Proof. number_order. Qed.

(** [a <= m] and [m < c] give [a < c]. *)
Lemma gt_le_lt (a m c : number) :
  isValidNumber a = true -> isValidNumber m = true ->
  gt a m = false -> gt c m = true -> gt c a = true.
Proof. intros Ha Hm H1 H2. number_order. Qed.

(** [a <= m] and [m <= c] give [a <= c]. *)
Lemma gt_false_trans (a m c : number) :
  isValidNumber m = true -> isValidNumber c = true ->
  gt a m = false -> gt m c = false -> gt a c = false.
Proof. intros Hm Hc H1 H2. number_order. Qed.

Lemma gt_asym (a b : number) : gt a b = true -> gt b a = false.
Proof. intros H. number_order. Qed.

Lemma strictEq_gt (a b : number) : strictEq a b = true -> gt a b = false.
Proof.
  intros H. destruct a as [|s|x], b as [|t|y]; simpl in *; try congruence.
  - apply bool_decide_eq_true in H. subst. destruct t; reflexivity.
  - number_order.
Qed.

End JSFacts.

(** ** Candidate selection *)
Module SelectionProps.
Import JS JSFacts Transformers Specs Samples.

Lemma first_max_snoc_keep (pre : list number) (s m : number) (b : nat) :
  first_max pre b -> pre !! b = Some m -> gt s m = false ->
  first_max (pre ++ [s]) b.
Proof.
  intros (m' & Hb & Hall & Hbefore) Hm Hs.
  assert (m' = m) by congruence. subst m'.
  exists m. split; [by apply lookup_app_l_Some|]. split.
  - intros j t Hj. apply lookup_snoc_Some in Hj as [[_ Hj]|[_ <-]]; eauto.
  - intros j t Hlt Hj. apply lookup_snoc_Some in Hj as [[_ Hj]|[-> _]].
    + eauto.
    + apply lookup_lt_Some in Hb. lia.
Qed.

Lemma first_max_snoc_new (pre : list number) (s m : number) (b : nat) :
  first_max pre b -> pre !! b = Some m ->
  gt s m = true -> first_max (pre ++ [s]) (length pre).
Proof.
  intros (m' & Hb & Hall & _) Hm Hs.
  assert (m' = m) by congruence. subst m'.
  assert (Hmv : isValidNumber m = true) by (by destruct s as [|[]|], m).
  exists s. split; [by apply list_lookup_middle|]. split.
  - intros j t Hj. apply lookup_snoc_Some in Hj as [[_ Hj]|[_ <-]].
    + destruct (isValidNumber t) eqn:Ht; [|by destruct t].
      apply gt_asym. apply (gt_le_lt t m s Ht Hmv (Hall j t Hj) Hs).
    + apply gt_irrefl.
  - intros j t Hlt Hj Ht. rewrite lookup_app_l in Hj by done.
    apply (gt_le_lt t m s Ht Hmv (Hall j t Hj) Hs).
Qed.

(** Loop invariant: with [pre] the scores already visited, [maxScore] the
    score at [bestIndex] and [bestIndex] the first maximum of [pre], the
    loop ends on the first maximum of the whole array. *)
Lemma bestIndexLoop_first_max (rest pre : list number) (m : number) (b : nat) :
  first_max pre b -> pre !! b = Some m ->
  first_max (pre ++ rest) (bestIndexLoop rest (length pre) m b).
Proof.
  revert pre m b. induction rest as [|s rest IH]; intros pre m b Hfm Hm.
  - simpl. by rewrite app_nil_r.
  - simpl. replace (pre ++ s :: rest) with ((pre ++ [s]) ++ rest)
      by (by rewrite <- app_assoc).
    replace (S (length pre)) with (length (pre ++ [s]))
      by (rewrite length_app; simpl; lia).
    destruct (gt s m) eqn:Hgt.
    + apply IH; [|by apply list_lookup_middle].
      eapply first_max_snoc_new; eauto.
    + apply IH; [|by apply lookup_app_l_Some].
      eapply first_max_snoc_keep; eauto.
Qed.

Lemma first_max_all_equal (scores : list number) (b : nat) :
  all_equal scores -> first_max scores b -> b = 0.
Proof.
  intros Heq (m & Hb & _ & Hbefore).
  destruct b as [|b]; [reflexivity|].
  destruct scores as [|s0 scores]; [done|].
  pose proof (Heq (S b) 0 m s0 Hb eq_refl) as Hms.
  assert (Hv : isValidNumber s0 = true) by (by destruct m, s0).
  specialize (Hbefore 0 s0 ltac:(lia) eq_refl Hv).
  apply strictEq_gt in Hms. congruence.
Qed.

(** C3. Candidate selection is a function of the score array alone, and for
    every non-empty array of confidence scores the selected index is the
    first index holding the maximal score: no score exceeds the selected
    one, and the selected one strictly exceeds every score before it.  In
    particular, when all scores are equal, index 0 is selected. *)
Theorem selectBestIndex_first_maximum (scores : list number) :
  scores <> [] ->
  first_max scores (selectBestIndex scores) /\
  (all_equal scores -> selectBestIndex scores = 0).
Proof.
  intros Hne.
  assert (Hfm : first_max scores (selectBestIndex scores)).
  { unfold selectBestIndex. destruct scores as [|s0 rest]; [done|].
    assert (Hone : first_max [s0] 0).
    { exists s0. split; [done|]. split.
      - intros [|j] s Hj; simplify_eq/=. apply gt_irrefl.
      - intros j s Hlt. lia. }
    destruct rest as [|s1 rest]; [done|].
    replace (1 <? length (s0 :: s1 :: rest)) with true by done.
    by apply (bestIndexLoop_first_max (s1 :: rest) [s0] s0 0). }
  split; [done|]. intros Heq. by eapply first_max_all_equal.
Qed.

Lemma selectBestIndex_first_maximum_witness :
  let scores := [Fin (1 # 2); Fin (9 # 10); Fin (3 # 10); Fin (9 # 10)] in
  selectBestIndex scores = 1 /\
  first_max scores (selectBestIndex scores) /\
  (all_equal scores -> selectBestIndex scores = 0).
Proof.
  split; [reflexivity|].
  apply (selectBestIndex_first_maximum
           [Fin (1 # 2); Fin (9 # 10); Fin (3 # 10); Fin (9 # 10)]).
  discriminate.
Defined.

End SelectionProps.

(** ** The clip buffer *)
Module ClipProps.
Import JS JSFacts Transformers Specs Samples.

(** The extracted plane: [maskHeight * maskWidth] values, read from the
    first tensor at the offset of the selected candidate (candidate 0 when
    the selected index is out of range). *)
Lemma extractMask_Returned (masks : list Tensor) (bestIndex : nat)
    (raw : list number) (h w : nat) :
  extractMask masks bestIndex = Returned (raw, h, w) ->
  exists t n,
    masks !! 0 = Some t /\
    (dims t = [n; h; w] \/ dims t = [1; n; h; w]) /\
    length raw = h * w /\
    forall i, i < h * w ->
      raw !! i
        = Some (planeValue t
                  ((if n <=? bestIndex then 0 else bestIndex) * (h * w)) i).
Proof.
  unfold extractMask. intros H.
  destruct (masks !! 0) as [t|] eqn:Ht; [|done].
  set (t' := if bool_decide _ then squeeze0 t else t) in H.
  destruct (dims t') as [|n [|h' [|w' [|? ?]]]] eqn:Hd; try done.
  injection H as <- <- <-.
  exists t, n. split; [done|].
  assert (Hdims : dims t = [n; h'; w'] \/ dims t = [1; n; h'; w']).
  { subst t'. case_bool_decide as Hc.
    - destruct Hc as [Hlen H0]. unfold squeeze0 in Hd.
      destruct (dims t) as [|d0 ds]; [done|]. injection H0 as ->.
      cbn in Hd. subst ds. by right.
    - by left. }
  split; [done|].
  set (m := h' * w'). set (off := _ * m).
  set (slice := take m (drop off (data t))).
  set (stored := if String.eqb (type t) "float32" then slice
                 else toUint8 <$> slice).
  assert (Hlen : length stored = length slice).
  { subst stored. destruct (String.eqb _ _); [done|apply length_fmap]. }
  assert (Hle : length slice <= m) by apply firstn_le_length.
  split.
  - rewrite length_app, length_replicate. lia.
  - intros i Hi. unfold planeValue. fold off.
    destruct (decide (i < length slice)) as [Hlt|Hge].
    + rewrite lookup_app_l by lia.
      assert (Hs : slice !! i = data t !! (off + i)).
      { subst slice. rewrite lookup_take_lt by lia. apply lookup_drop. }
      destruct (lookup_lt_is_Some_2 slice i Hlt) as [v Hv].
      rewrite <- Hs, Hv. subst stored.
      destruct (String.eqb _ _); [done|].
      by rewrite list_lookup_fmap, Hv.
    + rewrite lookup_app_r by lia.
      rewrite lookup_replicate_2 by lia.
      assert (Hnone : data t !! (off + i) = None).
      { rewrite <- lookup_drop. apply lookup_ge_None_2.
        subst slice. rewrite length_take in Hge. lia. }
      by rewrite Hnone.
Qed.

Lemma clipLoop_length (raw : list number) (i : nat) (buf : list Z) :
  length (clipLoop raw i buf) = length buf.
Proof.
  revert i buf. induction raw as [|m raw IH]; intros i buf; simpl; [done|].
  rewrite IH. destruct (strictEq m (Fin 1)); [apply length_insert|done].
Qed.

(** The alpha byte of pixel [p] after the loop started at pixel [i0]. *)
Lemma clipLoop_alpha (raw : list number) (i0 : nat) (buf : list Z) (p : nat) :
  clipLoop raw i0 buf !! (4 * p + 3) =
  if bool_decide (i0 <= p) && maskIsOne raw (p - i0)
  then (fun _ => 0%Z) <$> buf !! (4 * p + 3)
  else buf !! (4 * p + 3).
Proof.
  revert i0 buf. induction raw as [|m raw IH]; intros i0 buf.
  - simpl. unfold maskIsOne. rewrite lookup_nil, andb_false_r. done.
  - cbn [clipLoop]. rewrite IH. clear IH.
    destruct (decide (p = i0)) as [->|Hne].
    + rewrite (bool_decide_eq_false_2 (S i0 <= i0)) by lia.
      rewrite (bool_decide_eq_true_2 (i0 <= i0)) by lia.
      rewrite Nat.sub_diag.
      change (maskIsOne (m :: raw) 0) with (strictEq m (Fin 1)).
      cbn [andb].
      destruct (strictEq m (Fin 1)); [|done].
      rewrite list_lookup_insert. case_decide as Hd.
      * destruct (lookup_lt_is_Some_2 buf (4 * i0 + 3)) as [z ->]; [lia|done].
      * rewrite lookup_ge_None_2; [done|]. lia.
    + assert (Hbuf : (if strictEq m (Fin 1)
                      then <[4 * i0 + 3 := 0%Z]> buf
                      else buf) !! (4 * p + 3) = buf !! (4 * p + 3)).
      { destruct (strictEq m (Fin 1)); [|done].
        apply list_lookup_insert_ne. lia. }
      rewrite Hbuf.
      destruct (decide (i0 < p)) as [Hlt|Hge].
      * rewrite (bool_decide_eq_true_2 (S i0 <= p)) by lia.
        rewrite (bool_decide_eq_true_2 (i0 <= p)) by lia.
        replace (p - i0) with (S (p - S i0)) by lia.
        done.
      * rewrite (bool_decide_eq_false_2 (S i0 <= p)) by lia.
        rewrite (bool_decide_eq_false_2 (i0 <= p)) by lia.
        done.
Qed.

Lemma length_getImageData_from (f : nat -> Pixel) (a n : nat) :
  length (flat_map (fun i => pixelBytes (f i)) (seq a n)) = 4 * n.
Proof.
  revert a. induction n as [|n IH]; intros a; simpl; [done|].
  rewrite IH. lia.
Qed.

Lemma lookup_getImageData_from (f : nat -> Pixel) (a n i : nat) :
  i < n ->
  flat_map (fun j => pixelBytes (f j)) (seq a n) !! (4 * i + 3)
    = Some (alpha (f (a + i))).
Proof.
  revert a i. induction n as [|n IH]; intros a i Hi; [lia|].
  cbn [seq flat_map]. destruct i as [|i].
  - simpl. by rewrite Nat.add_0_r.
  - rewrite lookup_app_r by (simpl; lia).
    replace (4 * S i + 3 - length (pixelBytes (f a))) with (4 * i + 3)
      by (simpl; lia).
    rewrite IH by lia. do 3 f_equal. lia.
Qed.

Lemma getImageData_alpha (element : ImageElement) (w h i : nat) :
  i < w * h ->
  getImageData element w h !! (4 * i + 3) = Some (alpha (element w h i)).
Proof.
  intros Hi. unfold getImageData.
  by rewrite lookup_getImageData_from.
Qed.

(** What a successful [buildMaskData] returned. *)
Lemma buildMaskData_Returned (element : ImageElement) (resp : SamResponse)
    (md : MaskData) :
  buildMaskData element resp = Returned md ->
  exists raw h w,
    extractMask (masks resp) (selectBestIndex (iou_scores resp))
      = Returned (raw, h, w) /\
    w <> 0 /\ h <> 0 /\
    clippingOverlayCanvas md
      = Some (mkCanvas w h (clipLoop raw 0 (getImageData element w h))) /\
    maskCanvas md
      = Some (mkCanvas w h (blueLoop raw 0 (replicate (4 * (w * h)) 0%Z))).
Proof.
  unfold buildMaskData. intros H.
  destruct (extractMask _ _) as [msg|[[raw h] w]] eqn:E; [done|].
  cbn in H. unfold checkRect in H. case_bool_decide as Hd; [done|].
  cbn in H. injection H as <-.
  exists raw, h, w. repeat split; try done; lia.
Qed.

(** The alpha channel of the clip buffer, pixel by pixel. *)
Lemma clip_alpha_value (element : ImageElement) (resp : SamResponse)
    (md : MaskData) (c : Canvas) (raw : list number) (h w i : nat) :
  buildMaskData element resp = Returned md ->
  clippingOverlayCanvas md = Some c ->
  extractMask (masks resp) (selectBestIndex (iou_scores resp))
    = Returned (raw, h, w) ->
  i < h * w ->
  alphaAt c i =
    Some (if maskIsOne raw i then 0%Z else alpha (element w h i)).
Proof.
  intros Hb Hc He Hi.
  apply buildMaskData_Returned in Hb as (raw' & h' & w' & He' & _ & _ & Hc' & _).
  rewrite He in He'. injection He' as <- <- <-.
  rewrite Hc in Hc'. injection Hc' as ->.
  unfold alphaAt. cbn [rgba]. rewrite clipLoop_alpha.
  rewrite (bool_decide_eq_true_2 (0 <= i)) by lia. rewrite Nat.sub_0_r.
  rewrite getImageData_alpha by lia.
  by destruct (maskIsOne raw i).
Qed.

Lemma clipLoop_other (raw : list number) (i0 : nat) (buf : list Z)
    (p k : nat) :
  k < 3 -> clipLoop raw i0 buf !! (4 * p + k) = buf !! (4 * p + k).
Proof.
  intros Hk. revert i0 buf. induction raw as [|m raw IH]; intros i0 buf.
  - done.
  - cbn [clipLoop]. rewrite IH.
    destruct (strictEq m (Fin 1)); [|done].
    apply list_lookup_insert_ne. lia.
Qed.

Lemma segmentWithPointsImpl_clip (ready : bool) (element : ImageElement)
    (numPoints : nat) (resp : SamResponse) (md : MaskData) (c : Canvas) :
  segmentWithPointsImpl ready element numPoints (Some resp) = Some md ->
  clippingOverlayCanvas md = Some c ->
  buildMaskData element resp = Returned md.
Proof.
  unfold segmentWithPointsImpl. intros H Hc.
  destruct ready; [|done]. cbn [negb] in H.
  destruct (numPoints =? 0).
  - injection H as <-. done.
  - destruct (buildMaskData element resp); [done|]. by injection H as <-.
Qed.

(** C1, as stated, fails: where the rasterised base image is itself
    transparent the clip buffer's alpha is 0 although the mask is not 1. *)
Lemma inverse_mask_invariant_fails :
  ~ inverse_mask_invariant true transparentImage 1 emptyMaskResponse.
Proof.
  intros H.
  specialize (H _ _ [Fin 0] 1 1 0 eq_refl eq_refl eq_refl ltac:(lia)).
  destruct H as [H _]. specialize (H eq_refl). discriminate H.
Qed.

(** C1, amended. For the clip buffer of a successful segmentation, at every
    pixel: the alpha byte is 0 where the winning candidate's mask is 1 and
    is the alpha of the base image rasterised at mask resolution elsewhere,
    so it is 0 if and only if the mask is 1 or the rasterised base image is
    transparent there; the colour bytes are those of the rasterised base
    image. *)
Theorem clip_buffer_alpha (ready : bool) (element : ImageElement)
    (numPoints : nat) (resp : SamResponse) (md : MaskData) (c : Canvas)
    (rawMaskData : list number) (h w i : nat) :
  segmentWithPointsImpl ready element numPoints (Some resp) = Some md ->
  clippingOverlayCanvas md = Some c ->
  extractMask (masks resp) (selectBestIndex (iou_scores resp))
    = Returned (rawMaskData, h, w) ->
  i < h * w ->
  alphaAt c i =
    Some (if maskIsOne rawMaskData i then 0%Z else alpha (element w h i)) /\
  (alphaAt c i = Some 0%Z <->
     maskIsOne rawMaskData i = true \/ alpha (element w h i) = 0%Z) /\
  (forall k, k < 3 ->
     rgba c !! (4 * i + k) = getImageData element w h !! (4 * i + k)).
Proof.
  intros Hs Hc He Hi.
  pose proof (segmentWithPointsImpl_clip _ _ _ _ _ _ Hs Hc) as Hb.
  pose proof (clip_alpha_value _ _ _ _ _ _ _ _ Hb Hc He Hi) as Ha.
  split; [done|]. split.
  - rewrite Ha. destruct (maskIsOne rawMaskData i).
    + split; [by left|done].
    + split; [intros [= ->]; by right|].
      intros [?| ->]; [done|reflexivity].
  - intros k Hk.
    apply buildMaskData_Returned in Hb
      as (raw' & h' & w' & He' & _ & _ & Hc' & _).
    rewrite He in He'. injection He' as <- <- <-.
    rewrite Hc in Hc'. injection Hc' as ->.
    cbn [rgba]. by apply clipLoop_other.
Qed.

Lemma clip_buffer_alpha_witness :
  let c := mkCanvas 2 2
             [128; 128; 128; 0; 128; 128; 128; 255;
              128; 128; 128; 255; 128; 128; 128; 0]%Z in
  let raw := [Fin 1; Fin 0; Fin 0; Fin 1] in
  segmentWithPointsImpl true greyImage 1 (Some threeCandidates)
    = Some (mkMaskData
              (Some (mkCanvas 2 2
                       [0; 114; 189; 150; 0; 0; 0; 0;
                        0; 0; 0; 0; 0; 114; 189; 150]%Z))
              (Some c)) /\
  alphaAt c 3 = Some 0%Z /\
  (alphaAt c 3 = Some 0%Z <->
     maskIsOne raw 3 = true \/ alpha (greyImage 2 2 3) = 0%Z) /\
  (forall k, k < 3 ->
     rgba c !! (4 * 3 + k) = getImageData greyImage 2 2 !! (4 * 3 + k)).
Proof.
  intros c raw. split; [reflexivity|].
  assert (Hi : 3 < 2 * 2) by (simpl; lia).
  exact (clip_buffer_alpha true greyImage 1 threeCandidates _ c raw 2 2 3
           eq_refl eq_refl eq_refl Hi).
Defined.

End ClipProps.

(** ** Round trip between relative and stage coordinates *)
Module CoordinateProps.
Import JS JSFacts Types Canvas Specs Samples.
Local Open Scope Q_scope.

Section RoundTrip.
Variable rnd : Q -> Q.
Variable u : Q.
Hypothesis u_nonneg : 0 <= u.
Hypothesis rnd_ok : rounds_within rnd u.

Lemma rnd_bounds (q : Q) :
  0 <= q -> q - u * q <= rnd q /\ rnd q <= q + u * q.
Proof.
  intros Hq. pose proof (rnd_ok q) as H.
  rewrite (Qabs_pos q Hq) in H.
  apply Qabs_Qle_condition in H as [H1 H2]. split; lra.
Qed.

Lemma rnd_abs_bounds (q b : Q) :
  - b <= q -> q <= b -> q - u * b <= rnd q /\ rnd q <= q + u * b.
Proof.
  intros H1 H2. pose proof (rnd_ok q) as H.
  assert (Hb : 0 <= b) by lra.
  assert (Hq : Qabs q <= b) by (apply Qabs_Qle_condition; split; lra).
  assert (Hm : u * Qabs q <= u * b) by nra.
  apply Qabs_Qle_condition in H as [H3 H4]. split; lra.
Qed.

Lemma clamp01_Fin (b : Q) :
  exists c, clamp01 (Fin b) = Fin c /\ 0 <= c /\ c <= 1 /\
    (forall r, 0 <= r -> r <= 1 -> forall d, b - r <= d -> r - b <= d ->
       c - r <= d /\ r - c <= d).
Proof.
  unfold clamp01, Math_min. cbn [gt].
  destruct (Qltb b 1) eqn:E1.
  - apply Qltb_lt in E1. unfold Math_max. cbn [gt].
    destruct (Qltb 0 b) eqn:E0.
    + apply Qltb_lt in E0. exists b. repeat split; try lra.
    + apply Qltb_ge in E0. exists 0. repeat split; try lra.
  - apply Qltb_ge in E1. unfold Math_max. cbn [gt].
    replace (Qltb 0 1) with true by reflexivity.
    exists 1. repeat split; try lra.
Qed.

(** One coordinate: relative, to stage pixels, and back. *)
Lemma coordinate_round_trip (r w : Q) :
  0 <= r -> r <= 1 -> 0 < w ->
  exists a r',
    mul rnd (Fin r) (Fin w) = Fin a /\
    clamp01 (div rnd (Fin a) (Fin w)) = Fin r' /\
    0 <= r' /\ r' <= 1 /\
    Qabs (r' - r) <= (2 * u + u * u) * r.
Proof.
  intros Hr0 Hr1 Hw.
  set (a := rnd (r * w)). exists a.
  assert (Hw0 : Qeq_bool w 0 = false).
  { destruct (Qeq_bool w 0) eqn:E; [|done].
    apply Qeq_bool_iff in E. lra. }
  cbn [mul div]. rewrite Hw0.
  set (b := rnd (a / w)).
  destruct (clamp01_Fin b) as (c & Hc & Hc0 & Hc1 & Hclose).
  exists c. split; [done|]. split; [done|]. split; [done|]. split; [done|].
  assert (Hrw : 0 <= r * w) by nra.
  destruct (rnd_bounds (r * w) Hrw) as [Ha1 Ha2]. fold a in Ha1, Ha2.
  assert (Hq : a / w * w == a) by (field; lra).
  set (q := a / w) in *.
  assert (Hq1 : r - u * r <= q) by nra.
  assert (Hq2 : q <= r + u * r) by nra.
  assert (Hur : 0 <= u * r) by nra.
  destruct (rnd_abs_bounds q (r + u * r) ltac:(lra) ltac:(lra)) as [Hb1 Hb2].
  fold b in Hb1, Hb2.
  assert (Hd1 : b - r <= (2 * u + u * u) * r) by nra.
  assert (Hd2 : r - b <= (2 * u + u * u) * r) by nra.
  destruct (Hclose r Hr0 Hr1 _ Hd1 Hd2) as [Hc2 Hc3].
  apply Qabs_Qle_condition. split; lra.
Qed.

(** C2. For every point with relative coordinates in [0,1] and every stage
    with positive pixel dimensions under a loaded base image: the point has
    stage coordinates ([getPointCanvasCoords] multiplies by the stage
    dimensions), and a click at these coordinates on the base image is
    converted back ([handleInternalStageClick] divides by the stage
    dimensions and clamps to [0,1]) to relative coordinates in [0,1] that
    differ from the original ones by at most [(2u + u^2) * r], [u] being
    the relative rounding error of one operation. *)
Theorem relative_absolute_round_trip
    (baseImage : option BaseImageData) (stageSize : StageSize)
    (point : PointData) (rx ry w h : Q) :
  is_Some baseImage ->
  x point = Fin rx -> y point = Fin ry ->
  0 <= rx <= 1 -> 0 <= ry <= 1 ->
  stage_width stageSize = Fin w -> stage_height stageSize = Fin h ->
  0 < w -> 0 < h ->
  exists ax ay,
    getPointCanvasCoords rnd baseImage stageSize point
      = Some (Fin ax, Fin ay) /\
    forall e,
      targetIsBaseImage e = true ->
      pointerPosition e = Some (Fin ax, Fin ay) ->
      outsideImgRect rnd (Fin ax, Fin ay) (imgRect e) = false ->
      exists rx' ry',
        handleInternalStageClick rnd points baseImage stageSize e
          = Some (Fin rx', Fin ry', if (button e =? 2)%nat then label0 else label1) /\
        Qabs (rx' - rx) <= (2 * u + u * u) * rx /\
        Qabs (ry' - ry) <= (2 * u + u * u) * ry /\
        0 <= rx' <= 1 /\ 0 <= ry' <= 1.
Proof.
  intros [bi ->] Hx Hy [Hx0 Hx1] [Hy0 Hy1] Hw Hh Hwpos Hhpos.
  destruct (coordinate_round_trip rx w Hx0 Hx1 Hwpos)
    as (ax & rx' & Hax & Hrx & Hrx0 & Hrx1 & Hdx).
  destruct (coordinate_round_trip ry h Hy0 Hy1 Hhpos)
    as (ay & ry' & Hay & Hry & Hry0 & Hry1 & Hdy).
  assert (Htw : truthy (Fin w) = true).
  { cbn. destruct (Qeq_bool w 0) eqn:E; [|done].
    apply Qeq_bool_iff in E. lra. }
  assert (Hth : truthy (Fin h) = true).
  { cbn. destruct (Qeq_bool h 0) eqn:E; [|done].
    apply Qeq_bool_iff in E. lra. }
  exists ax, ay. split.
  - unfold getPointCanvasCoords, baseImageAttrsReady.
    rewrite Hx, Hy, Hw, Hh, Htw, Hth, Hax, Hay. reflexivity.
  - intros e Ht Hp Hin.
    exists rx', ry'. split; [|done].
    unfold handleInternalStageClick.
    rewrite Ht, Hp, Hw, Hh, Htw, Hth, Hin.
    rewrite bool_decide_eq_true_2 by done.
    rewrite bool_decide_eq_true_2 by eauto.
    cbn [andb negb orb fst snd]. by rewrite Hrx, Hry.
Qed.

End RoundTrip.

Lemma rnd_up_rounds_within (u : Q) : 0 <= u -> rounds_within (rnd_up u) u.
Proof.
  intros Hu q. unfold rnd_up.
  apply Qabs_Qle_condition.
  destruct (Qlt_le_dec q 0) as [Hq|Hq].
  - rewrite (Qabs_neg q) by lra. split; nra.
  - rewrite (Qabs_pos q) by lra. split; nra.
Qed.

Lemma relative_absolute_round_trip_witness :
  let ax := rnd_up u53 ((1 # 2) * 800) in
  let ay := rnd_up u53 ((1 # 4) * 600) in
  let click :=
    mkClickEvent true (Some (Fin ax, Fin ay))
      (mkRect (Fin 0) (Fin 0) (Fin 800) (Fin 600)) 0 in
  getPointCanvasCoords (rnd_up u53) (Some sampleBaseImage) sampleStage
    samplePoint = Some (Fin ax, Fin ay) /\
  exists rx' ry',
    handleInternalStageClick (rnd_up u53) points (Some sampleBaseImage)
      sampleStage click = Some (Fin rx', Fin ry', label1) /\
    Qabs (rx' - (1 # 2)) <= (2 * u53 + u53 * u53) * (1 # 2) /\
    Qabs (ry' - (1 # 4)) <= (2 * u53 + u53 * u53) * (1 # 4) /\
    0 <= rx' <= 1 /\ 0 <= ry' <= 1.
Proof.
  intros ax ay click.
  destruct (relative_absolute_round_trip (rnd_up u53) u53
              ltac:(unfold u53; lra)
              (rnd_up_rounds_within u53 ltac:(unfold u53; lra))
              (Some sampleBaseImage) sampleStage samplePoint
              (1 # 2) (1 # 4) 800 600
              ltac:(by eexists) eq_refl eq_refl
              ltac:(split; lra) ltac:(split; lra) eq_refl eq_refl
              ltac:(lra) ltac:(lra))
    as (ax' & ay' & Hcoords & Hclick).
  assert (Hax : Fin ax' = Fin ax /\ Fin ay' = Fin ay).
  { cbv in Hcoords. injection Hcoords as <- <-. split; reflexivity. }
  destruct Hax as [Hax Hay]. rewrite Hax, Hay in Hclick.
  split; [reflexivity|].
  apply (Hclick click); reflexivity.
Defined.

End CoordinateProps.

(** ** The segmentation session *)
Module SessionProps.
Import JS Types App Specs Samples.

Lemma segmentationResolved_stale (req : SegmentationRequest)
    (newMask : option MaskData) (st : AppState) :
  replacedSince (src (requestImage req)) st ->
  segmentationResolved req newMask st
    = setClipImagesGlobally false (setMaskData None st).
Proof.
  intros Hstale. unfold segmentationResolved.
  destruct (baseImage st) as [cur|] eqn:E; [|done].
  destruct (String.eqb_spec (src cur) (src (requestImage req))) as [Heq|Hne].
  - by destruct (Hstale cur).
  - done.
Qed.

Lemma segmentationResolved_current (req : SegmentationRequest)
    (newMask : option MaskData) (st : AppState) (cur : BaseImageData) :
  baseImage st = Some cur -> src cur = src (requestImage req) ->
  segmentationResolved req newMask st = setMaskData newMask st.
Proof.
  intros E Heq. unfold segmentationResolved. rewrite E.
  by rewrite (proj2 (String.eqb_eq _ _) Heq).
Qed.

Lemma embeddingResolved_stale (req : EmbeddingRequest)
    (result : option EmbeddingResult) (st : AppState) :
  replacedSince (currentImageSrc req) st ->
  embeddingResolved req result st = setIsGeneratingEmbeddings false st.
Proof.
  intros Hstale. unfold embeddingResolved.
  destruct (baseImage st) as [cur|] eqn:E; [|done].
  destruct result as [r|]; [|done].
  destruct (String.eqb_spec (src cur) (currentImageSrc req)) as [Heq|Hne].
  - by destruct (Hstale cur).
  - done.
Qed.

Lemma segmentationEffect_request (st st' : AppState)
    (req : SegmentationRequest) :
  segmentationEffect st = (st', Some req) ->
  st' = st /\ baseImage st = Some (requestImage req) /\
  requestPoints req = segmentationPoints st.
Proof.
  unfold segmentationEffect. intros H.
  destruct (negb (hasPoints st) && bool_decide (is_Some (maskData st)));
    [done|].
  destruct (baseImage st) as [b|]; [|done].
  destruct (hasEmbeddings st && hasProcessedResult st && hasPoints st
            && isSamReady st); [|done].
  by injection H as <- <-.
Qed.

(** C4. A segmentation request is started for the live base image.  Whatever
    happens before its result arrives, if by then the live base image has
    another [src] (or there is none), the result is not applied: mask data is
    cleared and the clip toggle reset, whatever the result was, and the live
    base image is left as it is.  A stale embedding result is dropped in the
    same way. *)
Theorem stale_segmentation_result_discarded (st0 st1 : AppState)
    (req : SegmentationRequest) (events : list Event)
    (newMask : option MaskData) :
  segmentationEffect st0 = (st1, Some req) ->
  replacedSince (src (requestImage req)) (run events st1) ->
  let arrival := run events st1 in
  let st' := segmentationResolved req newMask arrival in
  baseImage st0 = Some (requestImage req) /\
  maskData st' = None /\
  clipImagesGlobally st' = false /\
  baseImage st' = baseImage arrival /\
  segmentationPoints st' = segmentationPoints arrival /\
  (forall ereq result,
     currentImageSrc ereq = src (requestImage req) ->
     baseImage (embeddingResolved ereq result arrival) = baseImage arrival).
Proof.
  intros Hstart Hstale arrival st'.
  apply segmentationEffect_request in Hstart as (-> & Hb & _).
  split; [done|].
  subst st'. rewrite segmentationResolved_stale by done.
  repeat split.
  intros ereq result Hsrc.
  rewrite embeddingResolved_stale; [done|]. by rewrite Hsrc.
Qed.

Lemma stale_segmentation_result_discarded_witness :
  let arrival := run replaceImage sessionA in
  let st' := segmentationResolved requestA (Some maskA) arrival in
  baseImage sessionA = Some (requestImage requestA) /\
  maskData st' = None /\
  clipImagesGlobally st' = false /\
  baseImage st' = baseImage arrival /\
  segmentationPoints st' = segmentationPoints arrival /\
  (forall ereq result,
     currentImageSrc ereq = src (requestImage requestA) ->
     baseImage (embeddingResolved ereq result arrival) = baseImage arrival).
Proof.
  apply (stale_segmentation_result_discarded sessionA sessionA requestA
           replaceImage (Some maskA)).
  - reflexivity.
  - intros cur H. injection H as <-. discriminate.
Defined.

(** C5. Whenever a mutation of the point set leaves the point list empty
    while mask data exists, then once the segmentation effect has run for
    the new point list the mask data is null and the global clip toggle is
    false, and no segmentation is requested. *)
Theorem empty_points_clear_mask (m : PointMutation) (st : AppState) :
  is_Some (maskData st) ->
  segmentationPoints (applyPointMutation m st) = [] ->
  let '(st', request) := segmentationEffect (applyPointMutation m st) in
  maskData st' = None /\ clipImagesGlobally st' = false /\ request = None /\
  segmentationPoints st' = [] /\
  baseImage st' = baseImage (applyPointMutation m st).
Proof.
  intros Hmask Hempty.
  unfold segmentationEffect, hasPoints. rewrite Hempty. cbn [length Nat.eqb negb andb].
  destruct m as [newId px py l|pid|].
  - cbn in Hempty. by destruct (segmentationPoints st).
  - cbn [applyPointMutation handleRemovePoint setSegmentationPoints maskData]
      in *.
    rewrite bool_decide_eq_true_2 by done. done.
  - cbn. done.
Qed.

Lemma empty_points_clear_mask_witness :
  let '(st', request) :=
    segmentationEffect (applyPointMutation (RemovePoint "p1") sessionA) in
  maskData st' = None /\ clipImagesGlobally st' = false /\ request = None /\
  segmentationPoints st' = [] /\
  baseImage st' = baseImage (applyPointMutation (RemovePoint "p1") sessionA).
Proof.
  apply (empty_points_clear_mask (RemovePoint "p1") sessionA).
  - by eexists.
  - reflexivity.
Defined.

End SessionProps.

(** ** Reordering layers *)
Module ReorderProps.
Import JS Types Layers Specs Samples.

Lemma findIndex_Some (target : string) (l : list ImageData) (i : nat) :
  findIndex target l = Some i ->
  exists t, l !! i = Some t /\ id t = target.
Proof.
  revert i. induction l as [|t l IH]; intros i H; [done|].
  cbn [findIndex] in H.
  destruct (String.eqb_spec (id t) target) as [Heq|Hne].
  - injection H as <-. by exists t.
  - destruct (findIndex target l) as [j|]; [|done].
    injection H as <-. destruct (IH j eq_refl) as (t' & Ht' & Hid).
    by exists t'.
Qed.

Lemma spliceIn_lookup (k : nat) (item : ImageData) (l : list ImageData) :
  k <= length l -> spliceIn k item l !! k = Some item.
Proof.
  intros Hk. unfold spliceIn.
  apply list_lookup_middle. rewrite length_take_le; lia.
Qed.

Lemma delete_spliceIn (k : nat) (item : ImageData) (l : list ImageData) :
  k <= length l -> delete k (spliceIn k item l) = l.
Proof.
  revert l. induction k as [|k IH]; intros l Hk.
  - unfold spliceIn. by rewrite take_0, drop_0.
  - destruct l as [|t l]; [simpl in Hk; lia|].
    unfold spliceIn in *. cbn [take drop app delete]. simpl.
    f_equal. apply IH. simpl in Hk. lia.
Qed.

(** What [handleReorderImages] does when it moves the layer. *)
Lemma handleReorderImages_moves (draggedId droppedOnId : string)
    (prevImages : list ImageData) (di ti : nat) (item : ImageData) :
  findIndex draggedId prevImages = Some di ->
  findIndex droppedOnId prevImages = Some ti ->
  di <> ti -> prevImages !! di = Some item ->
  handleReorderImages draggedId droppedOnId prevImages
    = spliceIn (if di <? ti then ti - 1 else ti) item (delete di prevImages).
Proof.
  intros Hd Ht Hne Hitem. unfold handleReorderImages.
  rewrite Hd, Ht, Hitem.
  by rewrite (proj2 (Nat.eqb_neq di ti) Hne).
Qed.

(** C7. Reordering is the identity when the two ids are equal or when either
    id is absent from the list; and in every case the layers other than the
    dragged one form the same list, in the same order, before and after:
    taking the dragged layer out of the result gives the original list with
    the dragged layer taken out. *)
Theorem reorder_stable (draggedId droppedOnId : string)
    (prevImages : list ImageData) :
  let result := handleReorderImages draggedId droppedOnId prevImages in
  (draggedId = droppedOnId -> result = prevImages) /\
  (findIndex draggedId prevImages = None \/
   findIndex droppedOnId prevImages = None -> result = prevImages) /\
  length result = length prevImages /\
  (forall draggedIndex itemToMove,
     findIndex draggedId prevImages = Some draggedIndex ->
     prevImages !! draggedIndex = Some itemToMove ->
     exists k,
       result !! k = Some itemToMove /\
       delete k result = delete draggedIndex prevImages).
Proof.
  intros result.
  assert (Hmove : forall di item,
    findIndex draggedId prevImages = Some di ->
    prevImages !! di = Some item ->
    exists k, result !! k = Some item /\
              delete k result = delete di prevImages).
  { intros di item Hd Hitem. subst result.
    destruct (findIndex droppedOnId prevImages) as [ti|] eqn:Ht.
    - destruct (decide (di = ti)) as [->|Hne].
      + exists ti. unfold handleReorderImages.
        by rewrite Hd, Ht, Nat.eqb_refl.
      + rewrite (handleReorderImages_moves _ _ _ di ti item) by done.
        apply findIndex_Some in Ht as (t & Ht & _).
        apply lookup_lt_Some in Ht, Hitem.
        assert (Hlen : length (delete di prevImages) = length prevImages - 1).
        { apply length_delete. by apply lookup_lt_is_Some_2. }
        exists (if di <? ti then ti - 1 else ti).
        assert ((if di <? ti then ti - 1 else ti)
                <= length (delete di prevImages)).
        { destruct (Nat.ltb_spec di ti); lia. }
        split; [by apply spliceIn_lookup|by apply delete_spliceIn].
    - exists di. unfold handleReorderImages. by rewrite Hd, Ht. }
  split; [|split; [|split]].
  - intros <-. subst result. unfold handleReorderImages.
    destruct (findIndex draggedId prevImages); [|done].
    by rewrite Nat.eqb_refl.
  - subst result. unfold handleReorderImages. intros [-> | ->]; [done|].
    by destruct (findIndex draggedId prevImages).
  - destruct (findIndex draggedId prevImages) as [di|] eqn:Hd.
    + destruct (findIndex_Some _ _ _ Hd) as (item & Hitem & _).
      destruct (Hmove di item eq_refl Hitem) as (k & Hk & Hdel).
      assert (length (delete k result) = length (delete di prevImages))
        by (by rewrite Hdel).
      rewrite !length_delete in H by eauto.
      apply lookup_lt_Some in Hk, Hitem. lia.
    + subst result. unfold handleReorderImages. by rewrite Hd.
  - done.
Qed.

(** C9. When both ids are present and distinct, the dragged layer ends up
    immediately before the layer it was dropped on, whether it came from an
    earlier or from a later index. *)
Theorem reorder_places_before_target (draggedId droppedOnId : string)
    (prevImages : list ImageData) (draggedIndex droppedOnIndex : nat) :
  findIndex draggedId prevImages = Some draggedIndex ->
  findIndex droppedOnId prevImages = Some droppedOnIndex ->
  draggedId <> droppedOnId ->
  exists itemToMove target before after,
    prevImages !! draggedIndex = Some itemToMove /\
    prevImages !! droppedOnIndex = Some target /\
    id itemToMove = draggedId /\ id target = droppedOnId /\
    handleReorderImages draggedId droppedOnId prevImages
      = before ++ itemToMove :: target :: after.
Proof.
  intros Hd Ht Hids.
  destruct (findIndex_Some _ _ _ Hd) as (item & Hitem & Hid).
  destruct (findIndex_Some _ _ _ Ht) as (target & Htarget & Htid).
  assert (Hne : draggedIndex <> droppedOnIndex).
  { intros ->. congruence. }
  rewrite (handleReorderImages_moves _ _ _ _ _ item Hd Ht Hne Hitem).
  exists item, target.
  destruct (Nat.ltb_spec draggedIndex droppedOnIndex) as [Hlt|Hge].
  - exists (take (droppedOnIndex - 1) (delete draggedIndex prevImages)),
           (drop (S (droppedOnIndex - 1)) (delete draggedIndex prevImages)).
    repeat split; try done. unfold spliceIn. do 2 f_equal.
    apply drop_S. rewrite list_lookup_delete_ge by lia.
    by replace (S (droppedOnIndex - 1)) with droppedOnIndex by lia.
  - exists (take droppedOnIndex (delete draggedIndex prevImages)),
           (drop (S droppedOnIndex) (delete draggedIndex prevImages)).
    repeat split; try done. unfold spliceIn. do 2 f_equal.
    apply drop_S. rewrite list_lookup_delete_lt by lia. done.
Qed.

Lemma reorder_stable_witness :
  let result := handleReorderImages "d" "b" fourLayers in
  result = [layer "a"; layer "d"; layer "b"; layer "c"] /\
  ("d" = "b" -> result = fourLayers) /\
  (findIndex "d" fourLayers = None \/
   findIndex "b" fourLayers = None -> result = fourLayers) /\
  length result = length fourLayers /\
  (forall draggedIndex itemToMove,
     findIndex "d" fourLayers = Some draggedIndex ->
     fourLayers !! draggedIndex = Some itemToMove ->
     exists k,
       result !! k = Some itemToMove /\
       delete k result = delete draggedIndex fourLayers).
Proof.
  split; [reflexivity|].
  exact (reorder_stable "d" "b" fourLayers).
Defined.

Lemma reorder_places_before_target_witness :
  handleReorderImages "a" "c" fourLayers
    = [layer "b"; layer "a"; layer "c"; layer "d"] /\
  exists itemToMove target before after,
    fourLayers !! 0 = Some itemToMove /\
    fourLayers !! 2 = Some target /\
    id itemToMove = "a" /\ id target = "c" /\
    handleReorderImages "a" "c" fourLayers
      = before ++ itemToMove :: target :: after.
Proof.
  split; [reflexivity|].
  apply (reorder_places_before_target "a" "c" fourLayers 0 2).
  - reflexivity.
  - reflexivity.
  - discriminate.
Defined.

End ReorderProps.

(** ** Transform patches *)
Module TransformProps.
Import JS JSFacts Types Layers Specs Samples.

Lemma keepValid_default (stored : number) (field : option number) :
  default stored (keepValid field) = patched isNaN stored field.
Proof. by destruct field as [[| |]|]. Qed.

Lemma keepValidSize_default (stored : number) (field : option number) :
  default stored (keepValidSize field) = patched badSize stored field.
Proof.
  destruct field as [v|]; [|done]. unfold keepValidSize, patched, badSize.
  destruct v as [|[]|q]; cbn; try done. by destruct (Qle_bool q 0).
Qed.

(** C6, as stated, fails: an infinite [relX] is not dropped. *)
Lemma nonfinite_fields_dropped_fails :
  ~ nonfinite_fields_dropped "a"
      (mkTransformAttrs (Some (Inf false)) None None None None)
      [sampleLayer].
Proof.
  intros H.
  destruct (H 0 sampleLayer _ eq_refl eq_refl eq_refl) as [Hx _].
  specialize (Hx (Inf false) eq_refl eq_refl). discriminate Hx.
Qed.

(** C6, amended. [handleUpdateImageTransform] is a partial patch: the list
    keeps its length and every layer with another id; in a layer with the
    target id, [relX], [relY] and [rotation] take the patch's value unless
    it is absent or NaN, [relWidth] and [relHeight] take the patch's value
    unless it is absent, NaN or not above zero (an infinite position, or a
    positively infinite size, is applied), and every other field is kept. *)
Theorem updateTransform_partial_patch (target : string)
    (attrs : TransformAttrs) (prev : list ImageData) (k : nat)
    (t : ImageData) :
  prev !! k = Some t ->
  length (handleUpdateImageTransform target attrs prev) = length prev /\
  exists t',
    handleUpdateImageTransform target attrs prev !! k = Some t' /\
    (id t <> target -> t' = t) /\
    (id t = target ->
       relX t' = patched isNaN (relX t) (attr_relX attrs) /\
       relY t' = patched isNaN (relY t) (attr_relY attrs) /\
       rotation t' = patched isNaN (rotation t) (attr_rotation attrs) /\
       relWidth t' = patched badSize (relWidth t) (attr_relWidth attrs) /\
       relHeight t' = patched badSize (relHeight t) (attr_relHeight attrs) /\
       id t' = id t /\ originalSrc t' = originalSrc t /\
       processedSrc t' = processedSrc t /\ konvaImage t' = konvaImage t /\
       scaleX t' = scaleX t /\ scaleY t' = scaleY t /\
       isRemovingBg t' = isRemovingBg t /\
       isChangingColor t' = isChangingColor t /\
       isLoading t' = isLoading t /\ name t' = name t).
Proof.
  intros Hk. unfold handleUpdateImageTransform.
  split; [apply length_fmap|].
  rewrite list_lookup_fmap, Hk. cbn [fmap option_fmap option_map].
  eexists. split; [reflexivity|].
  destruct (String.eqb_spec (id t) target) as [Heq|Hne].
  - split; [done|]. intros _. unfold spreadAttrs, validate.
    cbn [relX relY rotation relWidth relHeight attr_relX attr_relY
         attr_rotation attr_relWidth attr_relHeight id originalSrc
         processedSrc konvaImage scaleX scaleY isRemovingBg isChangingColor
         isLoading name].
    rewrite !keepValid_default, !keepValidSize_default. done.
  - split; [done|]. intros Heq. done.
Qed.

Lemma updateTransform_partial_patch_witness :
  let attrs :=
    mkTransformAttrs (Some (Fin (3 # 4))) (Some NaN) (Some (Fin (-1 # 5)))
      (Some (Fin (2 # 5))) None in
  handleUpdateImageTransform "a" attrs [sampleLayer]
    = [mkImageData "a" "data:image/png;base64,AAAA"
         "data:image/png;base64,AAAA"
         (Some (mkHTMLImageElement "data:image/png;base64,AAAA" 64 64))
         (Fin (3 # 4)) (Fin (1 # 2)) (Fin (1 # 5)) (Fin (2 # 5)) (Fin 0)
         (Fin 1) (Fin 1) false false false "a.png"] /\
  length (handleUpdateImageTransform "a" attrs [sampleLayer]) = 1 /\
  exists t',
    handleUpdateImageTransform "a" attrs [sampleLayer] !! 0 = Some t' /\
    (id sampleLayer <> "a" -> t' = sampleLayer) /\
    (id sampleLayer = "a" ->
       relX t' = Fin (3 # 4) /\
       relY t' = Fin (1 # 2) /\
       rotation t' = Fin 0 /\
       relWidth t' = Fin (1 # 5) /\
       relHeight t' = Fin (2 # 5) /\
       id t' = id sampleLayer /\ originalSrc t' = originalSrc sampleLayer /\
       processedSrc t' = processedSrc sampleLayer /\
       konvaImage t' = konvaImage sampleLayer /\
       scaleX t' = scaleX sampleLayer /\ scaleY t' = scaleY sampleLayer /\
       isRemovingBg t' = isRemovingBg sampleLayer /\
       isChangingColor t' = isChangingColor sampleLayer /\
       isLoading t' = isLoading sampleLayer /\ name t' = name sampleLayer).
Proof.
  intros attrs. split; [reflexivity|].
  exact (updateTransform_partial_patch "a" attrs [sampleLayer] 0 sampleLayer
           eq_refl).
Defined.

End TransformProps.

(** ** Background removal *)
Module RemovalProps.
Import JS Types Layers Specs Samples.

Lemma findImage_mapAt (x target : string) (f : ImageData -> ImageData)
    (l : list ImageData) :
  (forall t, id (f t) = id t) ->
  findImage x (mapAt target f l)
    = (fun t => if String.eqb (id t) target then f t else t)
        <$> findImage x l.
Proof.
  intros Hid. unfold findImage, mapAt.
  induction l as [|t l IH]; [done|].
  cbn [fmap list_fmap List.find].
  assert (Hsame : id (if String.eqb (id t) target then f t else t) = id t).
  { destruct (String.eqb (id t) target); [apply Hid|done]. }
  rewrite Hsame. destruct (String.eqb (id t) x); [done|]. apply IH.
Qed.

Lemma findImage_id (x : string) (l : list ImageData) (t : ImageData) :
  findImage x l = Some t -> id t = x.
Proof.
  unfold findImage. intros H. apply List.find_some in H as [_ H].
  by apply String.eqb_eq.
Qed.

Lemma handleRemoveBackground_starts (target : string)
    (imgs : list ImageData) (image : ImageData) :
  findImage target imgs = Some image -> eligible image ->
  handleRemoveBackground true target imgs
    = (mapAt target (withRemovingBg true) imgs, Some (originalSrc image)).
Proof.
  intros Hf [Hflag Hsrc]. unfold handleRemoveBackground.
  rewrite Hf, Hflag, Hsrc, String.eqb_refl. done.
Qed.

(** C8. A background-removal request for a layer whose [isRemovingBg] flag
    is set returns without changing the layer list and without calling the
    service; in particular a second request right after a first one that
    started is ignored.  Requests for two distinct layers both start, and
    both layers are then flagged as being processed. *)
Theorem removal_serialized_per_layer :
  (forall isBgRemovalReady target imgs image,
     findImage target imgs = Some image -> isRemovingBg image = true ->
     handleRemoveBackground isBgRemovalReady target imgs = (imgs, None)) /\
  (forall target imgs image,
     findImage target imgs = Some image -> eligible image ->
     let started := handleRemoveBackground true target imgs in
     snd started = Some (originalSrc image) /\
     forall isBgRemovalReady,
       handleRemoveBackground isBgRemovalReady target (fst started)
         = (fst started, None)) /\
  (forall a b imgs imageA imageB,
     a <> b ->
     findImage a imgs = Some imageA -> eligible imageA ->
     findImage b imgs = Some imageB -> eligible imageB ->
     let first := handleRemoveBackground true a imgs in
     let second := handleRemoveBackground true b (fst first) in
     snd first = Some (originalSrc imageA) /\
     snd second = Some (originalSrc imageB) /\
     findImage a (fst second) = Some (withRemovingBg true imageA) /\
     findImage b (fst second) = Some (withRemovingBg true imageB)).
Proof.
  split; [|split].
  - intros ready target imgs image Hf Hflag.
    unfold handleRemoveBackground. by rewrite Hf, Hflag.
  - intros target imgs image Hf Hel started. subst started.
    rewrite (handleRemoveBackground_starts _ _ _ Hf Hel). cbn [fst snd].
    split; [done|]. intros ready. unfold handleRemoveBackground.
    rewrite findImage_mapAt by done. rewrite Hf. cbn [fmap option_fmap option_map].
    rewrite (findImage_id _ _ _ Hf), String.eqb_refl. done.
  - intros a b imgs imageA imageB Hab HfA HelA HfB HelB first second.
    subst second first.
    pose proof (findImage_id _ _ _ HfA) as HidA.
    pose proof (findImage_id _ _ _ HfB) as HidB.
    rewrite (handleRemoveBackground_starts _ _ _ HfA HelA). cbn [fst snd].
    assert (HfB' : findImage b (mapAt a (withRemovingBg true) imgs)
                   = Some imageB).
    { rewrite findImage_mapAt by done. rewrite HfB.
      cbn [fmap option_fmap option_map]. rewrite HidB.
      by rewrite (proj2 (String.eqb_neq b a)) by done. }
    rewrite (handleRemoveBackground_starts _ _ _ HfB' HelB). cbn [fst snd].
    split; [done|]. split; [done|].
    rewrite !findImage_mapAt by done. rewrite HfA, HfB.
    cbn [fmap option_fmap option_map].
    rewrite HidA, HidB, !String.eqb_refl.
    rewrite (proj2 (String.eqb_neq b a)) by done.
    cbn [withRemovingBg id]. rewrite HidA, HidB, !String.eqb_refl.
    rewrite (proj2 (String.eqb_neq a b)) by done.
    done.
Qed.

Lemma removal_serialized_per_layer_witness :
  let imgs := [iconLayer; photoLayer] in
  let first := handleRemoveBackground true "icon" imgs in
  let second := handleRemoveBackground true "photo" (fst first) in
  (snd first = Some "data:image/png;base64,UkVE" /\
   snd second = Some "data:image/jpeg;base64,SlBH" /\
   findImage "icon" (fst second) = Some (withRemovingBg true iconLayer) /\
   findImage "photo" (fst second) = Some (withRemovingBg true photoLayer)) /\
  handleRemoveBackground true "icon" (fst second) = (fst second, None).
Proof.
  intros imgs first second.
  destruct removal_serialized_per_layer as (Hbusy & _ & Hdistinct).
  split.
  - apply (Hdistinct "icon" "photo" imgs iconLayer photoLayer).
    + discriminate.
    + reflexivity.
    + split; reflexivity.
    + reflexivity.
    + split; reflexivity.
  - apply (Hbusy true "icon" (fst second) (withRemovingBg true iconLayer)).
    + reflexivity.
    + reflexivity.
Defined.

Lemma handleRemoveBackground_refuses_processed (isBgRemovalReady : bool)
    (target : string) (imgs : list ImageData) (image : ImageData) :
  findImage target imgs = Some image ->
  processedSrc image <> originalSrc image ->
  handleRemoveBackground isBgRemovalReady target imgs = (imgs, None).
Proof.
  intros Hf Hne. unfold handleRemoveBackground. rewrite Hf.
  rewrite (proj2 (String.eqb_neq _ _) Hne).
  by rewrite !orb_true_r.
Qed.

(** C10, as stated, fails: a tint (or a removal) whose result is the very
    data URL the layer was uploaded with leaves the layer free to start a
    background removal. *)
Lemma processed_layer_never_removed_fails :
  ~ processed_layer_never_removed "icon" [iconLayer].
Proof.
  intros H.
  destruct (H true "data:image/png;base64,UkVE"
              (mkHTMLImageElement "data:image/png;base64,UkVE" 32 32))
    as [_ Htint].
  discriminate Htint.
Qed.

(** C10, amended. Background removal is refused, with the layer list
    unchanged and no call of the service, for any layer whose processed
    source differs from its original source; so a layer whose completed
    background removal or tint produced a source other than its original
    one does not start a background removal. *)
Theorem removal_refused_for_processed_layer (isBgRemovalReady : bool)
    (target : string) (imgs : list ImageData) (image : ImageData) :
  findImage target imgs = Some image ->
  (processedSrc image <> originalSrc image ->
   handleRemoveBackground isBgRemovalReady target imgs = (imgs, None)) /\
  (forall resultSrc img,
     resultSrc <> originalSrc image ->
     let afterRemoval :=
       removeBackgroundSettled target (RemovalLoaded resultSrc img) imgs in
     let afterTint := addColorLoaded target resultSrc img imgs in
     handleRemoveBackground isBgRemovalReady target afterRemoval
       = (afterRemoval, None) /\
     handleRemoveBackground isBgRemovalReady target afterTint
       = (afterTint, None)).
Proof.
  intros Hf. split.
  - by apply handleRemoveBackground_refuses_processed.
  - intros resultSrc img Hne afterRemoval afterTint.
    pose proof (findImage_id _ _ _ Hf) as Hid.
    split.
    + apply (handleRemoveBackground_refuses_processed _ _ _
               (withRemovingBg false (withProcessed resultSrc img image))).
      * subst afterRemoval. unfold removeBackgroundSettled.
        rewrite findImage_mapAt by done. rewrite Hf.
        cbn [fmap option_fmap option_map]. by rewrite Hid, String.eqb_refl.
      * done.
    + apply (handleRemoveBackground_refuses_processed _ _ _
               (withChangingColor false (withProcessed resultSrc img image))).
      * subst afterTint. unfold addColorLoaded.
        rewrite findImage_mapAt by done. rewrite Hf.
        cbn [fmap option_fmap option_map]. by rewrite Hid, String.eqb_refl.
      * done.
Qed.

Lemma removal_refused_for_processed_layer_witness :
  let imgs := [iconLayer; photoLayer] in
  let afterRemoval :=
    removeBackgroundSettled "photo"
      (RemovalLoaded "data:image/png;base64,Q1VU" cutoutImage) imgs in
  findImage "photo" afterRemoval
    = Some (withProcessed "data:image/png;base64,Q1VU" cutoutImage photoLayer)
  /\
  handleRemoveBackground true "photo" afterRemoval = (afterRemoval, None).
Proof.
  intros imgs afterRemoval. split; [reflexivity|].
  destruct (removal_refused_for_processed_layer true "photo" imgs photoLayer
              eq_refl) as [_ H].
  apply (H "data:image/png;base64,Q1VU" cutoutImage). discriminate.
Defined.

End RemovalProps.

(** ** Loading the models *)
Module NegotiationProps.
Import Negotiation.

Lemma tryBackendsFrom_Some (attempt : option string -> bool)
    (rest : list (option string)) (i0 i : nat) :
  tryBackendsFrom attempt rest i0 = Some i ->
  exists k device,
    i = i0 + k /\ rest !! k = Some device /\ attempt device = true /\
    forall j d, j < k -> rest !! j = Some d -> attempt d = false.
Proof.
  revert i0. induction rest as [|b rest IH]; intros i0 H; [done|].
  cbn [tryBackendsFrom] in H. destruct (attempt b) eqn:Hb.
  - injection H as <-. exists 0, b. repeat split; [lia|done|].
    intros j d Hj. lia.
  - destruct (IH _ H) as (k & device & -> & Hk & Hd & Hbefore).
    exists (S k), device. repeat split; [lia|done|done|].
    intros [|j] d Hj Hjd.
    + by injection Hjd as <-.
    + apply (Hbefore j); [lia|done].
Qed.

Lemma tryBackendsFrom_None (attempt : option string -> bool)
    (rest : list (option string)) (i0 : nat) :
  tryBackendsFrom attempt rest i0 = None <->
  forall d, d ∈ rest -> attempt d = false.
Proof.
  revert i0. induction rest as [|b rest IH]; intros i0.
  - split; [|done]. intros _ d Hd. by apply elem_of_nil in Hd.
  - cbn [tryBackendsFrom]. destruct (attempt b) eqn:Hb.
    + split; [done|]. intros H. rewrite H in Hb; [done|]. by left.
    + rewrite IH. split.
      * intros H d Hd. apply elem_of_cons in Hd as [->|Hd]; eauto.
      * intros H d Hd. apply H. by right.
Qed.

(** X1. The backend loop stops at the first device of the list for which
    loading works: every device listed before it was tried and failed; and
    it gives up ("No backend available!") exactly when loading fails for
    every device of the list. *)
Theorem tryBackends_first_working (attempt : option string -> bool) :
  match tryBackends attempt with
  | Some i =>
      exists device,
        backends !! i = Some device /\ attempt device = true /\
        forall j d, j < i -> backends !! j = Some d -> attempt d = false
  | None => forall d, d ∈ backends -> attempt d = false
  end.
Proof.
  unfold tryBackends.
  destruct (tryBackendsFrom attempt backends 0) as [i|] eqn:E.
  - apply tryBackendsFrom_Some in E
      as (k & device & -> & Hk & Hd & Hbefore).
    by exists device.
  - by apply (proj1 (tryBackendsFrom_None attempt backends 0)).
Qed.

(** X2. Once its load has settled in a mounted effect, a service is ready
    exactly when loading works for at least one listed device; otherwise
    its flag is false and the status reports that no backend is available.
    Neither outcome touches the other service's flag. *)
Theorem ready_iff_some_backend_works (attempt : option string -> bool)
    (st : HookState) :
  let sam := samLoadSettled true (tryBackends attempt) st in
  let bg := bgLoadSettled true (tryBackends attempt) st in
  (isSamReady sam = true <-> exists d, d ∈ backends /\ attempt d = true) /\
  (isBgRemovalReady bg = true <->
     exists d, d ∈ backends /\ attempt d = true) /\
  ((forall d, d ∈ backends -> attempt d = false) ->
     status sam = "Error loading SAM: No backend available!" /\
     status bg = "Error loading BG Removal: No backend available!") /\
  isBgRemovalReady sam = isBgRemovalReady st /\
  isSamReady bg = isSamReady st.
Proof.
  intros sam bg. subst sam bg.
  pose proof (tryBackends_None_iff := tryBackendsFrom_None attempt backends 0).
  fold (tryBackends attempt) in tryBackends_None_iff.
  destruct (tryBackends attempt) as [i|] eqn:E.
  - assert (Hex : exists d, d ∈ backends /\ attempt d = true).
    { unfold tryBackends in E.
      destruct (tryBackendsFrom_Some _ _ _ _ E)
        as (k & device & _ & Hk & Hd & _).
      exists device. split; [|done]. by eapply list_elem_of_lookup_2. }
    cbn. split; [done|]. split; [done|]. split; [|done].
    intros Hall. destruct Hex as (d & Hin & Hd).
    rewrite Hall in Hd; done.
  - assert (Hall : forall d, d ∈ backends -> attempt d = false)
      by (by apply (proj1 tryBackends_None_iff)).
    cbn. split; [|split; [|done]].
    + split; [done|]. intros (d & Hin & Hd). rewrite Hall in Hd; done.
    + split; [done|]. intros (d & Hin & Hd). rewrite Hall in Hd; done.
Qed.

(** X3. The two loads are independent: whatever their outcomes, settling
    them in either order leaves the same readiness flags and refs, and when
    both succeed the status ends as "All AI models ready." in both orders. *)
Theorem loads_commute (samOutcome bgOutcome : option nat) (st : HookState) :
  let samFirst :=
    bgLoadSettled true bgOutcome (samLoadSettled true samOutcome st) in
  let bgFirst :=
    samLoadSettled true samOutcome (bgLoadSettled true bgOutcome st) in
  isSamReady samFirst = isSamReady bgFirst /\
  isBgRemovalReady samFirst = isBgRemovalReady bgFirst /\
  samModelRef samFirst = samModelRef bgFirst /\
  samProcessorRef samFirst = samProcessorRef bgFirst /\
  bgRemovalModelRef samFirst = bgRemovalModelRef bgFirst /\
  bgRemovalProcessorRef samFirst = bgRemovalProcessorRef bgFirst /\
  samLoadingRef samFirst = false /\ bgLoadingRef samFirst = false /\
  samLoadingRef bgFirst = false /\ bgLoadingRef bgFirst = false /\
  (is_Some samOutcome -> is_Some bgOutcome ->
   status samFirst = "All AI models ready." /\
   status bgFirst = "All AI models ready." /\
   isSamReady samFirst = true /\ isBgRemovalReady samFirst = true).
Proof.
  intros samFirst bgFirst. subst samFirst bgFirst.
  destruct samOutcome as [i|], bgOutcome as [j|]; cbn;
    repeat split; try done;
    try (intros [? ?]; done); try (intros _ [? ?]; done).
Qed.

End NegotiationProps.

(** ** The background-removal service and its use by the layer store *)
Module MatteProps.
Import JS Types Transformers Layers BackgroundRemoval RemovalFlow Stage.
Import Specs Notions Examples.

Lemma alphaLoop_length (raw : list Z) (t0 : nat) (buf : list Z) :
  length (alphaLoop raw t0 buf) = length buf.
Proof.
  revert t0 buf. induction raw as [|m raw IH]; intros t0 buf; [done|].
  cbn [alphaLoop]. by rewrite IH, length_insert.
Qed.

Lemma alphaLoop_other (raw : list Z) (t0 : nat) (buf : list Z) (p k : nat) :
  k < 3 -> alphaLoop raw t0 buf !! (4 * p + k) = buf !! (4 * p + k).
Proof.
  intros Hk. revert t0 buf. induction raw as [|m raw IH]; intros t0 buf.
  - done.
  - cbn [alphaLoop]. rewrite IH. apply list_lookup_insert_ne. lia.
Qed.

(** The alpha byte of pixel [p] after the loop started at pixel [t0]. *)
Lemma alphaLoop_alpha (raw : list Z) (t0 : nat) (buf : list Z) (p : nat) :
  alphaLoop raw t0 buf !! (4 * p + 3) =
  match (if bool_decide (t0 <= p) then raw !! (p - t0) else None) with
  | Some m => (fun _ => clampByte m) <$> buf !! (4 * p + 3)
  | None => buf !! (4 * p + 3)
  end.
Proof.
  revert t0 buf. induction raw as [|m raw IH]; intros t0 buf.
  - cbn [alphaLoop]. rewrite lookup_nil. by case_bool_decide.
  - cbn [alphaLoop]. rewrite IH. clear IH.
    destruct (decide (p = t0)) as [->|Hne].
    + rewrite (bool_decide_eq_false_2 (S t0 <= t0)) by lia.
      rewrite (bool_decide_eq_true_2 (t0 <= t0)) by lia.
      rewrite Nat.sub_diag. cbn [lookup list_lookup].
      rewrite list_lookup_insert. case_decide as Hd.
      * destruct (lookup_lt_is_Some_2 buf (4 * t0 + 3)) as [z ->]; [lia|done].
      * rewrite lookup_ge_None_2; [done|]. lia.
    + rewrite list_lookup_insert_ne by lia.
      destruct (decide (t0 < p)) as [Hlt|Hge].
      * rewrite (bool_decide_eq_true_2 (S t0 <= p)) by lia.
        rewrite (bool_decide_eq_true_2 (t0 <= p)) by lia.
        by replace (p - t0) with (S (p - S t0)) by lia.
      * rewrite (bool_decide_eq_false_2 (S t0 <= p)) by lia.
        by rewrite (bool_decide_eq_false_2 (t0 <= p)) by lia.
Qed.

Lemma lookup_pixels_from (f : nat -> Pixel) (a n i k : nat) :
  i < n -> k < 4 ->
  flat_map (fun j => pixelBytes (f j)) (seq a n) !! (4 * i + k)
    = pixelBytes (f (a + i)) !! k.
Proof.
  revert a i. induction n as [|n IH]; intros a i Hi Hk; [lia|].
  cbn [seq flat_map].
  assert (Hlen : length (pixelBytes (f a)) = 4) by done.
  destruct i as [|i].
  - rewrite lookup_app_l by lia. rewrite Nat.add_0_r. by f_equal.
  - rewrite lookup_app_r by lia.
    replace (4 * S i + k - length (pixelBytes (f a))) with (4 * i + k)
      by lia.
    rewrite IH by lia. by replace (S a + i) with (a + S i) by lia.
Qed.

Lemma length_pixels_from (f : nat -> Pixel) (a n : nat) :
  length (flat_map (fun j => pixelBytes (f j)) (seq a n)) = 4 * n.
Proof.
  revert a. induction n as [|n IH]; intros a; simpl; [done|].
  rewrite IH. lia.
Qed.

(** X4. When [removeBackgroundImpl] resolves to a data URL, that URL
    encodes a canvas of the decoded image's size in which every pixel keeps
    the image's colour bytes and has as alpha the matte value of that pixel
    (clamped to a byte); pixels beyond the end of the matte keep the
    image's own alpha. *)
Theorem matte_becomes_alpha (toDataURL : Canvas -> string)
    (modelRef processorRef : bool) (env : RemovalEnv)
    (imageUrl src : string) :
  removeBackgroundImpl toDataURL modelRef processorRef env imageUrl
    = Returned (Some src) ->
  exists w h pixels rawImageData c,
    decoded env = Some (w, h, pixels) /\
    matte env = Some rawImageData /\
    src = toDataURL c /\ width c = w /\ height c = h /\
    length (rgba c) = 4 * (w * h) /\
    forall t, t < w * h ->
      alphaAt c t
        = Some (match rawImageData !! t with
                | Some m => clampByte m
                | None => alpha (pixels t)
                end) /\
      rgba c !! (4 * t) = Some (red (pixels t)) /\
      rgba c !! (4 * t + 1) = Some (green (pixels t)) /\
      rgba c !! (4 * t + 2) = Some (blue (pixels t)).
Proof.
  unfold removeBackgroundImpl. intros H.
  destruct (negb modelRef && negb processorRef); [done|].
  destruct (negb (String.prefix "data:image" imageUrl)); [done|].
  destruct (decoded env) as [[[w h] pixels]|]; [|done].
  destruct (negb processorRef); [done|]. destruct (negb modelRef); [done|].
  destruct (matte env) as [raw|]; [|done].
  unfold checkRect in H. case_bool_decide as Hd; [done|]. cbn in H.
  destruct (String.prefix _ _); [|done]. injection H as <-.
  eexists w, h, pixels, raw, _. repeat split; try reflexivity.
  - cbn [rgba]. rewrite alphaLoop_length. unfold getImageData.
    apply length_pixels_from.
  - unfold alphaAt. cbn [rgba]. rewrite alphaLoop_alpha.
    rewrite (bool_decide_eq_true_2 (0 <= t)) by lia. rewrite Nat.sub_0_r.
    unfold getImageData. rewrite (lookup_pixels_from _ 0 _ t 3) by lia.
    by destruct (raw !! t).
  - cbn [rgba]. replace (4 * t) with (4 * t + 0) by lia.
    rewrite alphaLoop_other by lia. unfold getImageData.
    by rewrite (lookup_pixels_from _ 0 _ t 0) by lia.
  - cbn [rgba]. rewrite alphaLoop_other by lia. unfold getImageData.
    by rewrite (lookup_pixels_from _ 0 _ t 1) by lia.
  - cbn [rgba]. rewrite alphaLoop_other by lia. unfold getImageData.
    by rewrite (lookup_pixels_from _ 0 _ t 2) by lia.
Qed.

Lemma matte_becomes_alpha_witness :
  removeBackgroundImpl sampleEncoder true true twoPixels
    "data:image/jpeg;base64,SlBH" = Returned (Some "data:image/png;base64,AAAA")
  /\
  exists w h pixels rawImageData c,
    decoded twoPixels = Some (w, h, pixels) /\
    matte twoPixels = Some rawImageData /\
    "data:image/png;base64,AAAA" = sampleEncoder c /\
    width c = w /\ height c = h /\
    length (rgba c) = 4 * (w * h) /\
    forall t, t < w * h ->
      alphaAt c t
        = Some (match rawImageData !! t with
                | Some m => clampByte m
                | None => alpha (pixels t)
                end) /\
      rgba c !! (4 * t) = Some (red (pixels t)) /\
      rgba c !! (4 * t + 1) = Some (green (pixels t)) /\
      rgba c !! (4 * t + 2) = Some (blue (pixels t)).
Proof.
  split; [reflexivity|].
  exact (matte_becomes_alpha sampleEncoder true true twoPixels
           "data:image/jpeg;base64,SlBH" "data:image/png;base64,AAAA"
           eq_refl).
Defined.

Lemma mapAt_flag_round_trip (target : string) (imgs : list ImageData) :
  (forall t, t ∈ imgs -> id t = target -> isRemovingBg t = false) ->
  mapAt target (withRemovingBg false)
    (mapAt target (withRemovingBg true) imgs) = imgs.
Proof.
  intros Hflags. unfold mapAt. rewrite <- list_fmap_compose.
  rewrite <- (list_fmap_id imgs) at 2.
  apply list_fmap_ext. intros k t Hk. cbn.
  destruct (String.eqb_spec (id t) target) as [Heq|Hne].
  - cbn [withRemovingBg id]. rewrite (proj2 (String.eqb_eq _ _) Heq).
    pose proof (Hflags t (list_elem_of_lookup_2 _ _ _ Hk) Heq) as Hf.
    destruct t. cbn in *. by subst.
  - by rewrite (proj2 (String.eqb_neq _ _) Hne).
Qed.

Lemma removalOutcome_failure (toDataURL : Canvas -> string)
    (ready modelRef processorRef : bool) (env : RemovalEnv)
    (loaded : option HTMLImageElement) (imageUrl : string) :
  String.prefix "data:image" imageUrl = false \/ decoded env = None \/
  matte env = None \/ loaded = None ->
  isFailure
    (removalOutcome
       (removeBackground toDataURL ready modelRef processorRef env imageUrl)
       loaded).
Proof.
  intros Hcause. unfold removeBackground, removeBackgroundImpl.
  destruct ready; [|done].
  destruct (negb modelRef && negb processorRef); [done|].
  destruct (String.prefix "data:image" imageUrl) eqn:Hp; [|done].
  cbn [negb].
  destruct (decoded env) as [[[w h] pixels]|] eqn:Hd; [|done].
  destruct (negb processorRef); [done|]. destruct (negb modelRef); [done|].
  destruct (matte env) as [raw|] eqn:Hm; [|done].
  destruct Hcause as [H|[H|[H|H]]]; try done. subst loaded.
  unfold checkRect. case_bool_decide; [done|]. cbn -[String.prefix].
  destruct (String.prefix "data:image" (toDataURL _));
    cbn [removalOutcome]; [|done].
  by destruct (String.eqb _ _).
Qed.

(** X5. A background removal that fails leaves the layer list exactly as it
    was before the request: whether the layer's source is not an image data
    URL (a placeholder still loading), the image cannot be decoded, the
    model fails, or the produced image fails to load. *)
Theorem failed_removal_restores_layers (toDataURL : Canvas -> string)
    (isBgRemovalReady modelRef processorRef : bool) (env : RemovalEnv)
    (loaded : option HTMLImageElement) (target : string)
    (imgs : list ImageData) :
  (forall t, t ∈ imgs -> id t = target -> isRemovingBg t = false) ->
  (forall image, findImage target imgs = Some image ->
     String.prefix "data:image" (originalSrc image) = false) \/
  decoded env = None \/ matte env = None \/ loaded = None ->
  removeBackgroundFlow toDataURL isBgRemovalReady modelRef processorRef env
    loaded (fun l => l) target imgs = imgs.
Proof.
  intros Hflags Hcause. unfold removeBackgroundFlow, handleRemoveBackground.
  destruct (findImage target imgs) as [image|] eqn:Hf; [|done].
  destruct (isRemovingBg image || negb isBgRemovalReady
            || negb (String.eqb (processedSrc image) (originalSrc image)));
    [done|].
  pose proof (removalOutcome_failure toDataURL isBgRemovalReady modelRef
                processorRef env loaded (originalSrc image)) as Hfail.
  destruct (removalOutcome _ _) eqn:Ho.
  - exfalso. apply Hfail. destruct Hcause as [H|[H|[H|H]]]; eauto.
  - by apply mapAt_flag_round_trip.
  - by apply mapAt_flag_round_trip.
  - by apply mapAt_flag_round_trip.
Qed.

Lemma failed_removal_restores_layers_witness :
  removeBackgroundFlow sampleEncoder true true true twoPixels
    (Some (mkHTMLImageElement "data:image/png;base64,AAAA" 2 1))
    (fun l => l) "tmp" withPlaceholder = withPlaceholder.
Proof.
  apply (failed_removal_restores_layers sampleEncoder true true true
           twoPixels _ "tmp" withPlaceholder).
  - intros t Ht _. unfold withPlaceholder in Ht.
    apply elem_of_cons in Ht as [->|Ht]; [done|].
    apply elem_of_cons in Ht as [->|Ht]; [done|].
    by apply elem_of_nil in Ht.
  - left. intros image H. injection H as <-. reflexivity.
Defined.

(** A resolved removal is an image data URL. *)
Lemma removeBackground_result_is_data_url (toDataURL : Canvas -> string)
    (ready modelRef processorRef : bool) (env : RemovalEnv)
    (imageUrl resultSrc : string) :
  removeBackground toDataURL ready modelRef processorRef env imageUrl
    = Returned (Some resultSrc) ->
  String.prefix "data:image" resultSrc = true.
Proof.
  unfold removeBackground, removeBackgroundImpl. intros H.
  destruct ready; [|done].
  destruct (negb modelRef && negb processorRef); [done|].
  destruct (negb (String.prefix "data:image" imageUrl)); [done|].
  destruct (decoded env) as [[[w h] pixels]|]; [|done].
  destruct (negb processorRef); [done|]. destruct (negb modelRef); [done|].
  destruct (matte env) as [raw|]; [|done].
  unfold checkRect in H. case_bool_decide; [done|]. cbn -[String.prefix] in H.
  destruct (String.prefix "data:image" (toDataURL _)) eqn:Hp; [|done].
  by injection H as <-.
Qed.

(** X6. A background removal that succeeds replaces the pixels of the
    target layer and nothing else: in the list as it is when the result
    arrives (the user may have moved or resized layers meanwhile), layers
    with another id are untouched, and the target layer keeps its id, its
    original source and its whole transform, gets the result as processed
    source and image, and has its flag cleared. *)
Theorem successful_removal_keeps_transform (toDataURL : Canvas -> string)
    (modelRef processorRef : bool) (env : RemovalEnv)
    (img : HTMLImageElement) (between : list ImageData -> list ImageData)
    (target : string) (imgs imgs1 : list ImageData)
    (imageUrl resultSrc : string) (k : nat) (t : ImageData) :
  handleRemoveBackground true target imgs = (imgs1, Some imageUrl) ->
  removeBackground toDataURL true modelRef processorRef env imageUrl
    = Returned (Some resultSrc) ->
  between imgs1 !! k = Some t ->
  exists t',
    removeBackgroundFlow toDataURL true modelRef processorRef env (Some img)
      between target imgs !! k = Some t' /\
    (id t <> target -> t' = t) /\
    (id t = target ->
       id t' = id t /\ originalSrc t' = originalSrc t /\
       processedSrc t' = resultSrc /\ konvaImage t' = Some img /\
       relX t' = relX t /\ relY t' = relY t /\
       relWidth t' = relWidth t /\ relHeight t' = relHeight t /\
       rotation t' = rotation t /\
       scaleX t' = scaleX t /\ scaleY t' = scaleY t /\
       isRemovingBg t' = false /\ isChangingColor t' = isChangingColor t /\
       name t' = name t).
Proof.
  intros Hreq Hres Hk. unfold removeBackgroundFlow. rewrite Hreq, Hres.
  assert (Hne : String.eqb resultSrc "" = false).
  { apply String.eqb_neq. intros ->.
    by apply removeBackground_result_is_data_url in Hres. }
  cbn [removalOutcome]. rewrite Hne. cbn [removeBackgroundSettled].
  unfold mapAt. rewrite list_lookup_fmap, Hk. cbn.
  eexists. split; [reflexivity|].
  destruct (String.eqb_spec (id t) target) as [Heq|Hneq].
  - split; [done|]. intros _. repeat split.
  - split; [done|]. intros Heq. done.
Qed.

Lemma successful_removal_keeps_transform_witness :
  let moved :=
    handleUpdateImageTransform "photo"
      (mkTransformAttrs (Some (Fin (3 # 4))) None None None None) in
  let img := mkHTMLImageElement "data:image/png;base64,AAAA" 2 1 in
  exists t',
    removeBackgroundFlow sampleEncoder true true true twoPixels (Some img)
      moved "photo" withPlaceholder !! 0 = Some t' /\
    relX t' = Fin (3 # 4) /\ relWidth t' = Fin (2 # 5) /\
    processedSrc t' = "data:image/png;base64,AAAA" /\
    originalSrc t' = "data:image/jpeg;base64,SlBH" /\
    isRemovingBg t' = false.
Proof.
  intros moved img.
  destruct (successful_removal_keeps_transform sampleEncoder true true
              twoPixels img moved "photo" withPlaceholder _ _ _ 0 _
              eq_refl eq_refl eq_refl)
    as (t' & Ht' & _ & Hfields).
  exists t'. split; [exact Ht'|].
  destruct (Hfields eq_refl)
    as (_ & Ho & Hp & _ & Hx & _ & Hw & _ & _ & _ & _ & Hf & _).
  rewrite Hx, Hw, Hp, Ho, Hf. repeat split.
Defined.

End MatteProps.

(** ** Stage size and initial layer size *)
Module StageProps.
Import JS JSFacts Types Stage Specs Samples Notions Examples.
Local Open Scope Q_scope.

Lemma ofNat_pos (n : nat) : (0 < n)%nat -> 0 < inject_Z (Z.of_nat n).
Proof.
  intros H. change 0 with (inject_Z 0). rewrite <- Zlt_Qlt. lia.
Qed.

Lemma Qeq_bool_pos (q : Q) : 0 < q -> Qeq_bool q 0 = false.
Proof.
  intros H. destruct (Qeq_bool q 0) eqn:E; [|done].
  apply Qeq_bool_iff in E. lra.
Qed.

(** [Math.max(lo, Math.min(1, b))] for a finite [b] and [lo <= 1]. *)
Lemma clamp_Fin (lo b : Q) :
  lo <= 1 ->
  exists c, Math_max (Fin lo) (Math_min (Fin 1) (Fin b)) = Fin c /\
            lo <= c /\ c <= 1.
Proof.
  intros Hlo. unfold Math_min. cbn [gt].
  destruct (Qltb b 1) eqn:E1.
  - apply Qltb_lt in E1. unfold Math_max. cbn [gt].
    destruct (Qltb lo b) eqn:E0.
    + apply Qltb_lt in E0. exists b. repeat split; lra.
    + apply Qltb_ge in E0. exists lo. repeat split; lra.
  - apply Qltb_ge in E1. unfold Math_max. cbn [gt].
    destruct (Qltb lo 1) eqn:E0.
    + exists 1. repeat split; lra.
    + exists lo. repeat split; lra.
Qed.

Section Rounding.
Variable rnd : Q -> Q.
Variable u : Q.
Hypothesis u_nonneg : 0 <= u.
Hypothesis u_small : u < 1.
Hypothesis rnd_ok : rounds_within rnd u.

Lemma rnd_near (q : Q) :
  0 <= q -> (1 - u) * q <= rnd q /\ rnd q <= (1 + u) * q.
Proof.
  intros Hq. pose proof (rnd_ok q) as H.
  rewrite (Qabs_pos q Hq) in H.
  apply Qabs_Qle_condition in H as [H1 H2]. split; lra.
Qed.

Lemma rnd_pos (q : Q) : 0 < q -> 0 < rnd q.
Proof.
  intros Hq. destruct (rnd_near q ltac:(lra)) as [H _]. nra.
Qed.

(** X7. With a base image of positive size in a container of positive
    size, the stage computed by [calculateStageSize] has positive finite
    dimensions that are the image's dimensions times one common scale (up to
    rounding), so the aspect ratio is kept; it fits the container, and
    fills it in at least one direction (both up to rounding). *)
Theorem stage_fits_container (containerWidth containerHeight : nat)
    (b : BaseImageData) (stageSize : StageSize) :
  (0 < containerWidth)%nat -> (0 < containerHeight)%nat ->
  (0 < originalWidth b)%nat -> (0 < originalHeight b)%nat ->
  let cw := inject_Z (Z.of_nat containerWidth) in
  let ch := inject_Z (Z.of_nat containerHeight) in
  let iw := inject_Z (Z.of_nat (originalWidth b)) in
  let ih := inject_Z (Z.of_nat (originalHeight b)) in
  exists W H scale,
    calculateStageSize rnd (Some (containerWidth, containerHeight))
      (Some b) stageSize = mkStageSize (Fin W) (Fin H) /\
    0 < scale /\ 0 < W /\ 0 < H /\
    (1 - u) * (iw * scale) <= W <= (1 + u) * (iw * scale) /\
    (1 - u) * (ih * scale) <= H <= (1 + u) * (ih * scale) /\
    W <= (1 + u) * (1 + u) * cw /\ H <= (1 + u) * (1 + u) * ch /\
    ((1 - u) * (1 - u) * cw <= W \/ (1 - u) * (1 - u) * ch <= H).
Proof.
  intros Hcw Hch Hiw Hih cw ch iw ih.
  pose proof (ofNat_pos _ Hcw) as Hcw'. pose proof (ofNat_pos _ Hch) as Hch'.
  pose proof (ofNat_pos _ Hiw) as Hiw'. pose proof (ofNat_pos _ Hih) as Hih'.
  fold cw in Hcw'. fold ch in Hch'. fold iw in Hiw'. fold ih in Hih'.
  unfold calculateStageSize.
  rewrite (proj2 (Nat.eqb_neq _ 0)) by lia.
  rewrite (proj2 (Nat.eqb_neq (originalHeight b) 0)) by lia.
  cbn [orb]. unfold ofNat. fold cw ch iw ih. cbn [div].
  rewrite (Qeq_bool_pos iw Hiw'), (Qeq_bool_pos ih Hih').
  set (qw := cw / iw). set (qh := ch / ih).
  assert (Hqw : qw * iw == cw) by (unfold qw; field; lra).
  assert (Hqh : qh * ih == ch) by (unfold qh; field; lra).
  assert (Hqw0 : 0 < qw) by nra. assert (Hqh0 : 0 < qh) by nra.
  destruct (rnd_near qw ltac:(lra)) as [Hw1 Hw2].
  destruct (rnd_near qh ltac:(lra)) as [Hh1 Hh2].
  pose proof (rnd_pos qw Hqw0) as Hsw. pose proof (rnd_pos qh Hqh0) as Hsh.
  set (sw := rnd qw) in *. set (sh := rnd qh) in *.
  unfold Math_min. cbn [gt].
  destruct (Qltb sh sw) eqn:E.
  - apply Qltb_lt in E. cbn [mul].
    destruct (rnd_near (iw * sh) ltac:(nra)) as [HW1 HW2].
    destruct (rnd_near (ih * sh) ltac:(nra)) as [HH1 HH2].
    exists (rnd (iw * sh)), (rnd (ih * sh)), sh.
    split; [done|]. split; [done|].
    split; [apply rnd_pos; nra|]. split; [apply rnd_pos; nra|].
    split; [done|]. split; [done|].
    assert (Hu1 : 0 <= 1 - u) by lra.
    assert (A1 : iw * sh <= (1 + u) * cw).
    { assert (iw * sh <= iw * ((1 + u) * qw)) by nra. nra. }
    assert (A2 : ih * sh <= (1 + u) * ch).
    { assert (ih * sh <= ih * ((1 + u) * qh)) by nra. nra. }
    assert (A3 : (1 - u) * ch <= ih * sh).
    { assert (ih * ((1 - u) * qh) <= ih * sh) by nra. nra. }
    split; [nra|]. split; [nra|]. right. nra.
  - apply Qltb_ge in E. cbn [mul].
    destruct (rnd_near (iw * sw) ltac:(nra)) as [HW1 HW2].
    destruct (rnd_near (ih * sw) ltac:(nra)) as [HH1 HH2].
    exists (rnd (iw * sw)), (rnd (ih * sw)), sw.
    split; [done|]. split; [done|].
    split; [apply rnd_pos; nra|]. split; [apply rnd_pos; nra|].
    split; [done|]. split; [done|].
    assert (Hu1 : 0 <= 1 - u) by lra.
    assert (A1 : iw * sw <= (1 + u) * cw).
    { assert (iw * sw <= iw * ((1 + u) * qw)) by nra. nra. }
    assert (A2 : ih * sw <= (1 + u) * ch).
    { assert (ih * sw <= ih * ((1 + u) * qh)) by nra. nra. }
    assert (A3 : (1 - u) * cw <= iw * sw).
    { assert (iw * ((1 - u) * qw) <= iw * sw) by nra. nra. }
    split; [nra|]. split; [nra|]. left. nra.
Qed.

(** The relative size given to a freshly loaded layer is a number between
    0.01 and 1. *)
Lemma initialRelSize_bounds (w h : Q) (img : HTMLImageElement) :
  exists rw rh,
    initialRelSize rnd (mkStageSize (Fin w) (Fin h)) img = (Fin rw, Fin rh) /\
    1 # 100 <= rw <= 1 /\ 1 # 100 <= rh <= 1.
Proof.
  unfold initialRelSize. cbn [stage_width stage_height gt].
  destruct ((0 <? naturalWidth img)%nat) eqn:Enw; cbn [andb];
    [|exists (1 # 10), (1 # 10); repeat split; lra].
  destruct ((0 <? naturalHeight img)%nat) eqn:Enh; cbn [andb];
    [|exists (1 # 10), (1 # 10); repeat split; lra].
  destruct (Qltb 0 w) eqn:Ew; cbn [andb];
    [|exists (1 # 10), (1 # 10); repeat split; lra].
  destruct (Qltb 0 h) eqn:Eh; cbn [andb];
    [|exists (1 # 10), (1 # 10); repeat split; lra].
  apply Nat.ltb_lt in Enw, Enh. apply Qltb_lt in Ew, Eh.
  pose proof (ofNat_pos _ Enw) as Hnw. pose proof (ofNat_pos _ Enh) as Hnh.
  unfold ofNat, INITIAL_IMAGE_TARGET_FRACTION, MIN_INITIAL_PIXEL_SIZE.
  set (nw := inject_Z (Z.of_nat (naturalWidth img))) in *.
  set (nh := inject_Z (Z.of_nat (naturalHeight img))) in *.
  cbn [div]. rewrite (Qeq_bool_pos nh Hnh).
  assert (Hasp : 0 < rnd (nw / nh)).
  { apply rnd_pos. assert (nw / nh * nh == nw) by (field; lra). nra. }
  set (aspect := rnd (nw / nh)) in *.
  assert (Hfinal : forall tw th : Q,
    exists rw rh,
      (Math_max (Fin (1 # 100))
         (Math_min (Fin 1) (div rnd (Math_max (Fin 20) (Fin tw)) (Fin w))),
       Math_max (Fin (1 # 100))
         (Math_min (Fin 1) (div rnd (Math_max (Fin 20) (Fin th)) (Fin h))))
        = (Fin rw, Fin rh) /\
      1 # 100 <= rw <= 1 /\ 1 # 100 <= rh <= 1).
  { intros tw th.
    assert (Hmax : forall t, exists m, Math_max (Fin 20) (Fin t) = Fin m).
    { intros t. unfold Math_max. cbn [gt]. destruct (Qltb 20 t); eauto. }
    destruct (Hmax tw) as [mw ->]. destruct (Hmax th) as [mh ->].
    cbn [div]. rewrite (Qeq_bool_pos w Ew), (Qeq_bool_pos h Eh).
    destruct (clamp_Fin (1 # 100) (rnd (mw / w)) ltac:(lra))
      as (rw & -> & Hrw).
    destruct (clamp_Fin (1 # 100) (rnd (mh / h)) ltac:(lra))
      as (rh & -> & Hrh).
    by exists rw, rh. }
  destruct ((naturalHeight img <=? naturalWidth img)%nat).
  - cbn [mul div]. rewrite (Qeq_bool_pos aspect Hasp). apply Hfinal.
  - cbn [mul]. apply Hfinal.
Qed.

(** X8. When the image of a layer has loaded, [handleLoadImageImage] gives
    every layer it updates (the target id, not yet holding an image) that
    image and a relative width and height that are numbers between 0.01
    and 1, whatever the image and stage sizes, and keeps its position,
    rotation, sources and flags; every other layer is unchanged, and a
    second call for the same id changes nothing. *)
Theorem loaded_layer_gets_valid_size (w h : Q) (target : string)
    (img img2 : HTMLImageElement) (prevImages : list ImageData) (k : nat)
    (image : ImageData) :
  prevImages !! k = Some image ->
  let stageSize := mkStageSize (Fin w) (Fin h) in
  let result := handleLoadImageImage rnd stageSize target img prevImages in
  handleLoadImageImage rnd stageSize target img2 result = result /\
  exists image',
    result !! k = Some image' /\
    (id image <> target \/ is_Some (konvaImage image) -> image' = image) /\
    (id image = target -> konvaImage image = None ->
       exists rw rh,
         relWidth image' = Fin rw /\ relHeight image' = Fin rh /\
         1 # 100 <= rw <= 1 /\ 1 # 100 <= rh <= 1 /\
         konvaImage image' = Some img /\
         id image' = id image /\
         relX image' = relX image /\ relY image' = relY image /\
         rotation image' = rotation image /\
         originalSrc image' = originalSrc image /\
         processedSrc image' = processedSrc image /\
         isRemovingBg image' = isRemovingBg image /\
         isLoading image' = isLoading image).
Proof.
  intros Hk stageSize result. subst result stageSize. split.
  - unfold handleLoadImageImage. rewrite <- list_fmap_compose.
    apply list_fmap_ext. intros j t Hj. cbn.
    destruct (String.eqb (id t) target) eqn:Eid; cbn [andb].
    + destruct (konvaImage t) as [old|] eqn:Ek.
      * rewrite bool_decide_eq_true_2 by eauto. cbn [negb].
        rewrite Eid, Ek. by rewrite bool_decide_eq_true_2 by eauto.
      * rewrite bool_decide_eq_false_2 by (by intros [? ?]). cbn [negb].
        destruct (initialRelSize _ _ img) as [rw rh]. cbn [id konvaImage].
        rewrite Eid. by rewrite bool_decide_eq_true_2 by eauto.
    + by rewrite Eid.
  - unfold handleLoadImageImage. rewrite list_lookup_fmap, Hk. cbn.
    eexists. split; [reflexivity|].
    destruct (String.eqb_spec (id image) target) as [Heq|Hne]; cbn [andb].
    + destruct (konvaImage image) as [old|] eqn:Ek.
      * rewrite bool_decide_eq_true_2 by eauto. cbn [negb].
        split; [done|]. intros _ [=].
      * rewrite bool_decide_eq_false_2 by (by intros [? ?]). cbn [negb].
        destruct (initialRelSize_bounds w h img)
          as (rw & rh & -> & Hrw & Hrh).
        split.
        { intros [?|[? ?]]; done. }
        intros _ _. exists rw, rh. repeat split; try done; lra.
    + split; [done|]. intros Heq. done.
Qed.

End Rounding.

Lemma stage_fits_container_witness :
  let b := sampleBaseImage in
  exists W H scale,
    calculateStageSize (rnd_up u53) (Some (1200, 700)%nat) (Some b)
      (mkStageSize (Fin 100) (Fin 100)) = mkStageSize (Fin W) (Fin H) /\
    0 < scale /\ 0 < W /\ 0 < H /\
    (1 - u53) * (1000 * scale) <= W <= (1 + u53) * (1000 * scale) /\
    (1 - u53) * (800 * scale) <= H <= (1 + u53) * (800 * scale) /\
    W <= (1 + u53) * (1 + u53) * 1200 /\
    H <= (1 + u53) * (1 + u53) * 700 /\
    ((1 - u53) * (1 - u53) * 1200 <= W \/ (1 - u53) * (1 - u53) * 700 <= H).
Proof.
  intros b.
  exact (stage_fits_container (rnd_up u53) u53
           ltac:(unfold u53; lra) ltac:(unfold u53; lra)
           (CoordinateProps.rnd_up_rounds_within u53 ltac:(unfold u53; lra))
           1200 700 b (mkStageSize (Fin 100) (Fin 100))
           ltac:(lia) ltac:(lia) ltac:(simpl; lia) ltac:(simpl; lia)).
Defined.

Lemma loaded_layer_gets_valid_size_witness :
  let stageSize := mkStageSize (Fin 800) (Fin 600) in
  let img := mkHTMLImageElement "data:image/png;base64,AAAA" 3000 10 in
  let result :=
    handleLoadImageImage (rnd_up u53) stageSize "tmp" img withPlaceholder in
  handleLoadImageImage (rnd_up u53) stageSize "tmp" img result = result /\
  exists image',
    result !! 1%nat = Some image' /\
    exists rw rh,
      relWidth image' = Fin rw /\ relHeight image' = Fin rh /\
      1 # 100 <= rw <= 1 /\ 1 # 100 <= rh <= 1 /\
      konvaImage image' = Some img.
Proof.
  intros stageSize img result.
  destruct (loaded_layer_gets_valid_size (rnd_up u53) u53
              ltac:(unfold u53; lra)
              (CoordinateProps.rnd_up_rounds_within u53
                 ltac:(unfold u53; lra))
              800 600 "tmp" img img withPlaceholder 1
              (placeholderImage "tmp" "icon.png") eq_refl)
    as (Hidem & image' & Hk & _ & Hnew).
  split; [exact Hidem|]. exists image'. split; [exact Hk|].
  destruct (Hnew eq_refl eq_refl)
    as (rw & rh & Hw & Hh & Hrw & Hrh & Himg & _).
  exists rw, rh. split; [exact Hw|]. split; [exact Hh|].
  split; [exact Hrw|]. split; [exact Hrh|]. exact Himg.
Defined.

End StageProps.

(** ** Selection *)
Module SelectionClickProps.
Import Types Layers Stage Selection Notions Examples.

Lemma filter_ne_notin (c : string) (l : list string) :
  c ∉ l -> filter (fun i => i <> c) l = l.
Proof.
  induction l as [|a l IH]; intros Hc; [done|].
  apply not_elem_of_cons in Hc as [Hne Hc].
  rewrite filter_cons_True by done. by rewrite IH.
Qed.

Lemma filter_ne_snoc (c : string) (l : list string) :
  NoDup l -> c ∈ l -> filter (fun i => i <> c) l ++ [c] ≡ₚ l.
Proof.
  induction l as [|a l IH]; intros Hnd Hc; [by apply elem_of_nil in Hc|].
  apply NoDup_cons in Hnd as [Ha Hnd].
  destruct (decide (a = c)) as [->|Hne].
  - rewrite filter_cons_False by (by intros ?).
    rewrite filter_ne_notin by done.
    symmetry. apply Permutation_cons_append.
  - rewrite filter_cons_True by done.
    apply elem_of_cons in Hc as [->|Hc]; [done|].
    cbn. by rewrite IH.
Qed.

(** X9. A click on a layer with Shift/Ctrl/Meta held toggles that layer in
    the selection and touches no other id: afterwards an id is selected
    exactly when it is the clicked one and was not selected, or another one
    and was selected.  A selection without repeats stays without repeats,
    and a second such click gives back the selection it started from (up to
    order).  Without the modifier, the clicked layer is selected afterwards
    and a selection that already held it is kept whole. *)
Theorem modifier_click_toggles (clickedId : string) (prev : list string) :
  let toggled := handleStageClick false images (OnImage clickedId) true prev in
  let plain := handleStageClick false images (OnImage clickedId) false prev in
  (forall i, i ∈ toggled <->
     (i = clickedId /\ clickedId ∉ prev) \/ (i <> clickedId /\ i ∈ prev)) /\
  (NoDup prev -> NoDup toggled) /\
  (NoDup prev ->
   handleStageClick false images (OnImage clickedId) true toggled ≡ₚ prev) /\
  clickedId ∈ plain /\
  (clickedId ∈ prev -> plain = prev) /\
  (NoDup prev -> NoDup plain).
Proof.
  intros toggled plain. subst toggled plain. unfold handleStageClick.
  cbn [negb]. case_bool_decide as Hin.
  - split; [|split; [|split; [|split; [|split]]]].
    + intros i. rewrite list_elem_of_filter. split.
      * intros [Hne Hi]. by right.
      * intros [[-> Hc]|[Hne Hi]]; done.
    + apply NoDup_filter.
    + intros Hnd. rewrite bool_decide_eq_false_2.
      * by apply filter_ne_snoc.
      * rewrite list_elem_of_filter. by intros [? _].
    + done.
    + done.
    + done.
  - split; [|split; [|split; [|split; [|split]]]].
    + intros i. rewrite elem_of_app, list_elem_of_singleton. split.
      * intros [Hi| ->]; [right|left]; [|done]. split; [|done].
        by intros ->.
      * intros [[-> _]|[_ Hi]]; [by right|by left].
    + intros Hnd. apply NoDup_app. split; [done|]. split.
      * intros i Hi ->%list_elem_of_singleton. done.
      * apply NoDup_singleton.
    + intros Hnd. rewrite bool_decide_eq_true_2.
      * rewrite filter_app, filter_ne_notin by done.
        rewrite filter_cons_False by (by intros ?). cbn.
        by rewrite app_nil_r.
      * apply elem_of_app. right. by apply list_elem_of_singleton.
    + by apply list_elem_of_singleton.
    + done.
    + intros _. apply NoDup_singleton.
Qed.

(** X10. Removing a layer removes it from the layer list and from the
    selection together: the other layers and the other selected ids stay,
    in their order, and if before the removal every selected id named a
    layer of the list, so does every selected id after it. *)
Theorem remove_image_keeps_selection_valid (target : string)
    (prevImages : list ImageData) (prevSelected : list string) :
  let '(newImages, newSelected) :=
    handleRemoveImage target prevImages prevSelected in
  (forall t, t ∈ newImages <-> t ∈ prevImages /\ id t <> target) /\
  (forall i, i ∈ newSelected <-> i ∈ prevSelected /\ i <> target) /\
  newImages `sublist_of` prevImages /\
  newSelected `sublist_of` prevSelected /\
  ((forall i, i ∈ prevSelected -> exists t, t ∈ prevImages /\ id t = i) ->
   forall i, i ∈ newSelected -> exists t, t ∈ newImages /\ id t = i).
Proof.
  cbn. split; [|split; [|split; [|split]]].
  - intros t. rewrite list_elem_of_filter. tauto.
  - intros i. rewrite list_elem_of_filter. tauto.
  - apply sublist_filter.
  - apply sublist_filter.
  - intros Hvalid i Hi. apply list_elem_of_filter in Hi as [Hne Hi].
    destruct (Hvalid i Hi) as (t & Ht & Hid).
    exists t. split; [|done]. apply list_elem_of_filter.
    split; [|done]. by rewrite Hid.
Qed.

End SelectionClickProps.

(** ** Rendering layers and reading them back *)
Module RenderProps.
Import JS JSFacts Types Layers CanvasRender Specs Samples Notions Examples.
Local Open Scope Q_scope.

Section Rounding.
Variable rnd : Q -> Q.
Variable complete : HTMLImageElement -> bool.
Variable u : Q.
Hypothesis u_nonneg : 0 <= u.
Hypothesis u_small : u < 1.
Hypothesis rnd_ok : rounds_within rnd u.

Lemma rnd_within (q b : Q) :
  Qabs q <= b -> q - u * b <= rnd q /\ rnd q <= q + u * b.
Proof.
  intros Hq. pose proof (rnd_ok q) as H.
  assert (Hm : u * Qabs q <= u * b) by nra.
  apply Qabs_Qle_condition in H as [H1 H2]. split; lra.
Qed.

(** One coordinate of a layer: relative, to stage pixels, and back, with
    no clamping. *)
Lemma layer_coordinate_round_trip (q w : Q) :
  0 < w ->
  exists a q',
    mul rnd (Fin q) (Fin w) = Fin a /\
    div rnd (Fin a) (Fin w) = Fin q' /\
    Qabs (q' - q) <= (2 * u + u * u) * Qabs q.
Proof.
  intros Hw. exists (rnd (q * w)), (rnd (rnd (q * w) / w)).
  split; [done|]. split.
  { cbn [div]. destruct (Qeq_bool w 0) eqn:E; [|done].
    apply Qeq_bool_iff in E. lra. }
  set (m := Qabs q).
  assert (Hm0 : 0 <= m) by apply Qabs_nonneg.
  assert (Hq : - m <= q /\ q <= m).
  { apply Qabs_Qle_condition. unfold m. lra. }
  assert (Hqw : Qabs (q * w) <= m * w).
  { apply Qabs_Qle_condition. split; nra. }
  destruct (rnd_within (q * w) (m * w) Hqw) as [Ha1 Ha2].
  set (a := rnd (q * w)) in *.
  assert (Hc : a / w * w == a) by (field; lra).
  set (c := a / w) in *.
  assert (Hc1 : q - u * m <= c) by nra.
  assert (Hc2 : c <= q + u * m) by nra.
  assert (Hum : 0 <= u * m) by nra.
  assert (Hcabs : Qabs c <= m + u * m).
  { apply Qabs_Qle_condition. split; lra. }
  destruct (rnd_within c (m + u * m) Hcabs) as [Hb1 Hb2].
  apply Qabs_Qle_condition. split; nra.
Qed.

(** X11. A layer drawn by [renderImages] and dropped where it was drawn
    comes back unchanged up to rounding: [handleDragEnd] asks to update
    only [relX] and [relY], with values within [(2u + u^2) * |rel|] of the
    stored ones, and [handleUpdateImageTransform] applies that request to
    the layer, changing no other field. *)
Theorem drag_end_round_trip (w h rx ry : Q) (image : ImageData)
    (n : ImageNode) (prev : list ImageData) (k : nat) :
  0 < w -> 0 < h ->
  relX image = Fin rx -> relY image = Fin ry ->
  renderImage rnd complete (mkStageSize (Fin w) (Fin h)) image = Some n ->
  prev !! k = Some image ->
  exists rx' ry' image',
    handleDragEnd rnd images (mkStageSize (Fin w) (Fin h)) (asTarget n)
      = Some (id image,
              mkTransformAttrs (Some (Fin rx')) (Some (Fin ry'))
                None None None) /\
    Qabs (rx' - rx) <= (2 * u + u * u) * Qabs rx /\
    Qabs (ry' - ry) <= (2 * u + u * u) * Qabs ry /\
    handleUpdateImageTransform (id image)
      (mkTransformAttrs (Some (Fin rx')) (Some (Fin ry')) None None None)
      prev !! k = Some image' /\
    relX image' = Fin rx' /\ relY image' = Fin ry' /\
    relWidth image' = relWidth image /\
    relHeight image' = relHeight image /\
    rotation image' = rotation image /\
    id image' = id image /\ processedSrc image' = processedSrc image /\
    originalSrc image' = originalSrc image /\
    konvaImage image' = konvaImage image.
Proof.
  intros Hw Hh Hx Hy Hrender Hk.
  destruct (layer_coordinate_round_trip rx w Hw) as (ax & rx' & Hax & Hrx & Hdx).
  destruct (layer_coordinate_round_trip ry h Hh) as (ay & ry' & Hay & Hry & Hdy).
  assert (Hn : node_id n = id image /\ node_x n = Fin ax /\ node_y n = Fin ay).
  { unfold renderImage in Hrender.
    destruct (konvaImage image) as [img|]; [|done].
    destruct (_ && _) in Hrender; [|done].
    injection Hrender as <-. cbn [node_id node_x node_y stage_width
      stage_height]. by rewrite Hx, Hy, Hax, Hay. }
  destruct Hn as (Hid & Hnx & Hny).
  assert (Hvalid : validStage (mkStageSize (Fin w) (Fin h)) = true).
  { unfold validStage, truthy. cbn [stage_width stage_height].
    destruct (Qeq_bool w 0) eqn:E1; [apply Qeq_bool_iff in E1; lra|].
    destruct (Qeq_bool h 0) eqn:E2; [apply Qeq_bool_iff in E2; lra|]. done. }
  exists rx', ry'. eexists. split.
  { unfold handleDragEnd. rewrite Hvalid.
    rewrite bool_decide_eq_true_2 by done.
    cbn [asTarget isKonvaImage target_id target_x target_y andb
         stage_width stage_height].
    by rewrite Hid, Hnx, Hny, Hrx, Hry. }
  split; [done|]. split; [done|].
  unfold handleUpdateImageTransform. rewrite list_lookup_fmap, Hk.
  cbn [fmap option_fmap option_map]. rewrite String.eqb_refl.
  split; [reflexivity|]. repeat split.
Qed.

(** X12. On a stage with positive dimensions, the end of a resize of a node
    whose scaled width and height are numbers always asks for a relative
    width and height that are numbers above zero, so the validation of
    [handleUpdateImageTransform] keeps both size fields. *)
Theorem transform_end_size_accepted (w h : Q) (node : TargetNode) :
  0 < w -> 0 < h -> isKonvaImage node = true ->
  isValidNumber (mul rnd (target_width node) (target_scaleX node)) = true ->
  isValidNumber (mul rnd (target_height node) (target_scaleY node)) = true ->
  exists attrs vw vh,
    handleTransformEnd rnd (mkStageSize (Fin w) (Fin h)) node
      = Some (target_id node, attrs) /\
    attr_relWidth attrs = Some vw /\ attr_relHeight attrs = Some vh /\
    gt vw (Fin 0) = true /\ gt vh (Fin 0) = true /\
    attr_relWidth (validate attrs) = Some vw /\
    attr_relHeight (validate attrs) = Some vh.
Proof.
  intros Hw Hh Himg Hvw Hvh.
  assert (Hvalid : validStage (mkStageSize (Fin w) (Fin h)) = true).
  { unfold validStage, truthy. cbn [stage_width stage_height].
    destruct (Qeq_bool w 0) eqn:E1; [apply Qeq_bool_iff in E1; lra|].
    destruct (Qeq_bool h 0) eqn:E2; [apply Qeq_bool_iff in E2; lra|]. done. }
  assert (Hsize : forall (d : Q) (v : number),
    0 < d -> isValidNumber v = true ->
    let r := div rnd (Math_max MIN_RENDER_PIXEL_SIZE v) (Fin d) in
    gt r (Fin 0) = true /\ keepValidSize (Some r) = Some r).
  { intros d v Hd Hv r. subst r. unfold MIN_RENDER_PIXEL_SIZE.
    assert (Hd0 : Qeq_bool d 0 = false).
    { destruct (Qeq_bool d 0) eqn:E; [apply Qeq_bool_iff in E; lra|done]. }
    assert (Hdn : Qsign_neg d = false).
    { unfold Qsign_neg. apply Qltb_ge. lra. }
    assert (Hpos : forall m, 5 <= m -> 0 < rnd (m / d)).
    { intros m Hm. assert (Hmd : m / d * d == m) by (field; lra).
      assert (0 < m / d) by nra.
      destruct (rnd_within (m / d) (m / d)) as [H1 _].
      { rewrite Qabs_pos; lra. }
      nra. }
    destruct v as [|[]|q]; [done| | |].
    - cbn. rewrite Hd0. pose proof (Hpos 5 ltac:(lra)) as H5.
      assert (Hlt : Qltb 0 (rnd (5 / d)) = true) by (by apply Qltb_lt).
      unfold keepValidSize. cbn. rewrite Hlt.
      split; [done|].
      destruct (Qle_bool (rnd (5 / d)) 0) eqn:E; [|done].
      apply Qle_bool_iff in E. lra.
    - cbn. rewrite Hdn. done.
    - unfold Math_max. cbn [gt]. destruct (Qltb 5 q) eqn:E.
      + apply Qltb_lt in E. cbn. rewrite Hd0.
        pose proof (Hpos q ltac:(lra)) as H5.
        assert (Hlt : Qltb 0 (rnd (q / d)) = true) by (by apply Qltb_lt).
        unfold keepValidSize. cbn. rewrite Hlt. split; [done|].
        destruct (Qle_bool (rnd (q / d)) 0) eqn:E'; [|done].
        apply Qle_bool_iff in E'. lra.
      + cbn. rewrite Hd0. pose proof (Hpos 5 ltac:(lra)) as H5.
        assert (Hlt : Qltb 0 (rnd (5 / d)) = true) by (by apply Qltb_lt).
        unfold keepValidSize. cbn. rewrite Hlt. split; [done|].
        destruct (Qle_bool (rnd (5 / d)) 0) eqn:E'; [|done].
        apply Qle_bool_iff in E'. lra. }
  destruct (Hsize w _ Hw Hvw) as [Hgw Hkw].
  destruct (Hsize h _ Hh Hvh) as [Hgh Hkh].
  unfold handleTransformEnd. rewrite Himg, Hvalid. cbn [negb orb].
  eexists _, _, _. split; [reflexivity|].
  cbn [attr_relWidth attr_relHeight validate stage_width stage_height].
  repeat split; done.
Qed.

End Rounding.

Section Drawing.
Variable rnd : Q -> Q.
Variable complete : HTMLImageElement -> bool.

Lemma min_size_enforced (v : number) :
  isValidNumber v = true ->
  le MIN_RENDER_PIXEL_SIZE (Math_max MIN_RENDER_PIXEL_SIZE v) = true.
Proof.
  intros Hv. unfold MIN_RENDER_PIXEL_SIZE, Math_max.
  destruct v as [|[]|q]; try done. cbn [gt le].
  destruct (Qltb 5 q) eqn:E; cbn [le].
  - apply Qltb_lt in E. apply Qle_bool_iff. lra.
  - apply Qle_bool_iff. lra.
Qed.

Lemma mul_valid (r : number) (d : Q) :
  isValidNumber r = true -> Qeq_bool d 0 = false ->
  isValidNumber (mul rnd r (Fin d)) = true.
Proof. intros Hr Hd. destruct r as [|s|q]; cbn; [done| |done]. by rewrite Hd. Qed.

Lemma renderImage_Some (w h : Q) (image : ImageData) (n : ImageNode) :
  validStage (mkStageSize (Fin w) (Fin h)) = true ->
  renderImage rnd complete (mkStageSize (Fin w) (Fin h)) image = Some n ->
  node_id n = id image /\ konvaImage image = Some (node_image n) /\
  node_rotation n = rotation image /\
  node_x n = mul rnd (relX image) (Fin w) /\
  node_y n = mul rnd (relY image) (Fin h) /\
  le MIN_RENDER_PIXEL_SIZE (node_width n) = true /\
  le MIN_RENDER_PIXEL_SIZE (node_height n) = true.
Proof.
  unfold validStage, truthy. cbn [stage_width stage_height].
  intros Hstage Hr. apply andb_true_iff in Hstage as [Hw Hh].
  apply negb_true_iff in Hw, Hh.
  unfold renderImage in Hr. destruct (konvaImage image) as [img|]; [|done].
  destruct (complete img && _) ; [|done]. cbn [andb] in Hr.
  destruct (forallb _ _) eqn:Hvalid; [|done].
  injection Hr as <-. cbn [forallb] in Hvalid.
  repeat (apply andb_true_iff in Hvalid as [? Hvalid]).
  cbn [node_id node_image node_rotation node_x node_y node_width node_height
       stage_width stage_height].
  do 5 (split; [reflexivity|]). split.
  - exact (min_size_enforced _ (mul_valid (relWidth image) w H1 Hw)).
  - exact (min_size_enforced _ (mul_valid (relHeight image) h H2 Hh)).
Qed.

(** X13. [renderImages] draws layers in store order and never below the
    minimum size: the ids of the nodes it returns are a sublist of the ids
    of the layer list, each node shows the image and rotation of its layer
    at the layer's relative position scaled by the stage, with a width and
    height that are at least 5 pixels; and nothing is drawn in "points"
    mode. *)
Theorem rendered_layers_in_store_order (w h : Q) (appMode : AppMode)
    (imgs : list ImageData) :
  let stageSize := mkStageSize (Fin w) (Fin h) in
  let nodes := renderImages rnd complete appMode stageSize imgs in
  (node_id <$> nodes) `sublist_of` (id <$> imgs) /\
  (appMode = points -> nodes = []) /\
  forall n, n ∈ nodes ->
    exists image,
      image ∈ imgs /\ node_id n = id image /\
      konvaImage image = Some (node_image n) /\
      node_rotation n = rotation image /\
      node_x n = mul rnd (relX image) (Fin w) /\
      node_y n = mul rnd (relY image) (Fin h) /\
      le MIN_RENDER_PIXEL_SIZE (node_width n) = true /\
      le MIN_RENDER_PIXEL_SIZE (node_height n) = true.
Proof.
  intros stageSize nodes. subst nodes. unfold renderImages.
  destruct (bool_decide (appMode <> images)) eqn:Emode; cbn [orb].
  { split; [apply sublist_nil_l|]. split; [done|].
    intros n Hn. by apply elem_of_nil in Hn. }
  destruct (validStage stageSize) eqn:Estage; cbn [negb].
  2:{ split; [apply sublist_nil_l|]. split; [done|].
      intros n Hn. by apply elem_of_nil in Hn. }
  split; [|split].
  - induction imgs as [|t imgs IH]; [done|].
    cbn [omap list_omap fmap list_fmap].
    destruct (renderImage rnd complete stageSize t) as [n|] eqn:Hr.
    + cbn [fmap list_fmap].
      destruct (renderImage_Some w h t n Estage Hr) as [-> _].
      by apply sublist_skip.
    + by apply sublist_cons.
  - intros ->. apply bool_decide_eq_false in Emode. by destruct Emode.
  - intros n Hn. apply list_elem_of_omap in Hn as (image & Hin & Hr).
    exists image. split; [done|]. by apply renderImage_Some.
Qed.

End Drawing.

Lemma drag_end_round_trip_witness :
  let stage := mkStageSize (Fin 800) (Fin 600) in
  exists n,
    renderImage (rnd_up u53) (fun _ => true) stage loadedLayer = Some n /\
    exists rx' ry' image',
      handleDragEnd (rnd_up u53) images stage (asTarget n)
        = Some ("photo"%string,
                mkTransformAttrs (Some (Fin rx')) (Some (Fin ry'))
                  None None None) /\
      Qabs (rx' - (1 # 4)) <= (2 * u53 + u53 * u53) * Qabs (1 # 4) /\
      Qabs (ry' - (1 # 4)) <= (2 * u53 + u53 * u53) * Qabs (1 # 4) /\
      handleUpdateImageTransform "photo"
        (mkTransformAttrs (Some (Fin rx')) (Some (Fin ry')) None None None)
        withPlaceholder !! 0%nat = Some image' /\
      relX image' = Fin rx' /\ relY image' = Fin ry' /\
      relWidth image' = Fin (2 # 5) /\ relHeight image' = Fin (2 # 5).
Proof.
  intros stage. eexists. split; [reflexivity|].
  destruct (drag_end_round_trip (rnd_up u53) (fun _ => true) u53
              ltac:(unfold u53; lra)
              (CoordinateProps.rnd_up_rounds_within u53
                 ltac:(unfold u53; lra))
              800 600 (1 # 4) (1 # 4) loadedLayer _ withPlaceholder 0
              ltac:(lra) ltac:(lra) eq_refl eq_refl eq_refl eq_refl)
    as (rx' & ry' & image' & Hd & Hx & Hy & Hu & Hrx & Hry & Hw & Hh & _).
  exists rx', ry', image'.
  split; [exact Hd|]. split; [exact Hx|]. split; [exact Hy|].
  split; [exact Hu|]. split; [exact Hrx|]. split; [exact Hry|].
  split; [exact Hw|exact Hh].
Defined.

Lemma transform_end_size_accepted_witness :
  let node :=
    mkTargetNode true "photo" (Fin 200) (Fin 150) (Fin 320) (Fin 240)
      (Fin 0) (Fin (1 # 100)) (Fin (1 # 100)) in
  exists attrs vw vh,
    handleTransformEnd (rnd_up u53) (mkStageSize (Fin 800) (Fin 600)) node
      = Some ("photo"%string, attrs) /\
    attr_relWidth attrs = Some vw /\ attr_relHeight attrs = Some vh /\
    gt vw (Fin 0) = true /\ gt vh (Fin 0) = true /\
    attr_relWidth (validate attrs) = Some vw /\
    attr_relHeight (validate attrs) = Some vh.
Proof.
  intros node.
  exact (transform_end_size_accepted (rnd_up u53) u53
           ltac:(unfold u53; lra) ltac:(unfold u53; lra)
           (CoordinateProps.rnd_up_rounds_within u53 ltac:(unfold u53; lra))
           800 600 node ltac:(lra) ltac:(lra) eq_refl eq_refl eq_refl).
Defined.

End RenderProps.

(** ** Invariants of the segmentation session *)
Module SessionInvariants.
Import JS JSFacts Types App Specs Notions.

Lemma step_noImageNoMask (e : Event) (st : AppState) :
  noImageNoMask st -> noImageNoMask (step e st).
Proof.
  unfold noImageNoMask. intros Hinv.
  destruct e as [[newId px py l|pid|]|newSrc el w h| |ready| | |req [res|]
                |req [newMask|]]; cbn;
    unfold handleToggleGlobalClip, embeddingEffect, segmentationEffect,
      embeddingResolved, embeddingRejected, segmentationResolved;
    repeat case_match; cbn; intros Hb;
    try done; try (by apply Hinv); try congruence.
  all: destruct (Hinv Hb) as [Hm Hc]; try congruence; done.
Qed.

Lemma run_preserves (P : AppState -> Prop) :
  (forall e st, P st -> P (step e st)) ->
  forall events st, P st -> P (run events st).
Proof.
  intros Hstep events. unfold run.
  induction events as [|e events IH]; intros st Hst; [done|].
  cbn. apply IH. by apply Hstep.
Qed.

(** X14. Whatever the user does and in whatever order effects run and
    requests settle, the session never holds mask data, and never has the
    clip toggle on, while there is no live base image: this holds of every
    state reached from the initial one, and is kept by every sequence of
    events from any state where it holds. *)
Theorem no_mask_without_base_image (events : list Event) :
  noImageNoMask (run events initialAppState) /\
  (forall st, noImageNoMask st -> noImageNoMask (run events st)).
Proof.
  assert (H : forall st, noImageNoMask st -> noImageNoMask (run events st)).
  { apply run_preserves. apply step_noImageNoMask. }
  split; [|done]. apply H. done.
Qed.

Lemma clamp01_number (v : number) :
  isValidNumber v = true ->
  exists q, Math_max (Fin 0) (Math_min (Fin 1) v) = Fin q /\ (0 <= q <= 1)%Q.
Proof.
  intros Hv. destruct v as [|[]|q]; [done| | |].
  - exists 0%Q. split; [done|]. split; lra.
  - exists 1%Q. split; [done|]. split; lra.
  - destruct (StageProps.clamp_Fin 0 q ltac:(lra)) as (c & Hc & Hb).
    by exists c.
Qed.

Lemma clamp01_clamped (v : number) :
  clampedCoordinate (Math_max (Fin 0) (Math_min (Fin 1) v)).
Proof.
  destruct (isValidNumber v) eqn:Hv.
  - right. by apply clamp01_number.
  - left. by destruct v.
Qed.

Lemma step_pointsClamped (e : Event) (st : AppState) :
  pointsClamped st -> pointsClamped (step e st).
Proof.
  unfold pointsClamped. intros Hinv.
  destruct e as [[newId px py l|pid|]|newSrc el w h| |ready| | |req [res|]
                |req [newMask|]].
  - cbn [step applyPointMutation handleAddPoint setShowMask
         setSegmentationPoints segmentationPoints].
    intros p Hp. apply elem_of_app in Hp as [Hp|Hp]; [by apply Hinv|].
    apply list_elem_of_singleton in Hp as ->. cbn [x y].
    split; apply clamp01_clamped.
  - cbn. intros p Hp. apply list_elem_of_filter in Hp as [_ Hp].
    by apply Hinv.
  - cbn. intros p Hp. by apply elem_of_nil in Hp.
  - done.
  - cbn. unfold handleToggleGlobalClip. by repeat case_match.
  - done.
  - cbn. unfold embeddingEffect. by repeat case_match.
  - cbn. unfold segmentationEffect. by repeat case_match.
  - cbn. unfold embeddingResolved. by repeat case_match.
  - cbn. unfold embeddingRejected. by repeat case_match.
  - cbn. unfold segmentationResolved. by repeat case_match.
  - done.
Qed.

(** X15. Every segmentation point the session ever stores has coordinates
    that went through the clamp of [handleAddPoint]: each is a number
    between 0 and 1 (or NaN, when a NaN was passed in), in every state
    reached from the initial one by any sequence of events; and a point
    added with numeric arguments, however far outside the image, is stored
    with both coordinates in [0, 1]. *)
Theorem stored_points_are_clamped (events : list Event) :
  pointsClamped (run events initialAppState) /\
  (forall st, pointsClamped st -> pointsClamped (run events st)) /\
  (forall newId px py l st,
     isValidNumber px = true -> isValidNumber py = true ->
     exists qx qy,
       segmentationPoints (handleAddPoint newId px py l st)
         = segmentationPoints st ++ [mkPointData newId (Fin qx) (Fin qy) l] /\
       (0 <= qx <= 1)%Q /\ (0 <= qy <= 1)%Q).
Proof.
  assert (H : forall st, pointsClamped st -> pointsClamped (run events st)).
  { apply run_preserves. apply step_pointsClamped. }
  split; [|split; [done|]].
  - apply H. intros p Hp. by apply elem_of_nil in Hp.
  - intros newId px py l st Hx Hy.
    cbn [handleAddPoint setShowMask setSegmentationPoints
         segmentationPoints].
    destruct (clamp01_number px Hx) as (qx & -> & Hbx).
    destruct (clamp01_number py Hy) as (qy & -> & Hby).
    by exists qx, qy.
Qed.

End SessionInvariants.

(** ** The highlight canvas and the shape of a segmentation result *)
Module HighlightProps.
Import JS JSFacts Transformers Specs Samples Notions.

Lemma blueLoop_length (raw : list number) (i : nat) (buf : list Z) :
  length (blueLoop raw i buf) = length buf.
Proof.
  revert i buf. induction raw as [|m raw IH]; intros i buf; [done|].
  cbn [blueLoop]. rewrite IH.
  destruct (strictEq m (Fin 1)); by rewrite ?length_insert.
Qed.

(** One pass of the loop body for pixel [i0], seen at byte [k] of pixel
    [p]. *)
Lemma blueLoop_body (m : number) (i0 : nat) (buf : list Z) (p k : nat) :
  k < 4 ->
  (if strictEq m (Fin 1)
   then <[4 * i0 + 3 := 150%Z]>
          (<[4 * i0 + 2 := 189%Z]>
             (<[4 * i0 + 1 := 114%Z]> (<[4 * i0 := 0%Z]> buf)))
   else <[4 * i0 + 3 := 0%Z]> buf) !! (4 * p + k)
  = if bool_decide (p = i0)
    then (fun old => if strictEq m (Fin 1) then highlightByte k
                     else if k =? 3 then 0%Z else old) <$> buf !! (4 * p + k)
    else buf !! (4 * p + k).
Proof.
  intros Hk. case_bool_decide as Hp.
  - subst p. destruct (strictEq m (Fin 1)).
    + destruct (decide (4 * i0 + k < length buf)) as [Hlt|Hge].
      * destruct (lookup_lt_is_Some_2 buf _ Hlt) as [z Hz]. rewrite Hz.
        destruct k as [|[|[|[|k]]]]; [| | | |lia].
        -- rewrite Nat.add_0_r in *.
           rewrite !list_lookup_insert_ne by lia.
           rewrite list_lookup_insert. by rewrite decide_True by lia.
        -- rewrite !list_lookup_insert_ne by lia.
           rewrite list_lookup_insert.
           by rewrite decide_True by (rewrite ?length_insert; lia).
        -- rewrite !list_lookup_insert_ne by lia.
           rewrite list_lookup_insert.
           by rewrite decide_True by (rewrite ?length_insert; lia).
        -- rewrite list_lookup_insert.
           by rewrite decide_True by (rewrite ?length_insert; lia).
      * rewrite (lookup_ge_None_2 buf) by lia.
        apply lookup_ge_None_2. rewrite !length_insert. lia.
    + destruct (decide (k = 3)) as [->|Hk3].
      * rewrite list_lookup_insert. case_decide as Hd.
        -- destruct (lookup_lt_is_Some_2 buf _ (proj2 Hd)) as [z ->]. done.
        -- rewrite lookup_ge_None_2; [done|]. lia.
      * rewrite list_lookup_insert_ne by lia.
        replace (k =? 3) with false by (symmetry; apply Nat.eqb_neq; lia).
        by destruct (buf !! _).
  - destruct (strictEq m (Fin 1)).
    + by rewrite !list_lookup_insert_ne by lia.
    + by rewrite list_lookup_insert_ne by lia.
Qed.

(** Byte [k] of pixel [p] after the loop started at pixel [i0]. *)
Lemma blueLoop_lookup (raw : list number) (i0 : nat) (buf : list Z)
    (p k : nat) :
  k < 4 ->
  blueLoop raw i0 buf !! (4 * p + k) =
  match (if bool_decide (i0 <= p) then raw !! (p - i0) else None) with
  | Some m =>
      (fun old => if strictEq m (Fin 1) then highlightByte k
                  else if k =? 3 then 0%Z else old) <$> buf !! (4 * p + k)
  | None => buf !! (4 * p + k)
  end.
Proof.
  intros Hk. revert i0 buf. induction raw as [|m raw IH]; intros i0 buf.
  - cbn [blueLoop]. by case_bool_decide.
  - cbn [blueLoop]. cbv zeta. rewrite IH. clear IH.
    rewrite !blueLoop_body by done.
    destruct (decide (p = i0)) as [->|Hne].
    + rewrite (bool_decide_eq_false_2 (S i0 <= i0)) by lia.
      rewrite (bool_decide_eq_true_2 (i0 <= i0)) by lia.
      rewrite (bool_decide_eq_true_2 (i0 = i0)) by done.
      by rewrite Nat.sub_diag.
    + rewrite (bool_decide_eq_false_2 (p = i0)) by done.
      destruct (decide (i0 < p)) as [Hlt|Hge].
      * rewrite (bool_decide_eq_true_2 (S i0 <= p)) by lia.
        rewrite (bool_decide_eq_true_2 (i0 <= p)) by lia.
        by replace (p - i0) with (S (p - S i0)) by lia.
      * rewrite (bool_decide_eq_false_2 (S i0 <= p)) by lia.
        by rewrite (bool_decide_eq_false_2 (i0 <= p)) by lia.
Qed.

Lemma segmentWithPointsImpl_mask (ready : bool) (element : ImageElement)
    (numPoints : nat) (resp : SamResponse) (md : MaskData) (c : Canvas) :
  segmentWithPointsImpl ready element numPoints (Some resp) = Some md ->
  maskCanvas md = Some c ->
  buildMaskData element resp = Returned md.
Proof.
  unfold segmentWithPointsImpl. intros H Hc.
  destruct ready; [|done]. cbn [negb] in H.
  destruct (numPoints =? 0).
  - injection H as <-. done.
  - destruct (buildMaskData element resp); [done|]. by injection H as <-.
Qed.

(** X16. The highlight canvas of a successful segmentation, pixel by pixel:
    the four bytes are the highlight colour (0, 114, 189, 150) where the
    winning candidate's mask is 1 and are all 0 elsewhere, so the highlight
    is drawn (alpha 150) exactly where the mask is 1 and is fully
    transparent exactly where it is not. *)
Theorem highlight_buffer (ready : bool) (element : ImageElement)
    (numPoints : nat) (resp : SamResponse) (md : MaskData) (c : Canvas)
    (rawMaskData : list number) (h w i : nat) :
  segmentWithPointsImpl ready element numPoints (Some resp) = Some md ->
  maskCanvas md = Some c ->
  extractMask (masks resp) (selectBestIndex (iou_scores resp))
    = Returned (rawMaskData, h, w) ->
  i < h * w ->
  (forall k, k < 4 ->
     rgba c !! (4 * i + k)
       = Some (if maskIsOne rawMaskData i then highlightByte k else 0%Z)) /\
  (alphaAt c i = Some 150%Z <-> maskIsOne rawMaskData i = true) /\
  (alphaAt c i = Some 0%Z <-> maskIsOne rawMaskData i = false).
Proof.
  intros Hs Hc He Hi.
  pose proof (segmentWithPointsImpl_mask _ _ _ _ _ _ Hs Hc) as Hb.
  apply ClipProps.buildMaskData_Returned in Hb
    as (raw' & h' & w' & He' & _ & _ & _ & Hm).
  rewrite He in He'. injection He' as <- <- <-.
  assert (Ec : c = mkCanvas w h
                     (blueLoop rawMaskData 0 (replicate (4 * (w * h)) 0%Z)))
    by congruence.
  subst c. clear Hm.
  destruct (ClipProps.extractMask_Returned _ _ _ _ _ He)
    as (t & n & _ & _ & Hlen & _).
  assert (Hbytes : forall k, k < 4 ->
    rgba (mkCanvas w h (blueLoop rawMaskData 0 (replicate (4 * (w * h)) 0%Z)))
      !! (4 * i + k)
    = Some (if maskIsOne rawMaskData i then highlightByte k else 0%Z)).
  { intros k Hk. cbn [rgba]. rewrite blueLoop_lookup by done.
    rewrite (bool_decide_eq_true_2 (0 <= i)) by lia. rewrite Nat.sub_0_r.
    unfold maskIsOne.
    destruct (lookup_lt_is_Some_2 rawMaskData i) as [m Hm]; [lia|].
    rewrite Hm. rewrite lookup_replicate_2 by lia. cbn [fmap option_fmap option_map].
    destruct (strictEq m (Fin 1)); [done|]. by destruct (k =? 3). }
  split; [done|].
  unfold alphaAt. rewrite (Hbytes 3 ltac:(lia)).
  destruct (maskIsOne rawMaskData i); cbn; split; split; congruence.
Qed.

Lemma highlight_buffer_witness :
  exists c,
    maskCanvas <$> segmentWithPointsImpl true greyImage 1 (Some threeCandidates)
      = Some (Some c) /\
    rgba c = [0; 114; 189; 150; 0; 0; 0; 0;
              0; 0; 0; 0; 0; 114; 189; 150]%Z /\
    (alphaAt c 3 = Some 150%Z <->
       maskIsOne [Fin 1; Fin 0; Fin 0; Fin 1] 3 = true).
Proof.
  eexists. split; [reflexivity|]. split; [reflexivity|].
  assert (Hi : 3 < 2 * 2) by (simpl; lia).
  exact (proj1 (proj2 (highlight_buffer true greyImage 1 threeCandidates _ _
                         [Fin 1; Fin 0; Fin 0; Fin 1] 2 2 3
                         eq_refl eq_refl eq_refl Hi))).
Defined.

(** X17. A segmentation never resolves to a half-built result: when it
    resolves to a value at all the prerequisites were met, and the value
    either holds no canvas (no points were given) or holds both canvases,
    of one and the same non-empty size, each with 4 bytes per pixel. *)
Theorem segmentation_result_complete (ready : bool) (element : ImageElement)
    (numPoints : nat) (resp : option SamResponse) (md : MaskData) :
  segmentWithPointsImpl ready element numPoints resp = Some md ->
  ready = true /\
  ((numPoints = 0 /\ md = mkMaskData None None) \/
   (numPoints <> 0 /\
    exists w h blue clip,
      md = mkMaskData (Some (mkCanvas w h blue)) (Some (mkCanvas w h clip)) /\
      w <> 0 /\ h <> 0 /\
      length blue = 4 * (w * h) /\ length clip = 4 * (w * h))).
Proof.
  unfold segmentWithPointsImpl. intros H.
  destruct ready; [|done]. cbn [negb] in H. split; [done|].
  destruct (numPoints =? 0) eqn:En.
  - left. apply Nat.eqb_eq in En. by injection H as <-.
  - right. apply Nat.eqb_neq in En. split; [done|].
    destruct resp as [r|]; [|done].
    destruct (buildMaskData element r) as [msg|md'] eqn:Hb; [done|].
    injection H as ->.
    apply ClipProps.buildMaskData_Returned in Hb
      as (raw & h & w & _ & Hw & Hh & Hc & Hm).
    exists w, h, (blueLoop raw 0 (replicate (4 * (w * h)) 0%Z)),
      (clipLoop raw 0 (getImageData element w h)).
    split; [destruct md; cbn in *; congruence|].
    split; [done|]. split; [done|]. split.
    + by rewrite blueLoop_length, length_replicate.
    + rewrite ClipProps.clipLoop_length. unfold getImageData.
      apply ClipProps.length_getImageData_from.
Qed.

Lemma segmentation_result_complete_witness :
  exists md,
    segmentWithPointsImpl true greyImage 1 (Some threeCandidates) = Some md /\
    exists w h blue clip,
      md = mkMaskData (Some (mkCanvas w h blue)) (Some (mkCanvas w h clip)) /\
      w <> 0 /\ h <> 0 /\
      length blue = 4 * (w * h) /\ length clip = 4 * (w * h).
Proof.
  eexists. split; [reflexivity|].
  destruct (segmentation_result_complete true greyImage 1
              (Some threeCandidates) _ eq_refl) as [_ [[E _]|[_ H]]].
  - discriminate E.
  - exact H.
Defined.

End HighlightProps.

(** ** The original source of a layer *)
Module LayerStoreProps.
Import JS Types Layers Stage LayerStore Notions Examples.

Lemma originals_fmap (g : ImageData -> ImageData) (imgs : list ImageData) :
  (forall t, id (g t) = id t /\ originalSrc (g t) = originalSrc t) ->
  originals (g <$> imgs) = originals imgs.
Proof.
  intros Hg. unfold originals. rewrite <- list_fmap_compose.
  apply list_fmap_ext. intros _ t _. cbn.
  by destruct (Hg t) as [-> ->].
Qed.

Lemma originals_mapAt (target : string) (f : ImageData -> ImageData)
    (imgs : list ImageData) :
  (forall t, id (f t) = id t /\ originalSrc (f t) = originalSrc t) ->
  originals (mapAt target f imgs) = originals imgs.
Proof.
  intros Hf. apply originals_fmap. intros t.
  by destruct (String.eqb (id t) target).
Qed.

Lemma spliceIn_Permutation (k : nat) (item : ImageData)
    (l : list ImageData) :
  spliceIn k item l ≡ₚ item :: l.
Proof.
  unfold spliceIn. rewrite <- Permutation_middle.
  by rewrite take_drop.
Qed.

Lemma handleReorderImages_Permutation (draggedId droppedOnId : string)
    (imgs : list ImageData) :
  handleReorderImages draggedId droppedOnId imgs ≡ₚ imgs.
Proof.
  unfold handleReorderImages.
  destruct (findIndex draggedId imgs) as [i|]; [|done].
  destruct (findIndex droppedOnId imgs) as [j|]; [|done].
  destruct (i =? j); [done|].
  destruct (imgs !! i) as [item|] eqn:Hi; [|done].
  rewrite spliceIn_Permutation. symmetry. by apply delete_Permutation.
Qed.

Section Rounding.
Variable rnd : Q -> Q.

Lemma layerStep_originals (e : LayerEvent) (imgs : list ImageData) :
  originals (layerStep rnd e imgs) ⊆+ originals imgs /\
  (isRemoved e = false ->
   originals (layerStep rnd e imgs) ≡ₚ originals imgs).
Proof.
  assert (Hperm : isRemoved e = false ->
                  originals (layerStep rnd e imgs) ≡ₚ originals imgs).
  { intros Hr. destruct e; cbn [layerStep]; try done.
    - unfold handleLoadImageImage. rewrite originals_fmap; [done|].
      intros t. destruct (_ && _); [|done].
      by destruct (initialRelSize _ _ _).
    - unfold handleUpdateImageTransform. rewrite originals_fmap; [done|].
      intros t. by destruct (String.eqb _ _).
    - unfold handleRemoveBackground.
      destruct (findImage _ _) as [image|]; [|done].
      destruct (_ || _); [done|]. cbn [fst].
      by rewrite originals_mapAt.
    - destruct outcome; cbn [removeBackgroundSettled];
        by rewrite originals_mapAt.
    - unfold handleAddColor.
      destruct (findImage _ _) as [image|]; [|done].
      destruct (_ || _); [done|]. cbn [fst].
      by rewrite originals_mapAt.
    - unfold addColorLoaded. by rewrite originals_mapAt.
    - by rewrite originals_mapAt.
    - unfold originals. apply fmap_Permutation.
      apply handleReorderImages_Permutation. }
  split; [|done].
  destruct (isRemoved e) eqn:Hr.
  - destruct e; try done. cbn [layerStep handleRemoveImage fst].
    unfold originals. apply fmap_submseteq, sublist_submseteq.
    apply sublist_filter.
  - by rewrite Hperm.
Qed.

(** X18. The original source of a layer is never rewritten once its file
    has been read: after any sequence of loads, transforms, background
    removals, tints, reorders and deletions, the (id, original source)
    pairs of the store are a sub-multiset of the initial ones; without a
    deletion they are the same pairs, counted with multiplicity, and the
    store holds as many layers as before. *)
Theorem original_source_never_rewritten (events : list LayerEvent)
    (imgs : list ImageData) :
  originals (runLayers rnd events imgs) ⊆+ originals imgs /\
  (forallb (fun e => negb (isRemoved e)) events = true ->
   originals (runLayers rnd events imgs) ≡ₚ originals imgs /\
   length (runLayers rnd events imgs) = length imgs).
Proof.
  unfold runLayers. revert imgs.
  induction events as [|e events IH]; intros imgs.
  - cbn. split; [done|]. by intros _.
  - cbn [foldl forallb].
    destruct (IH (layerStep rnd e imgs)) as [Hsub Hperm].
    destruct (layerStep_originals e imgs) as [Hsub1 Hperm1].
    split.
    + by etrans.
    + intros [He Hevents]%andb_true_iff.
      apply negb_true_iff in He.
      destruct (Hperm Hevents) as [Hp Hl].
      assert (Hp' : originals (foldl (fun l e0 => layerStep rnd e0 l)
                                 (layerStep rnd e imgs) events)
                    ≡ₚ originals imgs).
      { rewrite Hp. by apply Hperm1. }
      split; [done|].
      apply Permutation_length in Hp'. unfold originals in Hp'.
      by rewrite !length_fmap in Hp'.
Qed.

End Rounding.

End LayerStoreProps.
